(** * The job repository of cc-backend: a shallow embedding

    This development embeds [internal/repository/job.go] and states the
    properties of the repository layer as theorems over the embedding.

    Conventions.
    - Go strings and byte slices are [string] (lists of bytes); Go integers
      are [Z]; Go maps are [gmap string _].
    - The database is a pair of in-memory tables, read in table order.
      A statement always executes; the only database errors that arise
      are the ones the code distinguishes itself ([sql.ErrNoRows], a
      [NULL] scanned into a Go string, a statement that does not parse).
      The engine computes with 64-bit integers: a statement whose sums
      and products stay in that range is computed exactly, and what the
      engine delivers otherwise is a parameter of the embedding.
    - Go map values are references.  The maps decoded from the
      [meta_data] column live in a store ([mapHeap]) and are named by
      locations, so that aliasing between a job structure and the result
      cache is visible.
    - A Go panic is a result of its own ([Panic]): neither a value nor an
      error. *)

From stdpp Require Import gmap strings list fin_maps pretty sorting.
From Stdlib Require Import ZArith Lia Ascii String.

Local Open Scope Z_scope.
Local Open Scope string_scope.

(** ** Results of repository operations *)

Inductive Error :=
| ErrNoRows        (* sql.ErrNoRows *)
| ErrNotFound      (* "no such jobname, project or user" *)
| ErrForbidden     (* "not authorized" *)
| ErrScan          (* a row could not be scanned into the Go destination *)
| ErrQuery         (* the statement was rejected by the database *)
| ErrUnmarshal     (* json.Unmarshal failed *)
| ErrMarshal       (* json.Marshal failed *)
| ErrSecurity.     (* the role check refused the query *)

Inductive outcome (A : Type) :=
| Ok (a : A)
| Err (e : Error)
| Panic.
Arguments Ok {A} a.
Arguments Err {A} e.
Arguments Panic {A}.

Global Instance Error_eq_dec : EqDecision Error.
Proof. solve_decision. Defined.

(** ** The collaborators that are not part of the repository layer *)

Record Resource := {
  Hostname : string;
  HWThreads : list Z;
  Accelerators : list string;
  Configuration : string
}.

(** [encoding/json], restricted to the three uses in the file, the
    conversion of a float64 that does not fit into an int32, which Go
    leaves to the implementation, and the seconds of a [time.Duration].
    [Duration.Seconds] adds the whole seconds and the fraction as
    float64 values; below 2^24 seconds the sum is rounded to a value with
    the same integer part, so that the conversion to an integer cuts the
    fraction off, towards zero. *)
Class GoRuntime := {
  (* json.Unmarshal(raw, &resources) for a slice of pointers: a JSON null
     among the elements decodes to the nil pointer *)
  unmarshal_resources : string → option (list (option Resource));
  (* json.Unmarshal(raw, &job.MetaData): an error, the JSON value null
     (the destination is set to the nil map), or an object *)
  unmarshal_metadata : string → option (option (gmap string string));
  (* json.Marshal(job.MetaData) *)
  marshal_metadata : gmap string string → option string;
  (* int32(f) for f outside the int32 range *)
  int32_out_of_range : Z → Z;
  (* the integer part of time.Duration(d).Seconds(), d in nanoseconds *)
  duration_seconds : Z → Z;
  duration_seconds_exact :
    ∀ d, (- (2 ^ 24 * 10 ^ 9) < d < 2 ^ 24 * 10 ^ 9)%Z →
         duration_seconds d = Z.quot d (10 ^ 9)
}.

(** ** Identity and roles (package auth) *)

(** Modelled from the spec: the role set of the authorization provider,
    {administrator, support, manager, plain user}; the declaration of
    [auth.Role] is not part of the sources at hand. *)
Inductive Role := RoleAdmin | RoleSupport | RoleManager | RoleUser.

Global Instance Role_eq_dec : EqDecision Role.
Proof. solve_decision. Defined.

(** Modelled from the spec: the caller's identity and role set. *)
Record User := {
  Username : string;
  Name : string;
  Roles : list Role
}.

(** Modelled from the spec: [auth.User.HasAnyRole], true when the caller
    holds at least one of the queried roles. *)
Definition HasAnyRole (u : User) (queryroles : list Role) : bool :=
  existsb (λ r, bool_decide (r ∈ Roles u)) queryroles.

(** The request context: the identity returned by [auth.GetUser] (absent
    for an anonymous request) and the names of the fields requested by the
    GraphQL query ([graphql.CollectFieldsCtx]). *)
Record Context := {
  ctxUser : option User;
  ctxFields : list string
}.

Definition GetUser (ctx : Context) : option User := ctxUser ctx.

(** ** The data model *)

(** Modelled from the spec: the job states that [schema.JobState]
    declares. *)
Inductive JobState :=
| JobStateRunning | JobStateCompleted | JobStateFailed | JobStateCancelled
| JobStateStopped | JobStateTimeout | JobStatePreempted | JobStateOutOfMemory.

Global Instance JobState_eq_dec : EqDecision JobState.
Proof. solve_decision. Defined.

(** Modelled from the spec: the monitoring status of a job. *)
Inductive MonitoringStatus :=
| MonitoringStatusDisabled
| MonitoringStatusRunningOrArchiving
| MonitoringStatusArchivingFailed
| MonitoringStatusArchivingSuccessful.

Global Instance MonitoringStatus_eq_dec : EqDecision MonitoringStatus.
Proof. solve_decision. Defined.

(** A float64 is carried as its IEEE-754 bit pattern: the repository
    copies statistics, it never computes with them. *)
Definition float64 := Z.

Record JobStatistics := {
  Avg : float64;
  Min : float64;
  Max : float64
}.

(** A row of table [job]: the columns of [jobColumns], the [meta_data]
    column ([None] is [NULL]) and the summary columns written by
    [MarkArchived]. *)
Record JobRow := {
  id : Z;
  job_id : Z;
  user : string;
  project : string;
  cluster : string;
  subcluster : string;
  start_time : Z;
  partition : string;
  array_job_id : Z;
  num_nodes : Z;
  num_hwthreads : Z;
  num_acc : Z;
  exclusive : Z;
  monitoring_status : MonitoringStatus;
  smt : Z;
  job_state : JobState;
  duration : Z;
  walltime : Z;
  resources : string;
  meta_data : option string;
  flops_any_avg : option float64;
  mem_used_max : option float64;
  mem_bw_avg : option float64;
  load_avg : option float64;
  net_bw_avg : option float64;
  file_bw_avg : option float64
}.

(** A row of table [user]; [name] may be [NULL]. *)
Record UserRow := {
  username : string;
  name : option string
}.

(** ** Types of package model *)

Module model.

Inductive Aggregate := AggregateUser | AggregateProject | AggregateCluster.

Record HistoPoint := {
  Count : Z;
  Value : Z
}.

Record JobsStatistics := {
  ID : string;
  Name : option string;
  TotalJobs : Z;
  TotalWalltime : Z;
  TotalCoreHours : Z;
  ShortJobs : Z;
  HistDuration : list HistoPoint;
  HistNumNodes : list HistoPoint
}.

End model.

(** What the SQL engine decides by itself is a parameter of the
    embedding: the operator [LIKE] (wild cards, case folding), and the row
    whose columns an aggregate query without [GROUP BY] reports next to
    the aggregate, which SQL leaves open; there is such a row exactly when
    a row matches.  Text is compared for equality byte by byte, as under a
    binary collation.

    So is what an aggregate statement delivers outside the fragment that
    the engine computes exactly: when a product or a sum leaves the 64-bit
    range the engine goes on in floating point or fails the statement at
    one of its steps, and a statement with an empty cast keyword may or
    may not parse.  The loops over the result never read [rows.Err], so
    what the code sees of such a statement is the rows that are scanned
    before it ends, or the error of the query or of a scan.  The two
    parameters give these, for the statistics statement of a subcluster
    (grouping, cast keyword, sockets per node, cores per socket, matching
    rows) and for the statement of [CountGroupedJobs] (group column,
    weight term, limit, matching rows). *)
Class SqlEngine := {
  sql_like : string → string → bool;   (* text LIKE pattern *)
  sql_bare_row : list JobRow → option JobRow;
  sql_bare_row_elem : ∀ rows row, sql_bare_row rows = Some row → row ∈ rows;
  sql_bare_row_some : ∀ rows, rows ≠ [] → is_Some (sql_bare_row rows);
  sql_inexact_stats :
    option model.Aggregate → string → Z → Z → list JobRow →
    outcome (list (string * Z * Z * Z));
  sql_inexact_stats_no_panic :
    ∀ groupBy castType s c rows, sql_inexact_stats groupBy castType s c rows ≠ Panic;
  sql_inexact_counts :
    (JobRow → string) → (JobRow → Z) → option Z → list JobRow →
    outcome (list (string * Z));
  sql_inexact_counts_no_panic :
    ∀ key term limit rows, sql_inexact_counts key term limit rows ≠ Panic
}.

(** Locations of decoded metadata maps. *)
Definition loc := positive.

(** [schema.Job] as held in memory.  [MetaData] is a Go map: [None] is
    the nil map, [Some l] a reference. *)
Record Job := {
  ID : Z;
  JobID : Z;
  JUser : string;
  Project : string;
  Cluster : string;
  SubCluster : string;
  StartTimeUnix : Z;
  StartTime : Z;
  Partition : string;
  ArrayJobId : Z;
  NumNodes : Z;
  NumHWThreads : Z;
  NumAcc : Z;
  Exclusive : Z;
  JMonitoringStatus : MonitoringStatus;
  SMT : Z;
  State : JobState;
  Duration : Z;
  Walltime : Z;
  RawResources : option string;
  Resources : list (option Resource);   (* a slice of pointers *)
  RawMetaData : option string;
  MetaData : option loc
}.

(** Statements are recorded as they are executed. *)
Inductive Statement :=
| StmtSelect (table : string)
| StmtUpdate (table : string).

(** Modelled from the spec: an entry of the result cache, a value with
    the absolute time at which it expires.  The values cached under the
    metadata keys are Go maps (possibly the nil map). *)
Record CacheEntry := {
  entryValue : option loc;
  entrySize : Z;
  entryExpiration : Z
}.

(** ** The repository *)

(** The time is the whole seconds of [time.Now] together with the
    nanoseconds that have passed of the current second.

    Modelled from the spec: on an insert the cache evicts entries, least
    recently used first, until the cost of the resident entries fits its
    capacity.  Costs and the order of the accesses are not tracked; the
    keys that the inserts to come evict are part of the state instead, one
    list for each insert, so that a property holds whatever the cache
    evicts. *)
Record JobRepository := {
  jobTable : list JobRow;
  userTable : list UserRow;
  driver : string;
  executed : list Statement;
  cache : gmap string CacheEntry;
  evictions : list (list string);
  mapHeap : gmap loc (gmap string string);
  clock : Z;                      (* time.Now().Unix() *)
  clockNanos : Z;                 (* time.Now().Nanosecond() *)
  archiveChannel : list Job;
  archivePending : Z
}.

Definition set_jobTable (t : list JobRow) (r : JobRepository) : JobRepository :=
  {| jobTable := t; userTable := userTable r; driver := driver r;
     executed := executed r; cache := cache r; evictions := evictions r;
     mapHeap := mapHeap r; clock := clock r; clockNanos := clockNanos r;
     archiveChannel := archiveChannel r;
     archivePending := archivePending r |}.

Definition set_executed (e : list Statement) (r : JobRepository) : JobRepository :=
  {| jobTable := jobTable r; userTable := userTable r; driver := driver r;
     executed := e; cache := cache r; evictions := evictions r;
     mapHeap := mapHeap r; clock := clock r; clockNanos := clockNanos r;
     archiveChannel := archiveChannel r;
     archivePending := archivePending r |}.

Definition set_cache (c : gmap string CacheEntry) (r : JobRepository) : JobRepository :=
  {| jobTable := jobTable r; userTable := userTable r; driver := driver r;
     executed := executed r; cache := c; evictions := evictions r;
     mapHeap := mapHeap r; clock := clock r; clockNanos := clockNanos r;
     archiveChannel := archiveChannel r;
     archivePending := archivePending r |}.

Definition set_evictions (v : list (list string)) (r : JobRepository) : JobRepository :=
  {| jobTable := jobTable r; userTable := userTable r; driver := driver r;
     executed := executed r; cache := cache r; evictions := v;
     mapHeap := mapHeap r; clock := clock r; clockNanos := clockNanos r;
     archiveChannel := archiveChannel r;
     archivePending := archivePending r |}.

Definition set_mapHeap (h : gmap loc (gmap string string)) (r : JobRepository) : JobRepository :=
  {| jobTable := jobTable r; userTable := userTable r; driver := driver r;
     executed := executed r; cache := cache r; evictions := evictions r;
     mapHeap := h; clock := clock r; clockNanos := clockNanos r;
     archiveChannel := archiveChannel r;
     archivePending := archivePending r |}.

Definition set_clock (t : Z) (r : JobRepository) : JobRepository :=
  {| jobTable := jobTable r; userTable := userTable r; driver := driver r;
     executed := executed r; cache := cache r; evictions := evictions r;
     mapHeap := mapHeap r; clock := t; clockNanos := clockNanos r;
     archiveChannel := archiveChannel r;
     archivePending := archivePending r |}.

Definition set_clockNanos (n : Z) (r : JobRepository) : JobRepository :=
  {| jobTable := jobTable r; userTable := userTable r; driver := driver r;
     executed := executed r; cache := cache r; evictions := evictions r;
     mapHeap := mapHeap r; clock := clock r; clockNanos := n;
     archiveChannel := archiveChannel r;
     archivePending := archivePending r |}.

Definition set_archiveChannel (q : list Job) (r : JobRepository) : JobRepository :=
  {| jobTable := jobTable r; userTable := userTable r; driver := driver r;
     executed := executed r; cache := cache r; evictions := evictions r;
     mapHeap := mapHeap r; clock := clock r; clockNanos := clockNanos r;
     archiveChannel := q; archivePending := archivePending r |}.

Definition set_archivePending (n : Z) (r : JobRepository) : JobRepository :=
  {| jobTable := jobTable r; userTable := userTable r; driver := driver r;
     executed := executed r; cache := cache r; evictions := evictions r;
     mapHeap := mapHeap r; clock := clock r; clockNanos := clockNanos r;
     archiveChannel := archiveChannel r; archivePending := n |}.

(** Repository operations read and write the repository and end in a
    value, an error or a panic. *)
Definition M (A : Type) : Type := JobRepository → outcome A * JobRepository.

Definition ret {A} (a : A) : M A := λ r, (Ok a, r).
Definition fail {A} (e : Error) : M A := λ r, (Err e, r).
Definition panic {A} : M A := λ r, (Panic, r).
Definition bind {A B} (m : M A) (k : A → M B) : M B :=
  λ r, match m r with
       | (Ok a, r') => k a r'
       | (Err e, r') => (Err e, r')
       | (Panic, r') => (Panic, r')
       end.
Definition get : M JobRepository := λ r, (Ok r, r).
Definition modify (f : JobRepository → JobRepository) : M unit := λ r, (Ok tt, f r).

Declare Scope repo_scope.
Delimit Scope repo_scope with repo.
Notation "'let*' x ':=' m 'in' k" := (bind m (λ x, k))
  (at level 10, x name, m at level 200, k at level 200) : repo_scope.
Local Open Scope repo_scope.

(** Running a statement records it. *)
Definition exec (st : Statement) : M unit :=
  modify (λ r, set_executed (executed r ++ [st]) r).

(** ** strconv.Atoi *)

Definition is_digit (a : ascii) : bool :=
  ((48 <=? Z.of_nat (nat_of_ascii a)) && (Z.of_nat (nat_of_ascii a) <=? 57))%Z.

Fixpoint digits_value (acc : Z) (s : string) : option Z :=
  match s with
  | EmptyString => Some acc
  | String a s' =>
      if is_digit a
      then digits_value (10 * acc + (Z.of_nat (nat_of_ascii a) - 48))%Z s'
      else None
  end.

(** An optional sign, at least one decimal digit, and a value that fits
    the 64-bit [int]. *)
Definition Atoi (s : string) : option Z :=
  let body (sign : Z) (rest : string) : option Z :=
    match rest with
    | EmptyString => None
    | _ =>
        match digits_value 0 rest with
        | Some v =>
            let n := (sign * v)%Z in
            if ((- 2 ^ 63 <=? n) && (n <=? 2 ^ 63 - 1))%Z then Some n else None
        | None => None
        end
    end in
  match s with
  | String "+"%char rest => body 1 rest
  | String "-"%char rest => body (-1) rest
  | _ => body 1 s
  end.

(** ** Generic column lookups *)

(** The text columns of the two tables, by name.  The outer [None] is a
    column the table does not have (the statement is rejected), the inner
    [None] is [NULL]. *)
Definition job_text_column (col : string) : option (JobRow → option string) :=
  if decide (col = "user") then Some (λ r, Some (user r))
  else if decide (col = "project") then Some (λ r, Some (project r))
  else if decide (col = "cluster") then Some (λ r, Some (cluster r))
  else if decide (col = "subcluster") then Some (λ r, Some (subcluster r))
  else if decide (col = "partition") then Some (λ r, Some (partition r))
  else if decide (col = "resources") then Some (λ r, Some (resources r))
  else if decide (col = "meta_data") then Some meta_data
  else None.

Definition user_text_column (col : string) : option (UserRow → option string) :=
  if decide (col = "username") then Some (λ r, Some (username r))
  else if decide (col = "name") then Some name
  else None.

(** [SELECT DISTINCT sel FROM t WHERE whr <cmp> ?] followed by
    [QueryRow().Scan(&result)] over the rows [rows] of [t]: the first row
    that satisfies the comparison, scanned into a Go string. *)
Definition query_first {R} (rows : list R) (sel whr : R → option string)
    (cmp : string → bool) : outcome string :=
  match List.find (λ r, match whr r with Some x => cmp x | None => false end) rows with
  | None => Err ErrNoRows
  | Some r => match sel r with
              | Some x => Ok x
              | None => Err ErrScan
              end
  end.

Definition select_column_value (r : JobRepository) (table selectColumn whereColumn : string)
    (cmp : string → bool) : outcome string :=
  if decide (table = "job") then
    match job_text_column selectColumn, job_text_column whereColumn with
    | Some sel, Some whr => query_first (jobTable r) sel whr cmp
    | _, _ => Err ErrQuery
    end
  else if decide (table = "user") then
    match user_text_column selectColumn, user_text_column whereColumn with
    | Some sel, Some whr => query_first (userTable r) sel whr cmp
    | _, _ => Err ErrQuery
    end
  else Err ErrQuery.

(** ** The configuration *)

Module archive.

Record SubClusterConfig := {
  SubClusterName : string;
  SocketsPerNode : Z;
  CoresPerSocket : Z
}.

Record ClusterConfig := {
  ClusterName : string;
  SubClusters : list SubClusterConfig
}.

End archive.

(** The configuration read at start-up: [archive.Clusters] and
    [config.Keys.ShortRunningJobsDuration]. *)
Class Config := {
  Clusters : list archive.ClusterConfig;
  ShortRunningJobsDuration : Z
}.

(** A query on table [job] is carried as the conjunction of its [WHERE]
    conditions; a filter of the calling layer is an opaque condition, and
    [BuildWhereClause] adds it to the query. *)
Definition Query := JobRow → bool.
Definition JobFilter := JobRow → bool.

Definition BuildWhereClause (f : JobFilter) (q : Query) : Query :=
  λ row, q row && f row.

Definition outcome_bind {A B} (o : outcome A) (k : A → outcome B) : outcome B :=
  match o with
  | Ok a => k a
  | Err e => Err e
  | Panic => Panic
  end.

Fixpoint outcome_mapM {A B} (f : A → outcome B) (l : list A) : outcome (list B) :=
  match l with
  | [] => Ok []
  | a :: l' =>
      outcome_bind (f a) (λ b,
      outcome_bind (outcome_mapM f l') (λ bs, Ok (b :: bs)))
  end.

Definition lift {A} (o : outcome A) : M A := λ r, (o, r).

(** [for _, a := range l { ... }] with an accumulator. *)
Fixpoint for_range {A S} (l : list A) (body : A → S → M S) (s : S) : M S :=
  match l with
  | [] => ret s
  | a :: l' => let* s' := body a s in for_range l' body s'
  end.

Definition sumZ (l : list Z) : Z := foldr Z.add 0%Z l.

(** The distinct values of a list, in the order of their first
    occurrence. *)
Fixpoint distinct (l : list string) : list string :=
  match l with
  | [] => []
  | x :: l' => x :: List.filter (λ y, negb (String.eqb y x)) (distinct l')
  end.

(** The archive client ([metricdata.ArchiveJob]): it pulls the metric
    data of the job and pushes it to the archive backend; on success it
    returns the per-metric summary statistics, [None] is an error. *)
Class ArchiveClient := {
  ArchiveJob : JobRepository → Job → option (gmap string JobStatistics)
}.

Section Repository.
Context {engine : SqlEngine} {runtime : GoRuntime} {archiver : ArchiveClient}
        {configuration : Config}.

Definition elevated : list Role := [RoleAdmin; RoleSupport; RoleManager].

(** [FindColumnValue].  The caller is a pointer: on a nil pointer the
    method call [user.HasAnyRole] dereferences it. *)
Definition FindColumnValue (user : option User) (searchterm table selectColumn whereColumn : string)
    (isLike : bool) : M string :=
  let query := if isLike then "%" +:+ searchterm +:+ "%" else searchterm in
  let cmp : string → bool :=
    if isLike then (λ x, sql_like x query) else (λ x, String.eqb x query) in
  match user with
  | None => panic
  | Some u =>
      if HasAnyRole u elevated then
        let* _ := exec (StmtSelect table) in
        let* r := get in
        match select_column_value r table selectColumn whereColumn cmp with
        | Ok result => ret result
        | Err ErrNoRows => fail ErrNotFound
        | Err e => fail e
        | Panic => panic
        end
      else fail ErrForbidden
  end.

(** A call whose error is dropped: [result, _ := f(...)].  On every
    error path of [FindColumnValue] the result is the empty string. *)
Definition ignore_error (m : M string) : M string :=
  λ r, match m r with
       | (Err _, r') => (Ok "", r')
       | res => res
       end.

(** [metasnip[0:1]]: the first byte, a panic on the empty string. *)
Definition slice_0_1 (s : string) : outcome string :=
  match s with
  | EmptyString => Panic
  | String a _ => Ok (String a EmptyString)
  end.

(** [FindUserOrProjectOrJobname]; the value is (username, project,
    metasnip). *)
Definition FindUserOrProjectOrJobname (ctx : Context) (searchterm : string)
    : M (string * string * string) :=
  match Atoi searchterm with
  | Some _ => ret ("", "", "")
  | None =>
      match GetUser ctx with
      | Some u =>
          let* uresult := ignore_error (FindColumnValue (Some u) searchterm "job" "user" "user" false) in
          if negb (String.eqb uresult "") then ret (uresult, "", "") else
          let* nresult := ignore_error (FindColumnValue (Some u) searchterm "user" "username" "name" true) in
          if negb (String.eqb nresult "") then ret (nresult, "", "") else
          let* presult := ignore_error (FindColumnValue (Some u) searchterm "job" "project" "project" false) in
          if negb (String.eqb presult "") then ret ("", presult, "") else
          let* _ := exec (StmtSelect "job") in
          let* r := get in
          match query_first (jobTable r) (λ row, Some (cluster row)) meta_data
                  (λ x, sql_like x ("%" +:+ searchterm +:+ "%")) with
          | Ok metasnip =>
              match slice_0_1 metasnip with
              | Ok c => ret ("", "", c)
              | _ => panic
              end
          | Err ErrNoRows => fail ErrNotFound
          | Err e => fail e
          | Panic => panic
          end
      | None => fail ErrNotFound
      end
  end.

(** ** The result cache *)

(** Modelled from the spec: [lrucache.Cache.Get] with a nil compute
    function.  An entry past its expiry is treated as absent (and
    dropped); the result [None] is the nil interface value. *)
Definition cache_Get (key : string) : M (option (option loc)) :=
  λ r, match cache r !! key with
       | Some e =>
           if (clock r <? entryExpiration e)%Z
           then (Ok (Some (entryValue e)), r)
           else (Ok None, set_cache (delete key (cache r)) r)
       | None => (Ok None, r)
       end.

(** The cache after an insert under [key] has evicted the keys
    [victims]; the entry that has been inserted is resident. *)
Definition evict (key : string) (victims : list string) (c : gmap string CacheEntry)
    : gmap string CacheEntry :=
  foldr (λ k c, if decide (k = key) then c else delete k c) c victims.

(** Modelled from the spec: [lrucache.Cache.Put], an unconditional
    insert or replace, after which the cache evicts what the state names
    for this insert. *)
Definition cache_Put (key : string) (value : option loc) (size ttl : Z) : M unit :=
  modify (λ r, set_evictions (tail (evictions r))
    (set_cache
       (evict key (default [] (head (evictions r)))
          (<[key := {| entryValue := value; entrySize := size;
                       entryExpiration := (clock r + ttl)%Z |}]> (cache r))) r)).

(** Modelled from the spec: [lrucache.Cache.Del]. *)
Definition cache_Del (key : string) : M unit :=
  modify (λ r, set_cache (delete key (cache r)) r).

Definition hours (n : Z) : Z := (n * 3600)%Z.

(** [fmt.Sprintf("metadata:%d", job.ID)] *)
Definition metadata_cachekey (job : Job) : string := "metadata:" +:+ pretty (ID job).

(** [len] of a byte slice; the nil slice has length 0. *)
Definition len (raw : option string) : Z :=
  match raw with
  | Some s => Z.of_nat (String.length s)
  | None => 0%Z
  end.

(** ** Job structures *)

Definition set_MetaData (m : option loc) (raw : option string) (j : Job) : Job :=
  {| ID := ID j; JobID := JobID j; JUser := JUser j; Project := Project j;
     Cluster := Cluster j; SubCluster := SubCluster j;
     StartTimeUnix := StartTimeUnix j; StartTime := StartTime j;
     Partition := Partition j; ArrayJobId := ArrayJobId j;
     NumNodes := NumNodes j; NumHWThreads := NumHWThreads j; NumAcc := NumAcc j;
     Exclusive := Exclusive j; JMonitoringStatus := JMonitoringStatus j;
     SMT := SMT j; State := State j; Duration := Duration j;
     Walltime := Walltime j; RawResources := RawResources j;
     Resources := Resources j; RawMetaData := raw; MetaData := m |}.

(** Rows are rewritten by [UPDATE] statements in five columns groups. *)
Definition row_with (r : JobRow) (ms : MonitoringStatus) (st : JobState) (d : Z)
    (md : option string) (flops memused membw load net file : option float64) : JobRow :=
  {| id := id r; job_id := job_id r; user := user r; project := project r;
     cluster := cluster r; subcluster := subcluster r; start_time := start_time r;
     partition := partition r; array_job_id := array_job_id r;
     num_nodes := num_nodes r; num_hwthreads := num_hwthreads r;
     num_acc := num_acc r; exclusive := exclusive r; monitoring_status := ms;
     smt := smt r; job_state := st; duration := d; walltime := walltime r;
     resources := resources r; meta_data := md; flops_any_avg := flops;
     mem_used_max := memused; mem_bw_avg := membw; load_avg := load;
     net_bw_avg := net; file_bw_avg := file |}.

Definition set_meta_data (md : option string) (r : JobRow) : JobRow :=
  row_with r (monitoring_status r) (job_state r) (duration r) md
    (flops_any_avg r) (mem_used_max r) (mem_bw_avg r) (load_avg r)
    (net_bw_avg r) (file_bw_avg r).

Definition set_monitoring_status (ms : MonitoringStatus) (r : JobRow) : JobRow :=
  row_with r ms (job_state r) (duration r) (meta_data r)
    (flops_any_avg r) (mem_used_max r) (mem_bw_avg r) (load_avg r)
    (net_bw_avg r) (file_bw_avg r).

Definition set_stopped (st : JobState) (d : Z) (ms : MonitoringStatus) (r : JobRow) : JobRow :=
  row_with r ms st d (meta_data r)
    (flops_any_avg r) (mem_used_max r) (mem_bw_avg r) (load_avg r)
    (net_bw_avg r) (file_bw_avg r).

(** [UPDATE job SET ... WHERE <cond>]: every row that satisfies the
    condition is rewritten, the others are left as they are. *)
Definition update_where (cond : JobRow → bool) (f : JobRow → JobRow) : M unit :=
  let* _ := exec (StmtUpdate "job") in
  modify (λ r, set_jobTable (List.map (λ row, if cond row then f row else row) (jobTable r)) r).

(** ** Metadata *)

(** Allocation of a new Go map. *)
Definition new_map (m : gmap string string) : M loc :=
  λ r, let l := fresh (dom (mapHeap r)) in
       (Ok l, set_mapHeap (<[l := m]> (mapHeap r)) r).

(** The entries of the map a reference points to. *)
Definition deref (r : JobRepository) (l : loc) : gmap string string :=
  default ∅ (mapHeap r !! l).

(** [FetchMetadata].  The value is the job structure as the call leaves
    it together with the returned map. *)
Definition FetchMetadata (job : Job) : M (Job * option loc) :=
  let cachekey := metadata_cachekey job in
  let* cached := cache_Get cachekey in
  match cached with
  | Some m => ret (set_MetaData m (RawMetaData job) job, m)
  | None =>
      let* _ := exec (StmtSelect "job") in
      let* r := get in
      match List.find (λ row, (id row =? ID job)%Z) (jobTable r) with
      | None => fail ErrNoRows
      | Some row =>
          let raw := meta_data row in
          if (len raw =? 0)%Z then ret (set_MetaData (MetaData job) raw job, None)
          else
            match unmarshal_metadata (default "" raw) with
            | None => fail ErrUnmarshal
            | Some decoded =>
                let* m :=
                  match decoded, MetaData job with
                  | None, _ => ret None   (* null: the map is set to nil *)
                  | Some kv, None =>
                      let* l := new_map kv in ret (Some l)
                  | Some kv, Some l =>
                      (* the decoder fills the map already there *)
                      let* _ := modify (λ r, set_mapHeap (<[l := kv ∪ deref r l]> (mapHeap r)) r) in
                      ret (Some l)
                  end in
                let* _ := cache_Put cachekey m (len raw) (hours 24) in
                ret (set_MetaData m raw job, m)
            end
      end
  end.

(** [UpdateMetadata].  The value is the job structure as the call leaves
    it. *)
Definition UpdateMetadata (job : Job) (key val : string) : M Job :=
  let cachekey := metadata_cachekey job in
  let* _ := cache_Del cachekey in
  let* job :=
    match MetaData job with
    | None => let* res := FetchMetadata job in ret (fst res)
    | Some _ => ret job
    end in
  let* r := get in
  let cpy :=
    match MetaData job with
    | Some l => <[key := val]> (deref r l)
    | None => {[key := val]}
    end in
  let* l := new_map cpy in
  match marshal_metadata cpy with
  | None => fail ErrMarshal
  | Some raw =>
      let job := set_MetaData (Some l) (Some raw) job in
      let* _ := update_where (λ row, (id row =? ID job)%Z) (set_meta_data (Some raw)) in
      let* _ := cache_Put cachekey (Some l) (len (Some raw)) (hours 24) in
      ret job
  end.

(** ** Reading job rows *)

(** [int32(f)] for a float64 with integer part [x]. *)
Definition to_int32 (x : Z) : Z :=
  if ((- 2 ^ 31 <=? x) && (x <? 2 ^ 31))%Z then x else int32_out_of_range x.

(** [time.Since(time.Unix(t, 0))] in nanoseconds; a [time.Duration] is a
    64-bit integer and the difference of two times saturates at its
    bounds. *)
Definition time_Since (t : Z) (r : JobRepository) : Z :=
  Z.max (- 2 ^ 63) (Z.min (2 ^ 63 - 1) ((clock r - t) * 10 ^ 9 + clockNanos r)).

(** [scanJob]: the row is copied into a fresh job structure, the
    resources are decoded, and the duration of a running job whose stored
    duration is 0 is derived from the clock: the seconds since the start
    as a float64, converted to int32. *)
Definition scanJob (row : JobRow) : M Job :=
  match unmarshal_resources (resources row) with
  | None => fail ErrUnmarshal
  | Some res =>
      let* r := get in
      let startTime := start_time row in
      let d :=
        if ((duration row =? 0)%Z && bool_decide (job_state row = JobStateRunning))%bool
        then to_int32 (duration_seconds (time_Since startTime r))
        else duration row in
      ret {| ID := id row; JobID := job_id row; JUser := user row;
             Project := project row; Cluster := cluster row;
             SubCluster := subcluster row; StartTimeUnix := start_time row;
             StartTime := startTime; Partition := partition row;
             ArrayJobId := array_job_id row; NumNodes := num_nodes row;
             NumHWThreads := num_hwthreads row; NumAcc := num_acc row;
             Exclusive := exclusive row;
             JMonitoringStatus := monitoring_status row; SMT := smt row;
             State := job_state row; Duration := d; Walltime := walltime row;
             RawResources := None; Resources := res;
             RawMetaData := None; MetaData := None |}
  end.

(** The [WHERE] clause shared by [Find] and [FindAll]. *)
Definition find_where (jobId : Z) (cluster' : option string) (startTime : option Z)
    (row : JobRow) : bool :=
  (job_id row =? jobId)%Z
  && match cluster' with Some c => String.eqb (cluster row) c | None => true end
  && match startTime with Some t => (start_time row =? t)%Z | None => true end.

(** [Find].  The arguments are pointers; [*jobId] panics on nil. *)
Definition Find (jobId : option Z) (cluster' : option string) (startTime : option Z) : M Job :=
  match jobId with
  | None => panic
  | Some jid =>
      let* _ := exec (StmtSelect "job") in
      let* r := get in
      match List.find (find_where jid cluster' startTime) (jobTable r) with
      | None => fail ErrNoRows
      | Some row => scanJob row
      end
  end.

Fixpoint scan_rows (rows : list JobRow) : M (list Job) :=
  match rows with
  | [] => ret []
  | row :: rows' =>
      let* job := scanJob row in
      let* jobs := scan_rows rows' in
      ret (job :: jobs)
  end.

(** [FindAll] *)
Definition FindAll (jobId : option Z) (cluster' : option string) (startTime : option Z)
    : M (list Job) :=
  match jobId with
  | None => panic
  | Some jid =>
      let* _ := exec (StmtSelect "job") in
      let* r := get in
      scan_rows (List.filter (find_where jid cluster' startTime) (jobTable r))
  end.

(** [FindById] *)
Definition FindById (jobId : Z) : M Job :=
  let* _ := exec (StmtSelect "job") in
  let* r := get in
  match List.find (λ row, (id row =? jobId)%Z) (jobTable r) with
  | None => fail ErrNoRows
  | Some row => scanJob row
  end.

(** ** Writing job rows *)

(** [Stop] *)
Definition Stop (jobId : Z) (duration' : Z) (state : JobState)
    (monitoringStatus : MonitoringStatus) : M unit :=
  update_where (λ row, (id row =? jobId)%Z) (set_stopped state duration' monitoringStatus).

(** [UpdateMonitoringStatus] *)
Definition UpdateMonitoringStatus (job : Z) (monitoringStatus : MonitoringStatus) : M unit :=
  update_where (λ row, (id row =? job)%Z) (set_monitoring_status monitoringStatus).

(** The value a summary column takes in [MarkArchived]: the statistic
    of the metric when the client reported it, the stored value
    otherwise. *)
Definition stat_column (metricStats : gmap string JobStatistics) (metric : string)
    (field : JobStatistics → float64) (old : option float64) : option float64 :=
  match metricStats !! metric with
  | Some stats => Some (field stats)
  | None => old
  end.

(** [MarkArchived]: one [UPDATE] that sets the monitoring status and,
    for each recognised metric, its summary column; other metric names
    are skipped. *)
Definition MarkArchived (jobId : Z) (monitoringStatus : MonitoringStatus)
    (metricStats : gmap string JobStatistics) : M unit :=
  update_where (λ row, (id row =? jobId)%Z)
    (λ row, row_with row monitoringStatus (job_state row) (duration row) (meta_data row)
       (stat_column metricStats "flops_any" Avg (flops_any_avg row))
       (stat_column metricStats "mem_used" Max (mem_used_max row))
       (stat_column metricStats "mem_bw" Avg (mem_bw_avg row))
       (stat_column metricStats "load" Avg (load_avg row))
       (stat_column metricStats "net_bw" Avg (net_bw_avg row))
       (stat_column metricStats "file_bw" Avg (file_bw_avg row))).

(** [StopJobsExceedingWalltimeBy] *)
Definition exceeds_walltime (now seconds : Z) (row : JobRow) : bool :=
  bool_decide (job_state row = JobStateRunning)
  && (walltime row >? 0)%Z
  && (now - start_time row >? walltime row + seconds)%Z.

Definition StopJobsExceedingWalltimeBy (seconds : Z) : M unit :=
  let* r := get in
  update_where (exceeds_walltime (clock r) seconds)
    (set_stopped JobStateFailed 0 MonitoringStatusArchivingFailed).

(** ** The archiving worker *)

(** How one pass through the loop body ends. *)
Inductive LoopExit :=
| ExitContinue      (* a [continue] statement *)
| ExitFallThrough.  (* the end of the body *)

(** The body of the worker loop for a job received from the channel.
    Errors of [UpdateMonitoringStatus] are dropped by the code. *)
Definition archivingWorker_body (job : Job) : M LoopExit :=
  λ r,
    match FetchMetadata job r with
    | (Panic, r1) => (Panic, r1)
    | (Err _, r1) =>
        let '(_, r2) := UpdateMonitoringStatus (ID job) MonitoringStatusArchivingFailed r1 in
        (Ok ExitContinue, r2)
    | (Ok (job', _), r1) =>
        match ArchiveJob r1 job' with
        | None =>
            let '(_, r2) := UpdateMonitoringStatus (ID job) MonitoringStatusArchivingFailed r1 in
            (Ok ExitContinue, r2)
        | Some statistics =>
            match MarkArchived (ID job) MonitoringStatusArchivingSuccessful statistics r1 with
            | (Panic, r2) => (Panic, r2)
            | (Err _, r2) => (Ok ExitContinue, r2)
            | (Ok _, r2) =>
                (* r.archivePending.Done() *)
                (Ok ExitFallThrough, set_archivePending (archivePending r2 - 1) r2)
            end
        end
    end.

(** One iteration of the worker: [None] when the channel is empty and
    the receive blocks.  Nothing in the repository closes the channel, so
    the branch for a closed channel is never taken. *)
Definition archivingWorker_step (r : JobRepository)
    : option (outcome LoopExit * JobRepository) :=
  match archiveChannel r with
  | [] => None
  | job :: queue => Some (archivingWorker_body job (set_archiveChannel queue r))
  end.

(** The worker loop, run for at most [fuel] iterations; it stops early
    only when the receive blocks or an iteration panics. *)
Fixpoint archivingWorker (fuel : nat) (r : JobRepository) : outcome unit * JobRepository :=
  match fuel with
  | O => (Ok tt, r)
  | S fuel' =>
      match archivingWorker_step r with
      | None => (Ok tt, r)
      | Some (Panic, r') => (Panic, r')
      | Some (_, r') => archivingWorker fuel' r'
      end
  end.

(** [TriggerArchiving]: the counter is incremented, then the job is
    sent; [None] when the channel (capacity 128) is full and the send
    blocks. *)
Definition TriggerArchiving (job : Job) (r : JobRepository) : option JobRepository :=
  let r1 := set_archivePending (archivePending r + 1) r in
  if (Z.of_nat (List.length (archiveChannel r1)) <? 128)%Z
  then Some (set_archiveChannel (archiveChannel r1 ++ [job]) r1)
  else None.

(** [WaitForArchiving] returns exactly when the counter is zero. *)
Definition WaitForArchiving (r : JobRepository) : option unit :=
  if (archivePending r =? 0)%Z then Some tt else None.

(** ** Statistics *)

(** Modelled from the spec: the role check of the filter and security
    builder.  Callers with an elevated role get the query unmodified, all
    other callers get the restriction to the rows of their own user, and a
    request without an identity, for which no such restriction exists, is
    refused. *)
Definition SecurityCheck (ctx : Context) (query : Query) : outcome Query :=
  match GetUser ctx with
  | None => Err ErrSecurity
  | Some u =>
      if HasAnyRole u elevated then Ok query
      else Ok (λ row, query row && String.eqb (user row) (Username u))
  end.

Definition groupBy2column (a : model.Aggregate) : string :=
  match a with
  | model.AggregateUser => "job.user"
  | model.AggregateProject => "job.project"
  | model.AggregateCluster => "job.cluster"
  end.

(** The column a grouping column name denotes. *)
Definition column_key (col : string) : option (JobRow → string) :=
  if decide (col = "job.user") then Some user
  else if decide (col = "job.project") then Some project
  else if decide (col = "job.cluster") then Some cluster
  else None.

(** The cast keyword of the engine; empty for an unknown driver. *)
Definition castType_of (driver' : string) : string :=
  if decide (driver' = "sqlite3") then "int"
  else if decide (driver' = "mysql") then "unsigned"
  else "".

Definition valid_castType (castType : string) : bool :=
  bool_decide (castType = "int") || bool_decide (castType = "unsigned").

(** Rounding of [n / d] to the nearest integer, halves away from zero. *)
Definition round_half_away (n d : Z) : Z :=
  if (0 <=? n)%Z then (2 * n + d) / (2 * d) else - ((2 * - n + d) / (2 * d)).

(** The value of [CAST(ROUND(n / 3600) as castType)] for an integer [n].
    Under [int] (SQLite) the division of two integers truncates and
    [ROUND] has nothing left to round; under [unsigned] (MySQL) the
    division is exact and [ROUND] rounds halves away from zero. *)
Definition engine_round (castType : string) (n : Z) : Z :=
  if decide (castType = "int") then Z.quot n 3600 else round_half_away n 3600.

(** The same value as it is scanned into a [sql.NullInt64]: a negative
    value cast to [unsigned] does not fit. *)
Definition cast_round (castType : string) (n : Z) : outcome Z :=
  if decide (castType = "int") then Ok (engine_round castType n)
  else if decide (castType = "unsigned") then
    if (0 <=? engine_round castType n)%Z then Ok (engine_round castType n) else Err ErrScan
  else Err ErrQuery.

(** The core seconds of a job on a subcluster with the given sockets
    per node and cores per socket. *)
Definition core_seconds (socketsPerNode coresPerSocket : Z) (row : JobRow) : Z :=
  duration row * num_nodes row * socketsPerNode * coresPerSocket.

(** The 64-bit integers of the engine and of Go. *)
Definition int64 (x : Z) : bool := ((- 2 ^ 63 <=? x) && (x <? 2 ^ 63))%Z.

(** [int(x)] and the sum of two Go integers: the low 64 bits, as a
    signed number. *)
Definition go_int (x : Z) : Z := ((x + 2 ^ 63) mod 2 ^ 64 - 2 ^ 63)%Z.
Arguments go_int : simpl never.

(** A sum of integers that stays in the 64-bit range in whatever order
    it is accumulated. *)
Definition sum_fits (l : list Z) : bool := (sumZ (List.map Z.abs l) <? 2 ^ 63)%Z.

(** The statistics statement of a subcluster is in the fragment that the
    engine computes exactly: the cast keyword is one of the two the engines
    know, the literals and the products of the core seconds fit 64 bits
    at every step, and so do the two sums. *)
Definition stats_exact (castType : string) (socketsPerNode coresPerSocket : Z)
    (rows : list JobRow) : bool :=
  valid_castType castType
  && int64 socketsPerNode && int64 coresPerSocket
  && forallb (λ row, int64 (num_nodes row)
                     && int64 (duration row * num_nodes row)
                     && int64 (duration row * num_nodes row * socketsPerNode)) rows
  && sum_fits (List.map duration rows)
  && sum_fits (List.map (core_seconds socketsPerNode coresPerSocket) rows).

(** One result row (id, jobs, walltime, corehours) of the statistics
    query, aggregated over the rows [rows]. *)
Definition aggregate_row (castType : string) (socketsPerNode coresPerSocket : Z)
    (g : string) (rows : list JobRow) : outcome (string * Z * Z * Z) :=
  outcome_bind (cast_round castType (sumZ (List.map duration rows))) (λ walltime',
  outcome_bind (cast_round castType
                  (sumZ (List.map (core_seconds socketsPerNode coresPerSocket) rows))) (λ corehours,
  Ok (g, Z.of_nat (List.length rows), walltime', corehours))).

(** The rows of the statistics statement over the matching rows, in
    the exact fragment.  Without a grouping column the aggregate yields
    exactly one row, also when no job matches; with a grouping column it
    yields one row per group. *)
Definition stats_rows (groupBy : option model.Aggregate) (castType : string)
    (socketsPerNode coresPerSocket : Z) (matching : list JobRow)
    : outcome (list (string * Z * Z * Z)) :=
  match groupBy with
  | None =>
      outcome_bind (aggregate_row castType socketsPerNode coresPerSocket "" matching)
        (λ row, Ok [row])
  | Some a =>
      match column_key (groupBy2column a) with
      | None => Err ErrQuery
      | Some key =>
          outcome_mapM
            (λ g, aggregate_row castType socketsPerNode coresPerSocket g
                    (List.filter (λ row, String.eqb (key row) g) matching))
            (distinct (List.map key matching))
      end
  end.

(** What the loop over the result of the statistics statement of one
    subcluster scans: the rows of the statement in the exact fragment,
    what the engine delivers otherwise. *)
Definition stats_query (groupBy : option model.Aggregate) (castType : string)
    (socketsPerNode coresPerSocket : Z) (query : Query) (rows : list JobRow)
    : outcome (list (string * Z * Z * Z)) :=
  let matching := List.filter query rows in
  if stats_exact castType socketsPerNode coresPerSocket matching
  then stats_rows groupBy castType socketsPerNode coresPerSocket matching
  else sql_inexact_stats groupBy castType socketsPerNode coresPerSocket matching.

(** The loop body over the scanned rows: the totals of a group seen
    before are increased, a new group gets a new entry.  The totals are Go
    integers. *)
Definition merge_stats (stats : gmap string model.JobsStatistics) (row : string * Z * Z * Z)
    : gmap string model.JobsStatistics :=
  let '(id', jobs, walltime', corehours) := row in
  match stats !! id' with
  | Some s =>
      <[id' := {| model.ID := model.ID s; model.Name := model.Name s;
                  model.TotalJobs := go_int (model.TotalJobs s + go_int jobs);
                  model.TotalWalltime := go_int (model.TotalWalltime s + go_int walltime');
                  model.TotalCoreHours :=
                    go_int (model.TotalCoreHours s + go_int corehours);
                  model.ShortJobs := model.ShortJobs s;
                  model.HistDuration := model.HistDuration s;
                  model.HistNumNodes := model.HistNumNodes s |}]> stats
  | None =>
      <[id' := {| model.ID := id'; model.Name := None;
                  model.TotalJobs := go_int jobs;
                  model.TotalWalltime := go_int walltime';
                  model.TotalCoreHours := go_int corehours;
                  model.ShortJobs := 0;
                  model.HistDuration := [];
                  model.HistNumNodes := [] |}]> stats
  end.

Definition apply_filters (filter : list JobFilter) (query : Query) : Query :=
  fold_left (λ q f, BuildWhereClause f q) filter query.

(** The first part of [JobsStatistics]: the loop over the configured
    clusters and their subclusters. *)
Definition subcluster_stats (ctx : Context) (filter : list JobFilter)
    (groupBy : option model.Aggregate) (castType : string)
    (cluster' : archive.ClusterConfig) (subcluster' : archive.SubClusterConfig)
    (stats : gmap string model.JobsStatistics) : M (gmap string model.JobsStatistics) :=
  let rawQuery : Query := λ row,
    String.eqb (cluster row) (archive.ClusterName cluster')
    && String.eqb (subcluster row) (archive.SubClusterName subcluster') in
  let* query := lift (SecurityCheck ctx rawQuery) in
  let query := apply_filters filter query in
  let* _ := exec (StmtSelect "job") in
  let* r := get in
  let* rows := lift (stats_query groupBy castType
                       (archive.SocketsPerNode subcluster')
                       (archive.CoresPerSocket subcluster') query (jobTable r)) in
  ret (fold_left merge_stats rows stats).

Definition cluster_stats (ctx : Context) (filter : list JobFilter)
    (groupBy : option model.Aggregate) (castType : string)
    (stats : gmap string model.JobsStatistics) : M (gmap string model.JobsStatistics) :=
  for_range Clusters (λ cluster' stats,
    for_range (archive.SubClusters cluster')
      (subcluster_stats ctx filter groupBy castType cluster') stats) stats.

Definition set_ShortJobs (n : Z) (s : model.JobsStatistics) : model.JobsStatistics :=
  {| model.ID := model.ID s; model.Name := model.Name s;
     model.TotalJobs := model.TotalJobs s;
     model.TotalWalltime := model.TotalWalltime s;
     model.TotalCoreHours := model.TotalCoreHours s;
     model.ShortJobs := n;
     model.HistDuration := model.HistDuration s;
     model.HistNumNodes := model.HistNumNodes s |}.

Definition set_Name (n : string) (s : model.JobsStatistics) : model.JobsStatistics :=
  {| model.ID := model.ID s; model.Name := Some n;
     model.TotalJobs := model.TotalJobs s;
     model.TotalWalltime := model.TotalWalltime s;
     model.TotalCoreHours := model.TotalCoreHours s;
     model.ShortJobs := model.ShortJobs s;
     model.HistDuration := model.HistDuration s;
     model.HistNumNodes := model.HistNumNodes s |}.

Definition set_Hist (d n : list model.HistoPoint) (s : model.JobsStatistics)
    : model.JobsStatistics :=
  {| model.ID := model.ID s; model.Name := model.Name s;
     model.TotalJobs := model.TotalJobs s;
     model.TotalWalltime := model.TotalWalltime s;
     model.TotalCoreHours := model.TotalCoreHours s;
     model.ShortJobs := model.ShortJobs s;
     model.HistDuration := d;
     model.HistNumNodes := n |}.

(** The second part: the number of short jobs.  A field of [stats[id]]
    is written through the pointer stored in the map; for a missing key
    the pointer is nil and the write panics. *)
Definition short_jobs (ctx : Context) (filter : list JobFilter)
    (groupBy : option model.Aggregate)
    (stats : gmap string model.JobsStatistics) : M (gmap string model.JobsStatistics) :=
  let short : Query := λ row, (duration row <? ShortRunningJobsDuration)%Z in
  match groupBy with
  | None =>
      let* query := lift (SecurityCheck ctx short) in
      let query := apply_filters filter query in
      let* _ := exec (StmtSelect "job") in
      let* r := get in
      let count := Z.of_nat (List.length (List.filter query (jobTable r))) in
      match stats !! "" with
      | None => panic
      | Some s => ret (<["" := set_ShortJobs count s]> stats)
      end
  | Some a =>
      let col := groupBy2column a in
      let* query := lift (SecurityCheck ctx short) in
      let query := apply_filters filter query in
      let* _ := exec (StmtSelect "job") in
      let* r := get in
      match column_key col with
      | None => fail ErrQuery
      | Some key =>
          (* The statement has an aggregate and no GROUP BY: it yields a
             single row, the count of all matching jobs next to the
             column of one of them; the column is NULL when no job
             matches, and the row is skipped. *)
          let matching := List.filter query (jobTable r) in
          match sql_bare_row matching with
          | None => ret stats
          | Some row =>
              let id' := key row in
              let shortJobs := Z.of_nat (List.length matching) in
              match stats !! id' with
              | None => panic
              | Some s => ret (<[id' := set_ShortJobs shortJobs s]> stats)
              end
          end
      end
  end.

(** The names of the users, looked up when the groups are users. *)
Definition user_names (ctx : Context) (groupBy : option model.Aggregate)
    (stats : gmap string model.JobsStatistics) : M (gmap string model.JobsStatistics) :=
  match groupBy with
  | None => ret stats
  | Some a =>
      if decide (groupBy2column a = "job.user") then
        for_range (map_to_list stats).*1 (λ id' stats,
          let user' := GetUser ctx in
          let* name' := ignore_error (FindColumnValue user' id' "user" "name" "username" false) in
          let n := if negb (String.eqb name' "") then name' else "-" in
          ret (alter (set_Name n) id' stats)) stats
      else ret stats
  end.

(** The two value expressions the histograms are taken over. *)
Inductive HistogramValue :=
| ValueDurationHours (now : Z) (castType : string)
    (* CAST(ROUND((CASE WHEN job.job_state = "running" THEN now - job.start_time
                   ELSE job.duration END) / 3600) as castType) as value *)
| ValueNumNodes.
    (* job.num_nodes as value *)

Definition histogram_value_valid (value : HistogramValue) : bool :=
  match value with
  | ValueDurationHours _ castType => valid_castType castType
  | ValueNumNodes => true
  end.

Definition histogram_value (value : HistogramValue) (row : JobRow) : outcome Z :=
  match value with
  | ValueDurationHours now castType =>
      cast_round castType
        (if bool_decide (job_state row = JobStateRunning)
         then now - start_time row else duration row)
  | ValueNumNodes => Ok (num_nodes row)
  end.

(** The distinct values of a list of integers with their number of
    occurrences, in the order of their first occurrence. *)
Fixpoint count_values (l : list Z) : list model.HistoPoint :=
  match l with
  | [] => []
  | v :: l' =>
      {| model.Count := Z.of_nat (List.length (List.filter (λ w, (w =? v)%Z) (v :: l')));
         model.Value := v |}
      :: List.filter (λ p, negb (model.Value p =? v)%Z) (count_values l')
  end.

(** [jobsStatisticsHistogram] *)
Definition jobsStatisticsHistogram (ctx : Context) (value : HistogramValue)
    (filters : list JobFilter) (id' col : string) : M (list model.HistoPoint) :=
  let* query := lift (SecurityCheck ctx (λ _, true)) in
  let query := apply_filters filters query in
  let query : option Query :=
    if (negb (String.length id' =? 0)%nat && negb (String.length col =? 0)%nat)%bool then
      match column_key col with
      | Some key => Some (λ row, query row && String.eqb (key row) id')
      | None => None
      end
    else Some query in
  let* _ := exec (StmtSelect "job") in
  match query with
  | None => fail ErrQuery
  | Some query =>
      if negb (histogram_value_valid value) then fail ErrQuery else
      let* r := get in
      let* values := lift (outcome_mapM (histogram_value value)
                             (List.filter query (jobTable r))) in
      ret (count_values values)
  end.

(** The last part: the result slice, with the histograms when the
    request asks for them.  The entries are listed in the order of the
    keys of the map; Go leaves the order open. *)
Definition histogramsNeeded (ctx : Context) : bool :=
  existsb (λ col, String.eqb col "histDuration" || String.eqb col "histNumNodes")
    (ctxFields ctx).

Definition with_histograms (ctx : Context) (filter : list JobFilter)
    (groupBy : option model.Aggregate) (castType : string)
    (stat : model.JobsStatistics) : M model.JobsStatistics :=
  let id' := match groupBy with Some _ => model.ID stat | None => "" end in
  let col := match groupBy with Some a => groupBy2column a | None => "" end in
  if histogramsNeeded ctx then
    let* r := get in
    let* histDuration :=
      jobsStatisticsHistogram ctx (ValueDurationHours (clock r) castType) filter id' col in
    let* histNumNodes := jobsStatisticsHistogram ctx ValueNumNodes filter id' col in
    ret (set_Hist histDuration histNumNodes stat)
  else ret stat.

Fixpoint collect_stats (ctx : Context) (filter : list JobFilter)
    (groupBy : option model.Aggregate) (castType : string)
    (stats : list model.JobsStatistics) : M (list model.JobsStatistics) :=
  match stats with
  | [] => ret []
  | stat :: stats' =>
      let* stat' := with_histograms ctx filter groupBy castType stat in
      let* res := collect_stats ctx filter groupBy castType stats' in
      ret (stat' :: res)
  end.

(** [JobsStatistics] *)
Definition JobsStatistics (ctx : Context) (filter : list JobFilter)
    (groupBy : option model.Aggregate) : M (list model.JobsStatistics) :=
  let* r := get in
  let castType := castType_of (driver r) in
  let* stats := cluster_stats ctx filter groupBy castType ∅ in
  let* stats := short_jobs ctx filter groupBy stats in
  let* stats := user_names ctx groupBy stats in
  collect_stats ctx filter groupBy castType (map_to_list stats).*2.

End Repository.

(** ** Further collaborators *)

(** [json.Marshal(job.Resources)]; [None] is an error. *)
Class ResourceCodec := {
  marshal_resources : list (option Resource) → option string
}.

(** Modelled from the spec: the id of a job is the primary key of table
    [job], assigned by the database when the row is created.  Which value
    the engine picks is a parameter; it is the id of no row of the
    table. *)
Class InsertEngine := {
  sql_insert_id : list JobRow → Z;
  sql_insert_id_fresh : ∀ rows, sql_insert_id rows ∉ List.map id rows
}.

(** [ORDER BY count DESC] over the rows (group, count) of a grouped
    query: the rows in descending order of their counts.  The order of
    rows with equal counts is left to the engine. *)
Class OrderEngine := {
  sql_order_desc : list (string * Z) → list (string * Z);
  sql_order_desc_perm : ∀ rows, sql_order_desc rows ≡ₚ rows;
  sql_order_desc_sorted :
    ∀ rows, StronglySorted (λ a b : string * Z, (b.2 ≤ a.2)%Z) (sql_order_desc rows)
}.

(** [INSERT] and [DELETE] statements are recorded as writes of their
    table. *)
Definition StmtInsert (table : string) : Statement := StmtUpdate table.
Definition StmtDelete (table : string) : Statement := StmtUpdate table.

Module schema.

(** [schema.JobMeta], the job as the scheduler reports it at its start:
    the fields the [INSERT] statement of [Start] names, with the resources
    and the metadata in their decoded form.  [MetaData] is a Go map,
    [None] the nil map. *)
Record JobMeta := {
  JobID : Z;
  User : string;
  Project : string;
  Cluster : string;
  SubCluster : string;
  Partition : string;
  ArrayJobId : Z;
  NumNodes : Z;
  NumHWThreads : Z;
  NumAcc : Z;
  Exclusive : Z;
  MonitoringStatus : MonitoringStatus;
  SMT : Z;
  State : JobState;
  StartTime : Z;
  Duration : Z;
  Walltime : Z;
  Resources : list (option Resource);   (* a slice of pointers *)
  MetaData : option (gmap string string)
}.

End schema.

(** Modelled from the spec: the weight modes of [model.Weights], node
    count and node hours; [WeightsOther] stands for any other value of the
    type, for which the code keeps the plain count. *)
Inductive Weights := WeightsNodeCount | WeightsNodeHours | WeightsOther.

(** All rows of a [SELECT DISTINCT sel FROM t WHERE whr <cmp> ?], each
    scanned into a Go string.  The loop over the rows stops with an error
    at the first [NULL], so the query fails exactly when one of the rows
    that satisfy the comparison holds a [NULL]. *)
Definition query_all {R} (rows : list R) (sel whr : R → option string)
    (cmp : string → bool) : outcome (list string) :=
  outcome_bind
    (outcome_mapM (λ r, match sel r with Some x => Ok x | None => Err ErrScan end)
       (List.filter (λ r, match whr r with Some x => cmp x | None => false end) rows))
    (λ values, Ok (distinct values)).

Definition select_column_values (r : JobRepository) (table selectColumn whereColumn : string)
    (cmp : string → bool) : outcome (list string) :=
  if decide (table = "job") then
    match job_text_column selectColumn, job_text_column whereColumn with
    | Some sel, Some whr => query_all (jobTable r) sel whr cmp
    | _, _ => Err ErrQuery
    end
  else if decide (table = "user") then
    match user_text_column selectColumn, user_text_column whereColumn with
    | Some sel, Some whr => query_all (userTable r) sel whr cmp
    | _, _ => Err ErrQuery
    end
  else Err ErrQuery.

Section Operations.
Context {engine : SqlEngine} {runtime : GoRuntime} {archiver : ArchiveClient}
        {configuration : Config} {codec : ResourceCodec} {inserts : InsertEngine}
        {order : OrderEngine}.

(** ** The job name *)

(** [m[key]] for a Go map [m]: the empty string for a missing key and
    for the nil map. *)
Definition map_index (r : JobRepository) (m : option loc) (key : string) : string :=
  match m with
  | Some l => default "" (deref r l !! key)
  | None => ""
  end.

(** [FetchJobName].  The value is the job structure as the call leaves
    it together with the returned pointer, [None] for nil.  A cached map
    without a job name is kept in the structure, and the statement that
    follows decodes the stored metadata into that map. *)
Definition FetchJobName (job : Job) : M (Job * option string) :=
  let cachekey := metadata_cachekey job in
  let* cached := cache_Get cachekey in
  let* r := get in
  let job := match cached with
             | Some m => set_MetaData m (RawMetaData job) job
             | None => job
             end in
  if negb (String.eqb (match cached with
                       | Some m => map_index r m "jobName"
                       | None => ""
                       end) "")
  then ret (job, Some (map_index r (MetaData job) "jobName"))
  else
    let* _ := exec (StmtSelect "job") in
    let* r := get in
    match List.find (λ row, (id row =? ID job)%Z) (jobTable r) with
    | None => fail ErrNoRows
    | Some row =>
        let raw := meta_data row in
        if (len raw =? 0)%Z then ret (set_MetaData (MetaData job) raw job, None)
        else
          match unmarshal_metadata (default "" raw) with
          | None => fail ErrUnmarshal
          | Some decoded =>
              let* m :=
                match decoded, MetaData job with
                | None, _ => ret None   (* null: the map is set to nil *)
                | Some kv, None =>
                    let* l := new_map kv in ret (Some l)
                | Some kv, Some l =>
                    (* the decoder fills the map already there *)
                    let* _ := modify (λ r, set_mapHeap (<[l := kv ∪ deref r l]> (mapHeap r)) r) in
                    ret (Some l)
                end in
              let* _ := cache_Put cachekey m (len raw) (hours 24) in
              let* r := get in
              (* the name, or a pointer to a new empty string *)
              ret (set_MetaData m raw job, Some (map_index r m "jobName"))
          end
    end.

(** ** Creating and deleting jobs *)

(** [json.Marshal(job.MetaData)]: the nil map is encoded as [null]. *)
Definition marshal_map (m : option (gmap string string)) : option string :=
  match m with
  | None => Some "null"
  | Some kv => marshal_metadata kv
  end.

(** The row that [Start] inserts: the columns the statement names; the
    summary columns are not among them and stay [NULL]. *)
Definition inserted_row (id' : Z) (job : schema.JobMeta) (rawResources rawMetaData : string)
    : JobRow :=
  {| id := id'; job_id := schema.JobID job; user := schema.User job;
     project := schema.Project job; cluster := schema.Cluster job;
     subcluster := schema.SubCluster job; start_time := schema.StartTime job;
     partition := schema.Partition job; array_job_id := schema.ArrayJobId job;
     num_nodes := schema.NumNodes job; num_hwthreads := schema.NumHWThreads job;
     num_acc := schema.NumAcc job; exclusive := schema.Exclusive job;
     monitoring_status := schema.MonitoringStatus job; smt := schema.SMT job;
     job_state := schema.State job; duration := schema.Duration job;
     walltime := schema.Walltime job; resources := rawResources;
     meta_data := Some rawMetaData; flops_any_avg := None; mem_used_max := None;
     mem_bw_avg := None; load_avg := None; net_bw_avg := None;
     file_bw_avg := None |}.

(** [Start]: the value is the id of the new row ([LastInsertId]). *)
Definition Start (job : schema.JobMeta) : M Z :=
  match marshal_resources (schema.Resources job) with
  | None => fail ErrMarshal
  | Some rawResources =>
      match marshal_map (schema.MetaData job) with
      | None => fail ErrMarshal
      | Some rawMetaData =>
          let* _ := exec (StmtInsert "job") in
          let* r := get in
          let id' := sql_insert_id (jobTable r) in
          let* _ := modify (set_jobTable
                              (jobTable r ++ [inserted_row id' job rawResources rawMetaData])) in
          ret id'
      end
  end.

(** [DeleteJobsBefore]: the rows are counted by one statement and
    deleted by the next; the value is the count. *)
Definition DeleteJobsBefore (startTime : Z) : M Z :=
  let* _ := exec (StmtSelect "job") in
  let* r := get in
  let cnt := Z.of_nat (List.length
               (List.filter (λ row, (start_time row <? startTime)%Z) (jobTable r))) in
  let* _ := exec (StmtDelete "job") in
  let* _ := modify (λ r, set_jobTable
              (List.filter (λ row, negb (start_time row <? startTime)%Z) (jobTable r)) r) in
  ret cnt.

(** [DeleteJobById] *)
Definition DeleteJobById (id' : Z) : M unit :=
  let* _ := exec (StmtDelete "job") in
  modify (λ r, set_jobTable (List.filter (λ row, negb (id row =? id')%Z) (jobTable r)) r).

(** ** Counting jobs by group *)

(** Modelled from the spec: the column an aggregate groups by, user,
    project or cluster. *)
Definition aggregate_column (aggreg : model.Aggregate) : JobRow → string :=
  match aggreg with
  | model.AggregateUser => user
  | model.AggregateProject => project
  | model.AggregateCluster => cluster
  end.

(** The term a job adds to the [count] column of its group: 1, its
    number of nodes, or its number of nodes times its run time in
    seconds, taken from the clock for a running job. *)
Definition job_weight (weight : option Weights) (now : Z) (row : JobRow) : Z :=
  match weight with
  | Some WeightsNodeCount => num_nodes row
  | Some WeightsNodeHours =>
      num_nodes row * (if bool_decide (job_state row = JobStateRunning)
                       then now - start_time row else duration row)
  | _ => 1
  end.

(** [uint64(n)] for a Go [int] *)
Definition uint64 (n : Z) : Z := n mod 2 ^ 64.

(** The statement of [CountGroupedJobs] is in the fragment that the
    engine computes exactly: the limit, when there is one, is not negative
    (a negative limit becomes an unsigned number above the 64-bit range of
    the engine), and for the weight modes that sum, the numbers involved
    and the sum of the weights fit 64 bits. *)
Definition counts_exact (weight : option Weights) (now : Z) (limit : option Z)
    (rows : list JobRow) : bool :=
  match limit with
  | Some n => (0 <=? n)%Z && int64 n
  | None => true
  end
  && match weight with
     | Some WeightsNodeCount =>
         forallb (λ row, int64 (num_nodes row)) rows
         && sum_fits (List.map num_nodes rows)
     | Some WeightsNodeHours =>
         int64 now
         && forallb (λ row, int64 (num_nodes row) && int64 (start_time row)
                            && int64 (duration row)
                            && int64 (now - start_time row)) rows
         && sum_fits (List.map (job_weight weight now) rows)
     | _ => true
     end.

(** The rows of the statement in the exact fragment: one row per group
    with the sum of the weights of its jobs, in descending order of the
    sums, cut at the limit. *)
Definition counts_rows (key : JobRow → string) (term : JobRow → Z) (limit : option Z)
    (matching : list JobRow) : list (string * Z) :=
  let groups :=
    List.map (λ g, (g, sumZ (List.map term
                               (List.filter (λ row, String.eqb (key row) g) matching))))
      (distinct (List.map key matching)) in
  let ordered := sql_order_desc groups in
  match limit with
  | Some n => take (Z.to_nat (uint64 n)) ordered
  | None => ordered
  end.

(** [CountGroupedJobs].  Every value of [model.Aggregate] is one that
    [IsValid] accepts.  The arguments [weight] and [limit] are pointers,
    [None] is nil. *)
Definition CountGroupedJobs (ctx : Context) (aggreg : model.Aggregate)
    (filters : list JobFilter) (weight : option Weights) (limit : option Z)
    : M (gmap string Z) :=
  let* r := get in
  let now := clock r in
  let key := aggregate_column aggreg in
  let* query := lift (SecurityCheck ctx (λ _, true)) in
  let query := apply_filters filters query in
  let* _ := exec (StmtSelect "job") in
  let* r := get in
  let matching := List.filter query (jobTable r) in
  let* rows :=
    lift (if counts_exact weight now limit matching
          then Ok (counts_rows key (job_weight weight now) limit matching)
          else sql_inexact_counts key (job_weight weight now) limit matching) in
  ret (fold_left (λ counts (row : string * Z), <[row.1 := row.2]> counts) rows ∅).

(** ** Lists of column values *)

(** [FindColumnValues].  [Query] does not report [sql.ErrNoRows]: a
    search without a match is the empty list. *)
Definition FindColumnValues (user : option User) (query table selectColumn whereColumn : string)
    : M (list string) :=
  match user with
  | None => panic
  | Some u =>
      if HasAnyRole u elevated then
        let* _ := exec (StmtSelect table) in
        let* r := get in
        lift (select_column_values r table selectColumn whereColumn
                (λ x, sql_like x ("%" +:+ query +:+ "%")))
      else fail ErrForbidden
  end.

(** ** Allocated nodes *)

(** [hosts[resource.Hostname] += 1] for each resource of a job.  The
    resources are pointers: the field of a nil pointer cannot be read, and
    the loop panics at the first one. *)
Fixpoint count_hosts (resources' : list (option Resource)) (hosts : gmap string Z)
    : outcome (gmap string Z) :=
  match resources' with
  | [] => Ok hosts
  | Some resource :: rest =>
      count_hosts rest
        (<[Hostname resource := (default 0 (hosts !! Hostname resource) + 1)%Z]> hosts)
  | None :: _ => Panic
  end.

(** [AllocatedNodes] *)
Definition AllocatedNodes (cluster' : string) : M (gmap string (gmap string Z)) :=
  let* _ := exec (StmtSelect "job") in
  let* r := get in
  for_range
    (List.filter (λ row, bool_decide (job_state row = JobStateRunning)
                         && String.eqb (cluster row) cluster') (jobTable r))
    (λ row subclusters,
       match unmarshal_resources (resources row) with
       | None => fail ErrUnmarshal
       | Some resources' =>
           let hosts := default ∅ (subclusters !! subcluster row) in
           let* hosts := lift (count_hosts resources' hosts) in
           ret (<[subcluster row := hosts]> subclusters)
       end) ∅.

End Operations.

(** ** A reference environment

    A concrete engine, JSON codec, archive client and configuration, on
    which the repository can be run. *)

Definition ascii_lower (a : ascii) : ascii :=
  let n := nat_of_ascii a in
  if ((65 <=? n) && (n <=? 90))%nat then ascii_of_nat (n + 32) else a.

(** [LIKE] with the wild cards [%] and [_], letters compared without
    regard to case. *)
Fixpoint wildcard_match (pattern : string) : string → bool :=
  match pattern with
  | EmptyString => λ text, match text with EmptyString => true | _ => false end
  | String p pattern' =>
      if Ascii.eqb p "%" then
        fix any (text : string) : bool :=
          wildcard_match pattern' text
          || match text with
             | EmptyString => false
             | String _ text' => any text'
             end
      else if Ascii.eqb p "_" then
        λ text, match text with
                | String _ text' => wildcard_match pattern' text'
                | EmptyString => false
                end
      else
        λ text, match text with
                | String c text' =>
                    Ascii.eqb (ascii_lower c) (ascii_lower p) && wildcard_match pattern' text'
                | EmptyString => false
                end
  end.

Lemma last_elem (rows : list JobRow) (row : JobRow) :
  last rows = Some row → row ∈ rows.
Proof.
  induction rows as [|x [|y rows] IH]; cbn; [discriminate| |].
  - intros [= ->]. apply list_elem_of_here.
  - intros H. apply list_elem_of_further. by apply IH.
Qed.

Lemma last_some (rows : list JobRow) : rows ≠ [] → is_Some (last rows).
Proof.
  induction rows as [|x [|y rows] IH]; [done|by eexists|].
  intros _. apply IH. discriminate.
Qed.

(** The reference engine reports the row it has visited last, and
    fails a statement outside the exact fragment at its first step, before
    a row is delivered. *)
Definition wildcard_engine : SqlEngine :=
  {| sql_like := λ text pattern, wildcard_match pattern text;
     sql_bare_row := last;
     sql_bare_row_elem := last_elem;
     sql_bare_row_some := last_some;
     sql_inexact_stats := λ _ _ _ _ _, Ok [];
     sql_inexact_stats_no_panic := λ _ _ _ _ _ H, eq_ind (Ok []) (λ o, match o with Ok _ => True | _ => False end) I Panic H;
     sql_inexact_counts := λ _ _ _ _, Ok [];
     sql_inexact_counts_no_panic := λ _ _ _ _ H, eq_ind (Ok []) (λ o, match o with Ok _ => True | _ => False end) I Panic H |}.

Definition dquote : ascii := ascii_of_nat 34.
Definition backslash : ascii := ascii_of_nat 92.

(** The characters of a JSON string up to its closing quote, and what
    follows it. *)
Fixpoint json_string_body (s : string) : option (string * string) :=
  match s with
  | EmptyString => None
  | String c rest =>
      if Ascii.eqb c dquote then Some (EmptyString, rest)
      else if Ascii.eqb c backslash then
        match rest with
        | String e rest' =>
            match json_string_body rest' with
            | Some (t, k) => Some (String e t, k)
            | None => None
            end
        | EmptyString => None
        end
      else
        match json_string_body rest with
        | Some (t, k) => Some (String c t, k)
        | None => None
        end
  end.

Definition json_string (s : string) : option (string * string) :=
  match s with
  | String c rest => if Ascii.eqb c dquote then json_string_body rest else None
  | EmptyString => None
  end.

(** The members of a JSON object whose values are strings, after the
    opening brace, and what follows the closing brace. *)
Fixpoint json_members (fuel : nat) (s : string) (acc : gmap string string)
    : option (gmap string string * string) :=
  match fuel with
  | O => None
  | S fuel' =>
      match json_string s with
      | Some (k, String ":" rest) =>
          match json_string rest with
          | Some (v, String "," rest') => json_members fuel' rest' (<[k := v]> acc)
          | Some (v, String "}" rest') => Some (<[k := v]> acc, rest')
          | _ => None
          end
      | _ => None
      end
  end.

Definition json_object (s : string) : option (gmap string string * string) :=
  match s with
  | String "{" (String "}" rest) => Some (∅, rest)
  | String "{" rest => json_members (String.length s) rest ∅
  | _ => None
  end.

Definition json_unmarshal_metadata (raw : string) : option (option (gmap string string)) :=
  if String.eqb raw "null" then Some None
  else match json_object raw with
       | Some (m, EmptyString) => Some (Some m)
       | _ => None
       end.

Fixpoint json_escape (s : string) : string :=
  match s with
  | EmptyString => EmptyString
  | String c rest =>
      if (Ascii.eqb c dquote || Ascii.eqb c backslash)%bool
      then String backslash (String c (json_escape rest))
      else String c (json_escape rest)
  end.

Definition json_quote (s : string) : string :=
  String dquote (json_escape s +:+ String dquote EmptyString).

Definition json_marshal_metadata (m : gmap string string) : option string :=
  Some ("{" +:+ String.concat ","
                  (List.map (λ kv, json_quote kv.1 +:+ ":" +:+ json_quote kv.2) (map_to_list m))
        +:+ "}").

Definition resource_of_object (m : gmap string string) : Resource :=
  {| Hostname := default "" (m !! "hostname"); HWThreads := [];
     Accelerators := []; Configuration := default "" (m !! "configuration") |}.

(** The elements of a JSON array of such objects or nulls, after the
    opening bracket. *)
Fixpoint json_elements (fuel : nat) (s : string) : option (list (option Resource)) :=
  match fuel with
  | O => None
  | S fuel' =>
      match s with
      | String "n" (String "u" (String "l" (String "l" (String "," rest)))) =>
          option_map (cons None) (json_elements fuel' rest)
      | String "n" (String "u" (String "l" (String "l" (String "]" EmptyString)))) =>
          Some [None]
      | _ =>
          match json_object s with
          | Some (m, String "," rest) =>
              option_map (cons (Some (resource_of_object m))) (json_elements fuel' rest)
          | Some (m, String "]" EmptyString) => Some [Some (resource_of_object m)]
          | _ => None
          end
      end
  end.

Definition json_unmarshal_resources (raw : string) : option (list (option Resource)) :=
  if String.eqb raw "null" then Some []
  else if String.eqb raw "[]" then Some []
  else match raw with
       | String "[" rest => json_elements (String.length raw) rest
       | _ => None
       end.

Definition json_runtime : GoRuntime :=
  {| unmarshal_resources := json_unmarshal_resources;
     unmarshal_metadata := json_unmarshal_metadata;
     marshal_metadata := json_marshal_metadata;
     int32_out_of_range := λ _, (- 2 ^ 31)%Z;
     duration_seconds := λ d, Z.quot d (10 ^ 9);
     duration_seconds_exact := λ _ _, eq_refl |}.

Definition json_archiver (ok : Job → bool) (statistics : gmap string JobStatistics)
    : ArchiveClient :=
  {| ArchiveJob := λ _ job, if ok job then Some statistics else None |}.

(** Ids are handed out in ascending order. *)
Definition next_id (rows : list JobRow) : Z :=
  fold_right Z.max 0 (List.map id rows) + 1.

Lemma next_id_above (rows : list JobRow) :
  Forall (λ i, (i < next_id rows)%Z) (List.map id rows).
Proof.
  unfold next_id. induction rows as [|row rows IH]; [constructor|].
  cbn [List.map fold_right]. constructor; [lia|].
  eapply Forall_impl; [exact IH|]. cbn beta. intros i Hi. lia.
Qed.

Lemma next_id_fresh (rows : list JobRow) : next_id rows ∉ List.map id rows.
Proof.
  intros Hin. pose proof (next_id_above rows) as Hall.
  rewrite Forall_forall in Hall. specialize (Hall _ Hin). lia.
Qed.

Definition ascending_ids : InsertEngine :=
  {| sql_insert_id := next_id; sql_insert_id_fresh := next_id_fresh |}.

Definition count_desc (a b : string * Z) : Prop := (b.2 ≤ a.2)%Z.

Global Instance count_desc_dec a b : Decision (count_desc a b).
Proof. unfold count_desc. apply _. Defined.

Global Instance count_desc_total : Total count_desc.
Proof. intros a b. unfold count_desc. lia. Qed.

Global Instance count_desc_trans : Transitive count_desc.
Proof. intros a b c. unfold count_desc. lia. Qed.

Lemma merge_sort_desc_sorted (rows : list (string * Z)) :
  StronglySorted (λ a b : string * Z, (b.2 ≤ a.2)%Z) (merge_sort count_desc rows).
Proof. apply (StronglySorted_merge_sort count_desc). Qed.

(** The reference engine sorts by merging. *)
Definition merge_order : OrderEngine :=
  {| sql_order_desc := merge_sort count_desc;
     sql_order_desc_perm := merge_sort_Permutation count_desc;
     sql_order_desc_sorted := merge_sort_desc_sorted |}.

(** Resources are encoded with their host names and configurations, a
    nil pointer as [null]. *)
Definition json_marshal_resources (resources' : list (option Resource)) : option string :=
  Some ("[" +:+ String.concat ","
                  (List.map (λ res : option Resource,
                               match res with
                               | Some res =>
                                   "{" +:+ json_quote "hostname" +:+ ":"
                                   +:+ json_quote (Hostname res) +:+ ","
                                   +:+ json_quote "configuration" +:+ ":"
                                   +:+ json_quote (Configuration res) +:+ "}"
                               | None => "null"
                               end) resources')
        +:+ "]").

Definition json_codec : ResourceCodec :=
  {| marshal_resources := json_marshal_resources |}.

(** The resources of a job on the given hosts, encoded. *)
Definition resources_on (hosts : list string) : string :=
  default "" (json_marshal_resources
                (List.map (λ host, Some {| Hostname := host; HWThreads := [];
                                           Accelerators := []; Configuration := "" |})
                   hosts)).

(** ** Scenarios *)

Definition job_row (id' : Z) (user' project' cluster' subcluster' : string)
    (start duration' walltime' nodes : Z) (state : JobState)
    (status : MonitoringStatus) (md : option string) : JobRow :=
  {| id := id'; job_id := 1000 + id'; user := user'; project := project';
     cluster := cluster'; subcluster := subcluster'; start_time := start;
     partition := "work"; array_job_id := 0; num_nodes := nodes;
     num_hwthreads := 0; num_acc := 0; exclusive := 1;
     monitoring_status := status; smt := 1; job_state := state;
     duration := duration'; walltime := walltime'; resources := "[]";
     meta_data := md; flops_any_avg := None; mem_used_max := None;
     mem_bw_avg := None; load_avg := None; net_bw_avg := None;
     file_bw_avg := None |}.

Definition repository (driver' : string) (now : Z) (jobs : list JobRow)
    (users : list UserRow) : JobRepository :=
  {| jobTable := jobs; userTable := users; driver := driver'; executed := [];
     cache := ∅; evictions := []; mapHeap := ∅; clock := now; clockNanos := 0;
     archiveChannel := []; archivePending := 0 |}.

Definition alice : User :=
  {| Username := "alice"; Name := "Alice"; Roles := [RoleUser] |}.

Definition root : User :=
  {| Username := "root"; Name := "Operator"; Roles := [RoleAdmin] |}.

Definition request (u : User) : Context :=
  {| ctxUser := Some u; ctxFields := [] |}.

(** A job of another user, named in its metadata. *)
Definition bob_job (cluster' : string) : JobRow :=
  job_row 1 "bob" "projB" cluster' "main" 100 3600 7200 4 JobStateCompleted
    MonitoringStatusArchivingSuccessful
    (json_marshal_metadata {[ "jobName" := "solver" ]}).

(** The rows a caller owns. *)
Definition own_rows (u : User) (r : JobRepository) : list JobRow :=
  List.filter (λ row, String.eqb (user row) (Username u)) (jobTable r).

(** Three running jobs that started 3700, 3000 and 3700 seconds before
    time 10000, the third one without a walltime limit. *)
Definition walltime_jobs : list JobRow :=
  [ job_row 1 "alice" "p" "emmy" "main" 6300 0 3000 2 JobStateRunning
      MonitoringStatusRunningOrArchiving None;
    job_row 2 "alice" "p" "emmy" "main" 7000 0 3000 2 JobStateRunning
      MonitoringStatusRunningOrArchiving None;
    job_row 3 "alice" "p" "emmy" "main" 6300 0 0 2 JobStateRunning
      MonitoringStatusRunningOrArchiving None ].

(** A job structure for a row, as a caller holds it before the metadata
    is loaded. *)
Definition job_struct (row : JobRow) : Job :=
  {| ID := id row; JobID := job_id row; JUser := user row; Project := project row;
     Cluster := cluster row; SubCluster := subcluster row;
     StartTimeUnix := start_time row; StartTime := start_time row;
     Partition := partition row; ArrayJobId := array_job_id row;
     NumNodes := num_nodes row; NumHWThreads := num_hwthreads row;
     NumAcc := num_acc row; Exclusive := exclusive row;
     JMonitoringStatus := monitoring_status row; SMT := smt row;
     State := job_state row; Duration := duration row; Walltime := walltime row;
     RawResources := None; Resources := []; RawMetaData := None;
     MetaData := None |}.

(** A finished job that waits for its archiving. *)
Definition finished_row : JobRow :=
  job_row 7 "alice" "p" "emmy" "main" 100 3600 7200 2 JobStateCompleted
    MonitoringStatusRunningOrArchiving
    (json_marshal_metadata {[ "jobName" := "solver" ]}).

Definition failing_archiver : ArchiveClient := json_archiver (λ _, false) ∅.

Definition working_archiver : ArchiveClient :=
  json_archiver (λ _, true) {[ "flops_any" := {| Avg := 1; Min := 0; Max := 2 |} ]}.

(** The repository after [TriggerArchiving] of that job. *)
Definition triggered : JobRepository :=
  set_archiveChannel [job_struct finished_row]
    (set_archivePending 1 (repository "sqlite3" 10000 [finished_row] [])).

(** Two configured clusters; the first one has two subclusters with 20
    and 32 cores per node. *)
Definition two_clusters : Config :=
  {| Clusters :=
       [ {| archive.ClusterName := "emmy";
            archive.SubClusters :=
              [ {| archive.SubClusterName := "main"; archive.SocketsPerNode := 2;
                   archive.CoresPerSocket := 10 |};
                {| archive.SubClusterName := "gpu"; archive.SocketsPerNode := 2;
                   archive.CoresPerSocket := 16 |} ] |};
         {| archive.ClusterName := "woody";
            archive.SubClusters :=
              [ {| archive.SubClusterName := "w"; archive.SocketsPerNode := 1;
                   archive.CoresPerSocket := 4 |} ] |} ];
     ShortRunningJobsDuration := 300 |}.

(** Finished jobs: 164000 core seconds on emmy/main (45.6 core hours),
    160000 on emmy/gpu (44.4 core hours), 14400 on woody/w. *)
Definition finished_jobs : list JobRow :=
  [ job_row 1 "alice" "p" "emmy" "main" 100 3600 7200 2 JobStateCompleted
      MonitoringStatusArchivingSuccessful None;
    job_row 2 "bob" "q" "emmy" "main" 100 1000 7200 1 JobStateCompleted
      MonitoringStatusArchivingSuccessful None;
    job_row 3 "alice" "p" "emmy" "gpu" 100 5000 7200 1 JobStateCompleted
      MonitoringStatusArchivingSuccessful None;
    job_row 4 "bob" "q" "woody" "w" 100 3600 7200 1 JobStateCompleted
      MonitoringStatusArchivingSuccessful None ].



(** A second finished job, with metadata of its own. *)
Definition second_row : JobRow :=
  job_row 8 "bob" "q" "emmy" "main" 200 1800 7200 1 JobStateCompleted
    MonitoringStatusArchivingSuccessful
    (json_marshal_metadata {[ "jobName" := "mesh" ]}).

(** A job as the scheduler reports it at its start, on one node. *)
Definition new_job : schema.JobMeta :=
  {| schema.JobID := 2000; schema.User := "carol"; schema.Project := "p";
     schema.Cluster := "emmy"; schema.SubCluster := "main";
     schema.Partition := "gpu"; schema.ArrayJobId := 0; schema.NumNodes := 1;
     schema.NumHWThreads := 40; schema.NumAcc := 0; schema.Exclusive := 1;
     schema.MonitoringStatus := MonitoringStatusRunningOrArchiving;
     schema.SMT := 1; schema.State := JobStateRunning; schema.StartTime := 9000;
     schema.Duration := 0; schema.Walltime := 3600;
     schema.Resources := [ Some {| Hostname := "e0101"; HWThreads := [];
                                   Accelerators := []; Configuration := "" |} ];
     schema.MetaData := Some {[ "jobName" := "mesh" ]} |}.

(** A repository whose cache holds a map of the finished job that lacks
    the job name, while the row of the job stores one. *)
Definition cached_without_name : JobRepository :=
  {| jobTable := [finished_row]; userTable := []; driver := "sqlite3";
     executed := [];
     cache := {[ "metadata:7" := {| entryValue := Some 1%positive; entrySize := 12;
                                    entryExpiration := 90000 |} ]};
     evictions := [];
     mapHeap := {[ 1%positive := {[ "note" := "x" ]} ]};
     clock := 10000; clockNanos := 0; archiveChannel := []; archivePending := 0 |}.

(** Two running jobs on emmy that share the node e0102, and a finished
    job on e0103. *)
Definition jobs_on_nodes : list JobRow :=
  let on (row : JobRow) (hosts : list string) : JobRow :=
    {| id := id row; job_id := job_id row; user := user row; project := project row;
       cluster := cluster row; subcluster := subcluster row;
       start_time := start_time row; partition := partition row;
       array_job_id := array_job_id row; num_nodes := num_nodes row;
       num_hwthreads := num_hwthreads row; num_acc := num_acc row;
       exclusive := 0; monitoring_status := monitoring_status row; smt := smt row;
       job_state := job_state row; duration := duration row; walltime := walltime row;
       resources := resources_on hosts; meta_data := meta_data row;
       flops_any_avg := None; mem_used_max := None; mem_bw_avg := None;
       load_avg := None; net_bw_avg := None; file_bw_avg := None |} in
  [ on (job_row 1 "alice" "p" "emmy" "main" 9000 0 3600 2 JobStateRunning
          MonitoringStatusRunningOrArchiving None) ["e0101"; "e0102"];
    on (job_row 2 "bob" "q" "emmy" "main" 9500 0 3600 1 JobStateRunning
          MonitoringStatusRunningOrArchiving None) ["e0102"];
    on (job_row 3 "bob" "q" "emmy" "main" 100 3600 7200 1 JobStateCompleted
          MonitoringStatusArchivingSuccessful None) ["e0103"] ].

(** The finished jobs and two short jobs, one of each user. *)
Definition jobs_with_short : list JobRow :=
  (finished_jobs
   ++ [ job_row 6 "alice" "p" "emmy" "main" 100 120 7200 1 JobStateCompleted
          MonitoringStatusArchivingSuccessful None;
        job_row 7 "bob" "q" "emmy" "gpu" 100 60 7200 1 JobStateCompleted
          MonitoringStatusArchivingSuccessful None ])%list.

(** * The vocabulary of the properties *)

Section Vocabulary.
Context {engine : SqlEngine} {runtime : GoRuntime} {archiver : ArchiveClient}
        {configuration : Config}.

(** What a lookup whose error is dropped leaves in the result
    variable. *)
Definition column_lookup (u : User) (searchterm table selectColumn whereColumn : string)
    (isLike : bool) (r : JobRepository) : string :=
  match fst (ignore_error
               (FindColumnValue (Some u) searchterm table selectColumn whereColumn isLike) r) with
  | Ok result => result
  | _ => ""
  end.

(** The last step of the resolver: the first job row, of any user, whose
    stored metadata contains the search term; its cluster is scanned. *)
Definition metadata_match (searchterm : string) (r : JobRepository) : outcome string :=
  query_first (jobTable r) (λ row, Some (cluster row)) meta_data
    (λ x, sql_like x ("%" +:+ searchterm +:+ "%")).

(** What the resolver returns once the last step has run. *)
Definition metadata_result (searchterm : string) (r : JobRepository)
    : outcome (string * string * string) :=
  match metadata_match searchterm r with
  | Ok metasnip =>
      match slice_0_1 metasnip with
      | Ok c => Ok ("", "", c)
      | _ => Panic
      end
  | Err ErrNoRows => Err ErrNotFound
  | Err e => Err e
  | Panic => Panic
  end.

(** The duration a read reports, in the words of the specification: the
    time elapsed since the start for a running job whose stored duration
    is 0, the stored duration otherwise. *)
Definition derived_duration (now : Z) (row : JobRow) : Z :=
  if decide (job_state row = JobStateRunning ∧ duration row = 0%Z)
  then (now - start_time row)%Z
  else duration row.

(** The time elapsed since the start of a row in whole seconds, the
    fraction cut off towards zero: a start that lies ahead of the time by
    [n] seconds and a fraction is [n] seconds ahead. *)
Definition elapsed_seconds (r : JobRepository) (row : JobRow) : Z :=
  Z.quot ((clock r - start_time row) * 10 ^ 9 + clockNanos r) (10 ^ 9).

(** The duration a read reports, as the code derives it. *)
Definition scanned_duration (r : JobRepository) (row : JobRow) : Z :=
  if decide (job_state row = JobStateRunning ∧ duration row = 0%Z)
  then elapsed_seconds r row
  else duration row.

(** The reading of the clock is a time: the nanoseconds are those of one
    second. *)
Definition clock_reading (r : JobRepository) : Prop :=
  (0 ≤ clockNanos r < 10 ^ 9)%Z.

(** The elapsed time of a row whose duration is derived is in the range
    in which the seconds of a duration are exact, 2^24 seconds (194 days)
    to either side. *)
Definition elapsed_fits (now : Z) (row : JobRow) : Prop :=
  job_state row = JobStateRunning → duration row = 0%Z →
  (- 2 ^ 24 < now - start_time row < 2 ^ 24)%Z.

(** The rows of the job table after a job has been marked as failed. *)
Definition mark_failed (jobId : Z) (rows : list JobRow) : list JobRow :=
  List.map (λ row, if (id row =? jobId)%Z
                   then set_monitoring_status MonitoringStatusArchivingFailed row
                   else row) rows.

(** The pipeline of a job runs into an error: loading its metadata fails,
    or the archive client fails on it. *)
Definition pipeline_fails (job : Job) (r : JobRepository) : Prop :=
  match FetchMetadata job r with
  | (Ok (job', _), r1) => ArchiveJob r1 job' = None
  | (Err _, _) => True
  | (Panic, _) => False
  end.

(** The row of a job, as [QueryRow] finds it. *)
Definition job_row_of (job : Job) (r : JobRepository) : option JobRow :=
  List.find (λ row, (id row =? ID job)%Z) (jobTable r).

(** The entries a job had before an update: those of the map the
    structure holds, or, when it holds none, those stored in its row. *)
Definition prior_metadata (job : Job) (r : JobRepository) : gmap string string :=
  match MetaData job with
  | Some l => deref r l
  | None =>
      match job_row_of job r with
      | Some row =>
          if (len (meta_data row) =? 0)%Z then ∅
          else match unmarshal_metadata (default "" (meta_data row)) with
               | Some (Some kv) => kv
               | _ => ∅
               end
      | None => ∅
      end
  end.

(** The state in which the lookup leaves the cache when it misses. *)
Definition after_miss (key : string) (r : JobRepository) : JobRepository :=
  match cache r !! key with
  | Some _ => set_cache (delete key (cache r)) r
  | None => r
  end.

Definition cache_misses (key : string) (r : JobRepository) : Prop :=
  match cache r !! key with
  | Some e => (entryExpiration e ≤ clock r)%Z
  | None => True
  end.

(** The repository at a later time [now], with the cache entry of the
    job deleted or not. *)
Definition later (now : Z) (deleted : bool) (job : Job) (r : JobRepository) : JobRepository :=
  if deleted then snd (cache_Del (metadata_cachekey job) (set_clock now r))
  else set_clock now r.

(** The caller may see a row: callers with an elevated role see every
    row, other callers their own. *)
Definition caller_sees (ctx : Context) (row : JobRow) : bool :=
  match GetUser ctx with
  | Some u => HasAnyRole u elevated || String.eqb (user row) (Username u)
  | None => false
  end.

(** The jobs a statistics request ranges over: those the caller may see
    and that pass every filter. *)
Definition selected (ctx : Context) (filter : list JobFilter) (row : JobRow) : bool :=
  caller_sees ctx row && forallb (λ f : JobFilter, f row) filter.

(** The selected jobs of a configured subcluster. *)
Definition subcluster_jobs (ctx : Context) (filter : list JobFilter)
    (c : archive.ClusterConfig) (sc : archive.SubClusterConfig) (row : JobRow) : bool :=
  String.eqb (cluster row) (archive.ClusterName c)
  && String.eqb (subcluster row) (archive.SubClusterName sc)
  && selected ctx filter row.

(** The column an aggregate groups by. *)
Definition aggregate_key (a : model.Aggregate) : JobRow → string :=
  match a with
  | model.AggregateUser => user
  | model.AggregateProject => project
  | model.AggregateCluster => cluster
  end.

(** The core hours of the jobs of group [g] on one configured
    subcluster, rounded by the rule of the engine. *)
Definition subcluster_core_hours (castType : string) (ctx : Context)
    (filter : list JobFilter) (key : JobRow → string) (g : string)
    (rows : list JobRow) (p : archive.ClusterConfig * archive.SubClusterConfig) : Z :=
  engine_round castType
    (sumZ (List.map (core_seconds (archive.SocketsPerNode p.2) (archive.CoresPerSocket p.2))
             (List.filter (λ row, subcluster_jobs ctx filter p.1 p.2 row
                                  && String.eqb (key row) g) rows))).

(** The configured (cluster, subcluster) pairs, in the order of the
    loops. *)
Definition config_pairs : list (archive.ClusterConfig * archive.SubClusterConfig) :=
  flat_map (λ c, List.map (pair c) (archive.SubClusters c)) Clusters.

(** The total core hours of a cluster, in the words of the
    specification: the sum, over the configured subclusters of the
    cluster, of the core seconds of the selected jobs of the subcluster
    divided by 3600 and rounded by the rule of the engine. *)
Definition cluster_core_hours (castType : string) (ctx : Context)
    (filter : list JobFilter) (g : string) (rows : list JobRow) : Z :=
  sumZ (List.map
          (λ p, engine_round castType
                  (sumZ (List.map (core_seconds (archive.SocketsPerNode p.2)
                                                (archive.CoresPerSocket p.2))
                           (List.filter (subcluster_jobs ctx filter p.1 p.2) rows))))
          (List.filter (λ p, String.eqb (archive.ClusterName p.1) g) config_pairs)).

(** The statistics statement of a configured pair is in the fragment
    that the engine computes exactly, and so are the statements of all
    configured pairs. *)
Definition pair_exact (castType : string) (ctx : Context) (filter : list JobFilter)
    (rows : list JobRow) (p : archive.ClusterConfig * archive.SubClusterConfig) : bool :=
  stats_exact castType (archive.SocketsPerNode p.2) (archive.CoresPerSocket p.2)
    (List.filter (subcluster_jobs ctx filter p.1 p.2) rows).

Definition statistics_exact (castType : string) (ctx : Context) (filter : list JobFilter)
    (rows : list JobRow) : bool :=
  forallb (pair_exact castType ctx filter rows) config_pairs.

(** The statistics map after the pairs [P] have been processed: every
    group in the map carries the sum of its rounded core hours over the
    pairs, as a Go integer, and a group that is not in the map has no
    core hours on any of them. *)
Definition totals_upto (castType : string) (ctx : Context) (filter : list JobFilter)
    (key : JobRow → string) (rows : list JobRow)
    (P : list (archive.ClusterConfig * archive.SubClusterConfig))
    (stats : gmap string model.JobsStatistics) : Prop :=
  ∀ g, match stats !! g with
       | Some st =>
           model.ID st = g
           ∧ model.TotalCoreHours st
             = go_int (sumZ (List.map (subcluster_core_hours castType ctx filter key g rows) P))
       | None =>
           sumZ (List.map (subcluster_core_hours castType ctx filter key g rows) P) = 0%Z
       end.

(** What the later parts of [JobsStatistics] keep of an entry: its
    group and its totals. *)
Definition same_totals (st st' : model.JobsStatistics) : Prop :=
  model.ID st' = model.ID st
  ∧ model.TotalJobs st' = model.TotalJobs st
  ∧ model.TotalWalltime st' = model.TotalWalltime st
  ∧ model.TotalCoreHours st' = model.TotalCoreHours st.

Definition keeps_totals (stats stats' : gmap string model.JobsStatistics) : Prop :=
  ∀ g st', stats' !! g = Some st' → ∃ st, stats !! g = Some st ∧ same_totals st st'.


(** The short jobs a request ranges over, in table order. *)
Definition short_rows (ctx : Context) (filter : list JobFilter)
    (rows : list JobRow) : list JobRow :=
  List.filter (λ row, (duration row <? ShortRunningJobsDuration)%Z
                      && selected ctx filter row) rows.

End Vocabulary.

Section FurtherVocabulary.
Context {engine : SqlEngine} {runtime : GoRuntime} {archiver : ArchiveClient}
        {configuration : Config} {codec : ResourceCodec} {inserts : InsertEngine}
        {order : OrderEngine}.

(** The metadata of a job can be loaded from its row: the row exists and
    its [meta_data] column is empty or decodes. *)
Definition metadata_loadable (job : Job) (rows : list JobRow) : Prop :=
  match List.find (λ row, (id row =? ID job)%Z) rows with
  | Some row =>
      len (meta_data row) = 0%Z
      ∨ is_Some (unmarshal_metadata (default "" (meta_data row)))
  | None => False
  end.

(** A row before and after the worker has archived the jobs [ids]: the
    rows of these jobs are marked as archived, the other rows are as
    before. *)
Definition archived_row (ids : list Z) (row row' : JobRow) : Prop :=
  id row' = id row
  ∧ meta_data row' = meta_data row
  ∧ (id row ∈ ids → monitoring_status row' = MonitoringStatusArchivingSuccessful)
  ∧ (id row ∉ ids → row' = row).

(** [TriggerArchiving] for each job of a list in turn; [None] when one
    of the sends blocks. *)
Fixpoint trigger_all (jobs : list Job) (r : JobRepository) : option JobRepository :=
  match jobs with
  | [] => Some r
  | job :: jobs' =>
      match TriggerArchiving job r with
      | Some r1 => trigger_all jobs' r1
      | None => None
      end
  end.

(** What a caller gets from [FetchMetadata]: the entries of the returned
    map ([None] for the nil map), or the error. *)
Definition fetched (res : outcome (Job * option loc) * JobRepository)
    : outcome (option (gmap string string)) :=
  match res with
  | (Ok (_, m), r') => Ok (deref r' <$> m)
  | (Err e, _) => Err e
  | (Panic, _) => Panic
  end.

(** What the row of a job stores as its metadata: the entries a load
    from the database yields for a structure that holds the map
    [held]. *)
Definition stored_metadata (held : option (gmap string string))
    (row : option JobRow) : outcome (option (gmap string string)) :=
  match row with
  | None => Err ErrNoRows
  | Some row =>
      if (len (meta_data row) =? 0)%Z then Ok None
      else match unmarshal_metadata (default "" (meta_data row)) with
           | None => Err ErrUnmarshal
           | Some None => Ok None
           | Some (Some kv) =>
               Ok (Some (match held with Some old => kv ∪ old | None => kv end))
           end
  end.

(** The rows of a table whose column [whr] contains the search term, as
    [LIKE] with a wild card on both sides decides it. *)
Definition like_rows {R} (whr : R → option string) (query : string) (rows : list R)
    : list R :=
  List.filter (λ r, match whr r with
                    | Some x => sql_like x ("%" +:+ query +:+ "%")
                    | None => false
                    end) rows.







(** The jobs of group [g] that a request ranges over. *)
Definition group_jobs (ctx : Context) (filters : list JobFilter) (aggreg : model.Aggregate)
    (g : string) (rows : list JobRow) : list JobRow :=
  List.filter (λ row, selected ctx filters row
                      && String.eqb (aggregate_column aggreg row) g) rows.

(** The count of a group under a weight mode. *)
Definition group_count (weight : option Weights) (now : Z) (ctx : Context)
    (filters : list JobFilter) (aggreg : model.Aggregate) (g : string)
    (rows : list JobRow) : Z :=
  sumZ (List.map (job_weight weight now) (group_jobs ctx filters aggreg g rows)).

(** The groups that a request ranges over, in the order of their first
    jobs. *)
Definition groups_of (ctx : Context) (filters : list JobFilter) (aggreg : model.Aggregate)
    (rows : list JobRow) : list string :=
  distinct (List.map (aggregate_column aggreg) (List.filter (selected ctx filters) rows)).

(** The repository [r'] differs from [r] by [SELECT] statements only:
    the tables, the cache, the decoded maps, the clock and the archiving
    queue are those of [r]. *)
Definition only_reads (r r' : JobRepository) : Prop :=
  ∃ log, r' = set_executed (executed r ++ log) r
         ∧ Forall (λ st, ∃ table, st = StmtSelect table) log.

(** An operation that only reads, however it ends. *)
Definition read_only {A} (m : M A) : Prop := ∀ r, only_reads r (snd (m r)).

(** The jobs a histogram ranges over: those the caller may see and that
    pass the filters, restricted to the group [id'] of column [col] when
    both are given. *)
Definition histogram_rows (ctx : Context) (filters : list JobFilter) (id' col : string)
    (rows : list JobRow) : list JobRow :=
  List.filter
    (λ row, selected ctx filters row
            && (if (negb (String.length id' =? 0)%nat
                    && negb (String.length col =? 0)%nat)%bool
                then match column_key col with
                     | Some key => String.eqb (key row) id'
                     | None => false
                     end
                else true)) rows.

(** The jobs among [rows] whose histogram value is [v]. *)
Definition rows_with_value (value : HistogramValue) (v : Z) (rows : list JobRow)
    : list JobRow :=
  List.filter (λ row, match histogram_value value row with
                      | Ok w => (w =? v)%Z
                      | _ => false
                      end) rows.

(** The key of the group a job belongs to: the value of the grouping
    column, or the empty key of the single group of an ungrouped
    request. *)
Definition group_key (groupBy : option model.Aggregate) : JobRow → string :=
  match groupBy with
  | Some a => aggregate_key a
  | None => λ _, ""
  end.

(** The selected jobs of group [g] on a configured subcluster. *)
Definition subcluster_group_jobs (ctx : Context) (filter : list JobFilter)
    (key : JobRow → string) (g : string) (rows : list JobRow)
    (p : archive.ClusterConfig * archive.SubClusterConfig) : list JobRow :=
  List.filter (λ row, subcluster_jobs ctx filter p.1 p.2 row && String.eqb (key row) g) rows.

(** Their number, and their walltime in hours as the engine rounds
    it. *)
Definition subcluster_job_count (ctx : Context) (filter : list JobFilter)
    (key : JobRow → string) (g : string) (rows : list JobRow)
    (p : archive.ClusterConfig * archive.SubClusterConfig) : Z :=
  Z.of_nat (List.length (subcluster_group_jobs ctx filter key g rows p)).

Definition subcluster_walltime (castType : string) (ctx : Context) (filter : list JobFilter)
    (key : JobRow → string) (g : string) (rows : list JobRow)
    (p : archive.ClusterConfig * archive.SubClusterConfig) : Z :=
  engine_round castType
    (sumZ (List.map duration (subcluster_group_jobs ctx filter key g rows p))).

(** The statistics map after the pairs [P] have been processed: an entry
    carries the number of jobs and the walltime of its group, summed over
    the pairs as Go integers, and no short jobs yet; a group without an
    entry has no job and no walltime on any of the pairs. *)
Definition counts_upto (castType : string) (ctx : Context) (filter : list JobFilter)
    (key : JobRow → string) (rows : list JobRow)
    (P : list (archive.ClusterConfig * archive.SubClusterConfig))
    (stats : gmap string model.JobsStatistics) : Prop :=
  ∀ g, match stats !! g with
       | Some st =>
           model.ID st = g
           ∧ model.TotalJobs st
             = go_int (sumZ (List.map (subcluster_job_count ctx filter key g rows) P))
           ∧ model.TotalWalltime st
             = go_int (sumZ (List.map (subcluster_walltime castType ctx filter key g rows) P))
           ∧ model.ShortJobs st = 0%Z
       | None =>
           sumZ (List.map (subcluster_job_count ctx filter key g rows) P) = 0%Z
           ∧ sumZ (List.map (subcluster_walltime castType ctx filter key g rows) P) = 0%Z
       end.

(** The statistics map before the short jobs are counted: every entry
    is filed under its id and reports no short jobs. *)
Definition short_jobs_unset (stats : gmap string model.JobsStatistics) : Prop :=
  ∀ g st, stats !! g = Some st → model.ID st = g ∧ model.ShortJobs st = 0%Z.

(** What the parts of [JobsStatistics] that follow the counting keep of
    an entry. *)
Definition same_counts (st st' : model.JobsStatistics) : Prop :=
  model.ID st' = model.ID st
  ∧ model.TotalJobs st' = model.TotalJobs st
  ∧ model.TotalWalltime st' = model.TotalWalltime st
  ∧ model.ShortJobs st' = model.ShortJobs st.

Definition keeps_counts (stats stats' : gmap string model.JobsStatistics) : Prop :=
  ∀ g, match stats' !! g with
       | Some st' => ∃ st, stats !! g = Some st ∧ same_counts st st'
       | None => stats !! g = None
       end.

(** The number of short jobs that [JobsStatistics] reports for the
    group [g]. *)
Definition reported_short_jobs (ctx : Context) (filter : list JobFilter)
    (groupBy : option model.Aggregate) (g : string) (rows : list JobRow) : Z :=
  match groupBy with
  | None =>
      if decide (g = "") then Z.of_nat (List.length (short_rows ctx filter rows)) else 0%Z
  | Some a =>
      match sql_bare_row (short_rows ctx filter rows) with
      | Some reported =>
          if decide (aggregate_key a reported = g)
          then Z.of_nat (List.length (short_rows ctx filter rows))
          else 0%Z
      | None => 0%Z
      end
  end.

(** The metrics whose summary [MarkArchived] stores. *)
Definition summary_metrics : list string :=
  ["flops_any"; "mem_used"; "mem_bw"; "load"; "net_bw"; "file_bw"].

End FurtherVocabulary.

(** * Properties *)

(** ** The embedding on small inputs *)

Example Atoi_integer : Atoi "-1234" = Some (-1234)%Z.
Proof. reflexivity. Qed.

Example Atoi_plus : Atoi "+7" = Some 7%Z.
Proof. reflexivity. Qed.

Example Atoi_word : Atoi "12a" = None.
Proof. reflexivity. Qed.

Example Atoi_sign_only : Atoi "-" = None.
Proof. reflexivity. Qed.

Example Atoi_empty : Atoi "" = None.
Proof. reflexivity. Qed.

Example Atoi_range : Atoi "9223372036854775808" = None.
Proof. reflexivity. Qed.

Example like_substring : wildcard_match "%sol%" "a Solver run" = true.
Proof. reflexivity. Qed.

Example like_one_character : wildcard_match "s_l" "sol" = true.
Proof. reflexivity. Qed.

Example like_miss : wildcard_match "%sol%" "a silver run" = false.
Proof. reflexivity. Qed.

Example metadata_round_trip :
  json_unmarshal_metadata
    (default "" (json_marshal_metadata {[ "jobName" := "solver"; "note" := "x" ]}))
  = Some (Some {[ "jobName" := "solver"; "note" := "x" ]}).
Proof. vm_compute. reflexivity. Qed.

Example round_half_away_up : round_half_away 1800 3600 = 1%Z.
Proof. reflexivity. Qed.

Example round_half_away_down : round_half_away 1799 3600 = 0%Z.
Proof. reflexivity. Qed.

Example engine_round_sqlite : engine_round "int" 164000 = 45%Z.
Proof. reflexivity. Qed.

Example engine_round_mysql : engine_round "unsigned" 164000 = 46%Z.
Proof. reflexivity. Qed.

(** An administrator finds a user by the name in the user table. *)
Example FindUserOrProjectOrJobname_by_name :
  fst (@FindUserOrProjectOrJobname wildcard_engine (request root) "ali"
         (repository "sqlite3" 5000 [bob_job "emmy"]
            [ {| username := "alice"; name := Some "Alice A." |} ]))
  = Ok ("alice", "", "").
Proof. vm_compute. reflexivity. Qed.

(** A search term that is an integer is left to the caller. *)
Example FindUserOrProjectOrJobname_integer :
  @FindUserOrProjectOrJobname wildcard_engine (request root) "1001"
    (repository "sqlite3" 5000 [bob_job "emmy"] [])
  = (Ok ("", "", ""), repository "sqlite3" 5000 [bob_job "emmy"] []).
Proof. reflexivity. Qed.

(** The cluster hint is the first byte of the cluster name. *)
Example FindUserOrProjectOrJobname_hint :
  fst (@FindUserOrProjectOrJobname wildcard_engine (request root) "solver"
         (repository "sqlite3" 5000 [bob_job "emmy"] []))
  = Ok ("", "", "e").
Proof. vm_compute. reflexivity. Qed.

Section LookupProperties.
Context {engine : SqlEngine} {runtime : GoRuntime} {archiver : ArchiveClient}
        {configuration : Config}.

(** ** Column lookups and the search resolver *)

Lemma bind_run {A B} (m : M A) (k : A → M B) r a r' :
  m r = (Ok a, r') → bind m k r = k a r'.
Proof. intros H. unfold bind. rewrite H. reflexivity. Qed.

Lemma bind_err {A B} (m : M A) (k : A → M B) r e r' :
  m r = (Err e, r') → bind m k r = (Err e, r').
Proof. intros H. unfold bind. rewrite H. reflexivity. Qed.

Lemma bind_panic {A B} (m : M A) (k : A → M B) r r' :
  m r = (Panic, r') → bind m k r = (Panic, r').
Proof. intros H. unfold bind. rewrite H. reflexivity. Qed.


Lemma select_column_value_executed r e table sel whr cmp :
  select_column_value (set_executed e r) table sel whr cmp
  = select_column_value r table sel whr cmp.
Proof. reflexivity. Qed.

Lemma select_column_value_no_panic r table sel whr cmp :
  select_column_value r table sel whr cmp ≠ Panic.
Proof.
  unfold select_column_value, query_first.
  repeat (case_decide || case_match); congruence.
Qed.

Lemma FindColumnValue_elevated_run u searchterm table sel whr isLike r :
  HasAnyRole u elevated = true →
  FindColumnValue (Some u) searchterm table sel whr isLike r
  = (match select_column_value r table sel whr
             (if isLike then λ x, sql_like x ("%" +:+ searchterm +:+ "%")
              else λ x, String.eqb x searchterm) with
     | Ok result => Ok result
     | Err ErrNoRows => Err ErrNotFound
     | Err e => Err e
     | Panic => Panic
     end,
     set_executed (executed r ++ [StmtSelect table]) r).
Proof.
  intros Hrole. unfold FindColumnValue. rewrite Hrole.
  unfold bind, exec, modify, get.
  rewrite select_column_value_executed.
  destruct isLike;
    (destruct (select_column_value _ _ _ _ _) as [x|e|]; [| destruct e |]; reflexivity).
Qed.

Lemma ignore_FindColumnValue_run u searchterm table sel whr isLike r :
  ignore_error (FindColumnValue (Some u) searchterm table sel whr isLike) r
  = (Ok (column_lookup u searchterm table sel whr isLike r),
     set_executed
       (executed r ++ if HasAnyRole u elevated then [StmtSelect table] else []) r).
Proof.
  unfold column_lookup, ignore_error.
  destruct (HasAnyRole u elevated) eqn:Hrole.
  - rewrite FindColumnValue_elevated_run by done.
    pose proof (select_column_value_no_panic r table sel whr
      (if isLike then λ x, sql_like x ("%" +:+ searchterm +:+ "%")
       else λ x, String.eqb x searchterm)) as Hnp.
    destruct (select_column_value _ _ _ _ _) as [x|e|]; [| destruct e |congruence];
      reflexivity.
  - unfold FindColumnValue. rewrite Hrole. simpl.
    rewrite app_nil_r. destruct r; reflexivity.
Qed.

Lemma column_lookup_executed u searchterm table sel whr isLike r e :
  column_lookup u searchterm table sel whr isLike (set_executed e r)
  = column_lookup u searchterm table sel whr isLike r.
Proof.
  unfold column_lookup, ignore_error.
  destruct (HasAnyRole u elevated) eqn:Hrole.
  - rewrite !FindColumnValue_elevated_run by done.
    rewrite select_column_value_executed.
    destruct (select_column_value _ _ _ _ _) as [x|e'|]; [| destruct e' |]; reflexivity.
  - unfold FindColumnValue. rewrite Hrole. reflexivity.
Qed.

Lemma column_lookup_non_elevated u searchterm table sel whr isLike r :
  HasAnyRole u elevated = false →
  column_lookup u searchterm table sel whr isLike r = "".
Proof.
  intros Hrole. unfold column_lookup, ignore_error, FindColumnValue.
  rewrite Hrole. reflexivity.
Qed.

Lemma FindColumnValue_refused u searchterm table sel whr isLike r :
  HasAnyRole u elevated = false →
  FindColumnValue (Some u) searchterm table sel whr isLike r = (Err ErrForbidden, r).
Proof. intros Hrole. unfold FindColumnValue. rewrite Hrole. reflexivity. Qed.

(** C4.  For a caller without an elevated role, [FindColumnValue] on any
    table and columns ends in the forbidden error, the result the caller
    is left with is the empty string, and the repository is exactly as
    before: no statement was executed and no table was read or written. *)
Theorem FindColumnValue_non_elevated_forbidden
    (u : User) (searchterm table selectColumn whereColumn : string)
    (isLike : bool) (r : JobRepository) :
  HasAnyRole u elevated = false →
  FindColumnValue (Some u) searchterm table selectColumn whereColumn isLike r
    = (Err ErrForbidden, r)
  ∧ ignore_error
      (FindColumnValue (Some u) searchterm table selectColumn whereColumn isLike) r
    = (Ok "", r).
Proof.
  intros Hrole. unfold ignore_error.
  rewrite (FindColumnValue_refused _ _ _ _ _ _ _ Hrole). split; reflexivity.
Qed.

Lemma set_executed_twice e e' r :
  set_executed e (set_executed e' r) = set_executed e r.
Proof. reflexivity. Qed.

Lemma metadata_result_executed searchterm r e :
  metadata_result searchterm (set_executed e r) = metadata_result searchterm r.
Proof. reflexivity. Qed.

(** When the three column lookups leave the empty string, the resolver
    returns what the metadata step gives. *)
Lemma FindUserOrProjectOrJobname_falls_through ctx u searchterm r :
  Atoi searchterm = None →
  GetUser ctx = Some u →
  column_lookup u searchterm "job" "user" "user" false r = "" →
  column_lookup u searchterm "user" "username" "name" true r = "" →
  column_lookup u searchterm "job" "project" "project" false r = "" →
  FindUserOrProjectOrJobname ctx searchterm r
  = (metadata_result searchterm r,
     set_executed
       (executed r
        ++ (if HasAnyRole u elevated
            then [StmtSelect "job"; StmtSelect "user"; StmtSelect "job"] else [])
        ++ [StmtSelect "job"]) r).
Proof.
  intros Hint Huser H1 H2 H3.
  unfold FindUserOrProjectOrJobname. rewrite Hint, Huser.
  rewrite (bind_run _ _ _ _ _ (ignore_FindColumnValue_run _ _ _ _ _ _ _)), H1.
  change (negb ("" =? "")) with false. cbv iota.
  rewrite (bind_run _ _ _ _ _ (ignore_FindColumnValue_run _ _ _ _ _ _ _)),
    column_lookup_executed, H2.
  change (negb ("" =? "")) with false. cbv iota.
  rewrite (bind_run _ _ _ _ _ (ignore_FindColumnValue_run _ _ _ _ _ _ _)),
    !column_lookup_executed, H3.
  change (negb ("" =? "")) with false. cbv iota.
  unfold bind, exec, modify, get. cbv beta iota.
  unfold metadata_result, metadata_match.
  destruct (HasAnyRole u elevated); simpl;
    rewrite <- ?app_assoc, ?app_nil_r; simpl;
    (destruct (query_first _ _ _ _) as [m|e|];
       [destruct (slice_0_1 m) | destruct e |]; reflexivity).
Qed.

(** C1, as the code has it.  For a caller without an elevated role and
    a search term that is not an integer, each of the three column
    lookups is refused with the authorization error and reads nothing; the
    final substring match against stored metadata carries no role check:
    it is the one statement executed, it ranges over the job rows of all
    users, and the resolver returns its result. *)
Theorem FindUserOrProjectOrJobname_non_elevated
    (ctx : Context) (u : User) (searchterm : string) (r : JobRepository) :
  Atoi searchterm = None →
  GetUser ctx = Some u →
  HasAnyRole u elevated = false →
  (∀ table selectColumn whereColumn isLike r',
     FindColumnValue (Some u) searchterm table selectColumn whereColumn isLike r'
     = (Err ErrForbidden, r'))
  ∧ FindUserOrProjectOrJobname ctx searchterm r
    = (metadata_result searchterm r,
       set_executed (executed r ++ [StmtSelect "job"]) r).
Proof.
  intros Hint Huser Hrole. split.
  - intros. by apply FindColumnValue_refused.
  - rewrite (FindUserOrProjectOrJobname_falls_through ctx u) by
      (try done; by apply column_lookup_non_elevated).
    rewrite Hrole. reflexivity.
Qed.

(** C10.  When the lookups by user name, name and project find nothing
    and a job row matches the search term in its metadata, the cluster
    hint returned is the first byte of that row's cluster name; for a row
    whose cluster name is empty the slice expression panics. *)
Theorem FindUserOrProjectOrJobname_clusterHint
    (ctx : Context) (u : User) (searchterm : string) (r : JobRepository) (row : JobRow) :
  Atoi searchterm = None →
  GetUser ctx = Some u →
  column_lookup u searchterm "job" "user" "user" false r = "" →
  column_lookup u searchterm "user" "username" "name" true r = "" →
  column_lookup u searchterm "job" "project" "project" false r = "" →
  List.find (λ row, match meta_data row with
                    | Some x => sql_like x ("%" +:+ searchterm +:+ "%")
                    | None => false
                    end) (jobTable r) = Some row →
  fst (FindUserOrProjectOrJobname ctx searchterm r)
  = match cluster row with
    | EmptyString => Panic
    | String c _ => Ok ("", "", String c EmptyString)
    end.
Proof.
  intros Hint Huser H1 H2 H3 Hfind.
  rewrite (FindUserOrProjectOrJobname_falls_through ctx u) by done.
  unfold metadata_result, metadata_match, query_first. simpl fst.
  rewrite Hfind. destruct (cluster row); reflexivity.
Qed.

End LookupProperties.

(** C4 at a plain user and the job table of another user. *)
Lemma FindColumnValue_non_elevated_forbidden_witness :
  HasAnyRole alice elevated = false
  ∧ @FindColumnValue wildcard_engine (Some alice) "bob" "job" "user" "user" false
      (repository "sqlite3" 5000 [bob_job "emmy"] [])
    = (Err ErrForbidden, repository "sqlite3" 5000 [bob_job "emmy"] [])
  ∧ ignore_error
      (@FindColumnValue wildcard_engine (Some alice) "bob" "job" "user" "user" false)
      (repository "sqlite3" 5000 [bob_job "emmy"] [])
    = (Ok "", repository "sqlite3" 5000 [bob_job "emmy"] []).
Proof.
  split; [reflexivity|].
  apply (@FindColumnValue_non_elevated_forbidden wildcard_engine alice).
  reflexivity.
Defined.

(** C1 does not hold as the specification states it: a plain user who
    owns no job row
    searches for a word; with a job of another user that carries the word
    in its metadata the resolver answers with a cluster hint, without that
    job it answers not-found.  The caller's own rows are the same in both
    repositories. *)
Lemma FindUserOrProjectOrJobname_reads_foreign_rows :
  HasAnyRole alice elevated = false
  ∧ own_rows alice (repository "sqlite3" 5000 [bob_job "emmy"] [])
    = own_rows alice (repository "sqlite3" 5000 [] [])
  ∧ fst (@FindUserOrProjectOrJobname wildcard_engine (request alice) "solver"
           (repository "sqlite3" 5000 [bob_job "emmy"] []))
    = Ok ("", "", "e")
  ∧ fst (@FindUserOrProjectOrJobname wildcard_engine (request alice) "solver"
           (repository "sqlite3" 5000 [] []))
    = Err ErrNotFound.
Proof. vm_compute. repeat split. Qed.

(** C1 as the code has it, at the same caller. *)
Lemma FindUserOrProjectOrJobname_non_elevated_witness :
  (∀ table selectColumn whereColumn isLike r',
     @FindColumnValue wildcard_engine (Some alice) "solver" table selectColumn
       whereColumn isLike r'
     = (Err ErrForbidden, r'))
  ∧ @FindUserOrProjectOrJobname wildcard_engine (request alice) "solver"
      (repository "sqlite3" 5000 [bob_job "emmy"] [])
    = (@metadata_result wildcard_engine "solver"
         (repository "sqlite3" 5000 [bob_job "emmy"] []),
       set_executed [StmtSelect "job"]
         (repository "sqlite3" 5000 [bob_job "emmy"] [])).
Proof.
  apply (@FindUserOrProjectOrJobname_non_elevated wildcard_engine (request alice) alice);
    reflexivity.
Defined.

(** C10 at an administrator and a matching job whose cluster name is
    empty: the resolver panics. *)
Lemma FindUserOrProjectOrJobname_clusterHint_witness :
  fst (@FindUserOrProjectOrJobname wildcard_engine (request root) "solver"
         (repository "sqlite3" 5000 [bob_job ""] []))
  = Panic.
Proof.
  apply (@FindUserOrProjectOrJobname_clusterHint wildcard_engine (request root) root
           "solver" (repository "sqlite3" 5000 [bob_job ""] []) (bob_job ""));
    reflexivity.
Defined.

(** ** Jobs that exceed their walltime *)

Section WalltimeProperties.

Lemma lookup_map {A B} (f : A → B) (l : list A) (i : nat) :
  List.map f l !! i = f <$> (l !! i).
Proof.
  revert i. induction l as [|a l IH]; intros [|i]; simpl; try reflexivity.
  apply IH.
Qed.

Lemma exceeds_walltime_iff now seconds row :
  exceeds_walltime now seconds row = true
  ↔ job_state row = JobStateRunning
    ∧ (0 < walltime row)%Z
    ∧ (walltime row + seconds < now - start_time row)%Z.
Proof.
  unfold exceeds_walltime.
  rewrite !andb_true_iff, bool_decide_eq_true, !Z.gtb_lt. tauto.
Qed.

Lemma update_where_run cond f r :
  update_where cond f r
  = (Ok tt,
     set_jobTable (List.map (λ row, if cond row then f row else row) (jobTable r))
       (set_executed (executed r ++ [StmtUpdate "job"]) r)).
Proof. reflexivity. Qed.

(** C5.  [StopJobsExceedingWalltimeBy] succeeds and rewrites the job
    table row by row: a row that is running, has a walltime limit above
    zero and whose elapsed time exceeds the limit plus the grace period
    becomes failed, with duration 0 and monitoring status
    archiving-failed, all its other columns as they were; every other row
    is left as it is.  With a grace period of 60 a running job with
    walltime 3000 started 3700 seconds ago is of the first kind, one
    started 3000 seconds ago of the second. *)
Theorem StopJobsExceedingWalltimeBy_exact (seconds : Z) (r : JobRepository) :
  fst (StopJobsExceedingWalltimeBy seconds r) = Ok tt
  ∧ List.length (jobTable (snd (StopJobsExceedingWalltimeBy seconds r)))
    = List.length (jobTable r)
  ∧ (∀ (i : nat) (row : JobRow),
       jobTable r !! i = Some row →
       (job_state row = JobStateRunning
        ∧ (0 < walltime row)%Z
        ∧ (walltime row + seconds < clock r - start_time row)%Z →
        jobTable (snd (StopJobsExceedingWalltimeBy seconds r)) !! i
        = Some (set_stopped JobStateFailed 0 MonitoringStatusArchivingFailed row))
       ∧ (¬ (job_state row = JobStateRunning
             ∧ (0 < walltime row)%Z
             ∧ (walltime row + seconds < clock r - start_time row)%Z) →
          jobTable (snd (StopJobsExceedingWalltimeBy seconds r)) !! i = Some row))
  ∧ (∀ (i : nat) (row : JobRow),
       seconds = 60%Z →
       jobTable r !! i = Some row →
       job_state row = JobStateRunning →
       walltime row = 3000%Z →
       (clock r - start_time row = 3700%Z →
        ∃ row', jobTable (snd (StopJobsExceedingWalltimeBy seconds r)) !! i = Some row'
                ∧ job_state row' = JobStateFailed
                ∧ duration row' = 0%Z
                ∧ monitoring_status row' = MonitoringStatusArchivingFailed)
       ∧ (clock r - start_time row = 3000%Z →
          jobTable (snd (StopJobsExceedingWalltimeBy seconds r)) !! i = Some row)).
Proof.
  unfold StopJobsExceedingWalltimeBy, bind, get. rewrite update_where_run.
  cbn [fst snd]. change (jobTable (set_jobTable ?t ?x)) with t.
  change (jobTable (set_executed ?e r)) with (jobTable r).
  assert (Hrow : ∀ (i : nat) (row : JobRow),
             jobTable r !! i = Some row →
             List.map (λ row0, if exceeds_walltime (clock r) seconds row0
                               then set_stopped JobStateFailed 0
                                      MonitoringStatusArchivingFailed row0
                               else row0) (jobTable r) !! i
             = Some (if exceeds_walltime (clock r) seconds row
                     then set_stopped JobStateFailed 0
                            MonitoringStatusArchivingFailed row
                     else row)).
  { intros i row Hi. rewrite lookup_map, Hi. reflexivity. }
  split; [reflexivity|]. split; [apply length_map|]. split.
  - intros i row Hi. rewrite (Hrow i row Hi). split.
    + intros Hc. apply exceeds_walltime_iff in Hc. rewrite Hc. reflexivity.
    + intros Hc. destruct (exceeds_walltime (clock r) seconds row) eqn:He;
        [|reflexivity].
      apply exceeds_walltime_iff in He. contradiction.
  - intros i row -> Hi Hrun Hwall. rewrite (Hrow i row Hi). split.
    + intros Hel.
      assert (He : exceeds_walltime (clock r) 60 row = true)
        by (apply exceeds_walltime_iff; split; [done | lia]).
      rewrite He. eexists. split; [reflexivity|]. repeat split.
    + intros Hel. destruct (exceeds_walltime (clock r) 60 row) eqn:He;
        [|reflexivity].
      apply exceeds_walltime_iff in He. destruct He as (_ & _ & He). lia.
Qed.

End WalltimeProperties.

(** C5 on a table of three running jobs, 3700, 3000 and 3700 seconds
    after their start, the third one without a walltime limit: the first
    is stopped, the second is not. *)
Lemma StopJobsExceedingWalltimeBy_exact_witness :
  jobTable (snd (StopJobsExceedingWalltimeBy 60
                   (repository "sqlite3" 10000 walltime_jobs []))) !! 0%nat
  = Some (job_row 1 "alice" "p" "emmy" "main" 6300 0 3000 2 JobStateFailed
            MonitoringStatusArchivingFailed None)
  ∧ jobTable (snd (StopJobsExceedingWalltimeBy 60
                     (repository "sqlite3" 10000 walltime_jobs []))) !! 1%nat
    = Some (job_row 2 "alice" "p" "emmy" "main" 7000 0 3000 2 JobStateRunning
              MonitoringStatusRunningOrArchiving None).
Proof.
  destruct (StopJobsExceedingWalltimeBy_exact 60
              (repository "sqlite3" 10000 walltime_jobs [])) as (_ & _ & H & _).
  split.
  - apply (H 0%nat (job_row 1 "alice" "p" "emmy" "main" 6300 0 3000 2 JobStateRunning
                      MonitoringStatusRunningOrArchiving None)); [reflexivity|].
    repeat split.
  - apply (H 1%nat (job_row 2 "alice" "p" "emmy" "main" 7000 0 3000 2 JobStateRunning
                      MonitoringStatusRunningOrArchiving None)); [reflexivity|].
    intros (_ & _ & Hlt). vm_compute in Hlt. discriminate.
Defined.

(** The whole table after the call. *)
Example StopJobsExceedingWalltimeBy_table :
  jobTable (snd (StopJobsExceedingWalltimeBy 60
                   (repository "sqlite3" 10000 walltime_jobs [])))
  = [ job_row 1 "alice" "p" "emmy" "main" 6300 0 3000 2 JobStateFailed
        MonitoringStatusArchivingFailed None;
      job_row 2 "alice" "p" "emmy" "main" 7000 0 3000 2 JobStateRunning
        MonitoringStatusRunningOrArchiving None;
      job_row 3 "alice" "p" "emmy" "main" 6300 0 0 2 JobStateRunning
        MonitoringStatusRunningOrArchiving None ].
Proof. reflexivity. Qed.

(** ** The duration of running jobs *)

Section DurationProperties.
Context {engine : SqlEngine} {runtime : GoRuntime}.

Lemma to_int32_fits x : (- 2 ^ 31 ≤ x < 2 ^ 31)%Z → to_int32 x = x.
Proof.
  intros Hx. unfold to_int32.
  destruct (- 2 ^ 31 <=? x)%Z eqn:H1; [|lia].
  destruct (x <? 2 ^ 31)%Z eqn:H2; [reflexivity|lia].
Qed.

(** The whole seconds of a number of nanoseconds. *)
Lemma quot_seconds (e n : Z) :
  (0 ≤ n < 10 ^ 9)%Z →
  (0 ≤ e → Z.quot (e * 10 ^ 9 + n) (10 ^ 9) = e)%Z
  ∧ (e < 0 → 0 < n → Z.quot (e * 10 ^ 9 + n) (10 ^ 9) = e + 1)%Z
  ∧ (n = 0 → Z.quot (e * 10 ^ 9 + n) (10 ^ 9) = e)%Z.
Proof.
  change (10 ^ 9)%Z with 1000000000%Z. intros Hn.
  pose proof (Z.quot_rem' (e * 1000000000 + n) 1000000000) as Hqr.
  repeat split.
  - intros He.
    pose proof (Z.rem_bound_pos (e * 1000000000 + n) 1000000000 ltac:(lia) ltac:(lia)).
    lia.
  - intros He Hpos.
    pose proof (Z.rem_bound_pos_neg (e * 1000000000 + n) 1000000000 ltac:(lia) ltac:(lia)).
    lia.
  - intros ->. rewrite Z.add_0_r. apply Z.quot_mul. lia.
Qed.

Lemma elapsed_seconds_bounds r row :
  clock_reading r →
  (clock r - start_time row ≤ elapsed_seconds r row ≤ clock r - start_time row + 1)%Z.
Proof.
  intros Hn. unfold elapsed_seconds.
  destruct (quot_seconds (clock r - start_time row) (clockNanos r) Hn) as (H1 & H2 & H3).
  destruct (Z.le_gt_cases 0 (clock r - start_time row)) as [He|He].
  - rewrite (H1 He). lia.
  - destruct (Z.eq_dec (clockNanos r) 0) as [H0|H0].
    + rewrite (H3 H0). lia.
    + rewrite H2 by (unfold clock_reading in Hn; lia). lia.
Qed.

Lemma scanned_elapsed r row :
  clock_reading r →
  (- 2 ^ 24 < clock r - start_time row < 2 ^ 24)%Z →
  to_int32 (duration_seconds (time_Since (start_time row) r)) = elapsed_seconds r row.
Proof.
  intros Hn He. pose proof (elapsed_seconds_bounds r row Hn) as Hb.
  assert (Hd : (- (2 ^ 24 * 10 ^ 9) < (clock r - start_time row) * 10 ^ 9 + clockNanos r
                < 2 ^ 24 * 10 ^ 9)%Z).
  { unfold clock_reading in Hn. change (10 ^ 9)%Z with 1000000000%Z in *.
    change (2 ^ 24)%Z with 16777216%Z in *. lia. }
  assert (Hs : time_Since (start_time row) r
               = ((clock r - start_time row) * 10 ^ 9 + clockNanos r)%Z).
  { unfold time_Since. change (10 ^ 9)%Z with 1000000000%Z in *.
    change (2 ^ 24)%Z with 16777216%Z in *.
    change (2 ^ 63)%Z with 9223372036854775808%Z. lia. }
  rewrite Hs, (duration_seconds_exact _ Hd). fold (elapsed_seconds r row).
  apply to_int32_fits. change (2 ^ 24)%Z with 16777216%Z in *.
  change (2 ^ 31)%Z with 2147483648%Z. lia.
Qed.

Lemma scanJob_run row res r :
  clock_reading r →
  unmarshal_resources (resources row) = Some res →
  elapsed_fits (clock r) row →
  ∃ job, scanJob row r = (Ok job, r)
         ∧ ID job = id row
         ∧ Duration job = scanned_duration r row.
Proof.
  intros Hn Hres Hfit. unfold scanJob. rewrite Hres.
  unfold bind, get, ret. eexists. split; [reflexivity|]. split; [reflexivity|].
  cbn [Duration]. unfold scanned_duration.
  destruct (duration row =? 0)%Z eqn:Hd;
    [apply Z.eqb_eq in Hd | apply Z.eqb_neq in Hd].
  - destruct (decide (job_state row = JobStateRunning)) as [Hs|Hs].
    + rewrite (bool_decide_eq_true_2 _ Hs). cbn [andb].
      rewrite scanned_elapsed by auto.
      rewrite decide_True by done. reflexivity.
    + rewrite (bool_decide_eq_false_2 _ Hs). cbn [andb].
      rewrite decide_False by tauto. reflexivity.
  - cbn [andb]. rewrite decide_False by tauto. reflexivity.
Qed.

Lemma scan_rows_run rows r :
  clock_reading r →
  Forall (λ row, is_Some (unmarshal_resources (resources row))
                 ∧ elapsed_fits (clock r) row) rows →
  ∃ jobs, scan_rows rows r = (Ok jobs, r)
          ∧ List.map ID jobs = List.map id rows
          ∧ List.map Duration jobs = List.map (scanned_duration r) rows.
Proof.
  intros Hn. induction 1 as [|row rows [[res Hres] Hfit] _ IH].
  - exists []. repeat split.
  - destruct (scanJob_run row res r Hn Hres Hfit) as (job & Hjob & Hid & Hd).
    destruct IH as (jobs & Hjobs & Hids & Hds).
    exists (job :: jobs). cbn [scan_rows].
    rewrite (bind_run _ _ _ _ _ Hjob), (bind_run _ _ _ _ _ Hjobs).
    split; [reflexivity|]. cbn [List.map]. rewrite Hid, Hd, Hids, Hds. done.
Qed.

Lemma scanned_duration_executed r e row :
  scanned_duration (set_executed e r) row = scanned_duration r row.
Proof. reflexivity. Qed.

(** C7.  Every read that scans a job row ([scanJob] itself, [Find],
    [FindById], [FindAll]) returns, for a row whose resources decode, a
    job whose duration is the time elapsed since the start when the row is
    running with stored duration 0, and the stored duration otherwise.
    The value is derived from the time of the read, in whole seconds with
    the fraction cut off: it is the difference of the two times in seconds
    when the start does not lie ahead, and one second more when it does
    and the time of the read is not a whole second.  The read executes one
    [SELECT] and leaves both tables as they were.  Stated for elapsed
    times of less than 2^24 seconds to either side, where the seconds of a
    duration are exact. *)
Theorem scanned_duration_is_derived (r : JobRepository) :
  clock_reading r →
  (∀ row res,
     unmarshal_resources (resources row) = Some res →
     elapsed_fits (clock r) row →
     ∃ job, scanJob row r = (Ok job, r)
            ∧ Duration job = scanned_duration r row)
  ∧ (∀ jobId cluster' startTime row res,
       List.find (find_where jobId cluster' startTime) (jobTable r) = Some row →
       unmarshal_resources (resources row) = Some res →
       elapsed_fits (clock r) row →
       ∃ job, Find (Some jobId) cluster' startTime r
              = (Ok job, set_executed (executed r ++ [StmtSelect "job"]) r)
              ∧ ID job = id row
              ∧ Duration job = scanned_duration r row)
  ∧ (∀ jobId row res,
       List.find (λ row, (id row =? jobId)%Z) (jobTable r) = Some row →
       unmarshal_resources (resources row) = Some res →
       elapsed_fits (clock r) row →
       ∃ job, FindById jobId r
              = (Ok job, set_executed (executed r ++ [StmtSelect "job"]) r)
              ∧ ID job = id row
              ∧ Duration job = scanned_duration r row)
  ∧ (∀ jobId cluster' startTime,
       Forall (λ row, is_Some (unmarshal_resources (resources row))
                      ∧ elapsed_fits (clock r) row)
         (List.filter (find_where jobId cluster' startTime) (jobTable r)) →
       ∃ jobs, FindAll (Some jobId) cluster' startTime r
               = (Ok jobs, set_executed (executed r ++ [StmtSelect "job"]) r)
               ∧ List.map ID jobs
                 = List.map id (List.filter (find_where jobId cluster' startTime) (jobTable r))
               ∧ List.map Duration jobs
                 = List.map (scanned_duration r)
                     (List.filter (find_where jobId cluster' startTime) (jobTable r)))
  ∧ jobTable (set_executed (executed r ++ [StmtSelect "job"]) r) = jobTable r
  ∧ (∀ row,
       (start_time row ≤ clock r →
        scanned_duration r row = derived_duration (clock r) row)%Z
       ∧ (clockNanos r = 0%Z → scanned_duration r row = derived_duration (clock r) row)
       ∧ (clock r < start_time row → 0 < clockNanos r →
          job_state row = JobStateRunning → duration row = 0 →
          scanned_duration r row = derived_duration (clock r) row + 1)%Z).
Proof.
  intros Hn. repeat split.
  - intros row res Hres Hfit.
    destruct (scanJob_run row res r Hn Hres Hfit) as (job & H & _ & Hd). eauto.
  - intros jobId cluster' startTime row res Hfind Hres Hfit.
    destruct (scanJob_run row res (set_executed (executed r ++ [StmtSelect "job"]) r)
                Hn Hres Hfit) as (job & H & Hid & Hd).
    exists job. split; [|done].
    unfold Find, bind, exec, modify, get. cbv beta iota.
    change (jobTable (set_executed ?e r)) with (jobTable r).
    rewrite Hfind. exact H.
  - intros jobId row res Hfind Hres Hfit.
    destruct (scanJob_run row res (set_executed (executed r ++ [StmtSelect "job"]) r)
                Hn Hres Hfit) as (job & H & Hid & Hd).
    exists job. split; [|done].
    unfold FindById, bind, exec, modify, get. cbv beta iota.
    change (jobTable (set_executed ?e r)) with (jobTable r).
    rewrite Hfind. exact H.
  - intros jobId cluster' startTime Hall.
    destruct (scan_rows_run _ (set_executed (executed r ++ [StmtSelect "job"]) r) Hn Hall)
      as (jobs & H & Hid & Hd).
    exists jobs. split; [|done].
    unfold FindAll, bind, exec, modify, get. cbv beta iota.
    change (jobTable (set_executed ?e r)) with (jobTable r).
    exact H.
  - intros Hle. unfold scanned_duration, derived_duration, elapsed_seconds.
    destruct (decide _); [|reflexivity].
    destruct (quot_seconds (clock r - start_time row) (clockNanos r) Hn) as (H & _ & _).
    apply H. lia.
  - intros H0. unfold scanned_duration, derived_duration, elapsed_seconds.
    destruct (decide _); [|reflexivity].
    destruct (quot_seconds (clock r - start_time row) (clockNanos r) Hn) as (_ & _ & H).
    by apply H.
  - intros Hlt Hpos Hs Hd. unfold scanned_duration, derived_duration, elapsed_seconds.
    rewrite !decide_True by done.
    destruct (quot_seconds (clock r - start_time row) (clockNanos r) Hn) as (_ & H & _).
    apply H; lia.
Qed.

End DurationProperties.

(** C7 on a running job with stored duration 0, read 3700 seconds after
    its start: [Find] reports a duration of 3700 and the stored row keeps
    its 0. *)
Lemma scanned_duration_is_derived_witness :
  ∃ job,
    @Find json_runtime (Some 1001%Z) (Some "emmy") None
      (repository "sqlite3" 10000 walltime_jobs [])
    = (Ok job,
       set_executed [StmtSelect "job"] (repository "sqlite3" 10000 walltime_jobs []))
    ∧ ID job = 1%Z
    ∧ Duration job = 3700%Z.
Proof.
  pose proof (@scanned_duration_is_derived json_runtime
                (repository "sqlite3" 10000 walltime_jobs [])) as H.
  destruct H as (_ & H & _); [by vm_compute|].
  apply (H 1001%Z (Some "emmy") None
           (job_row 1 "alice" "p" "emmy" "main" 6300 0 3000 2 JobStateRunning
              MonitoringStatusRunningOrArchiving None) []).
  - reflexivity.
  - reflexivity.
  - intros _ _. cbn. lia.
Defined.

(** A start that lies ahead of the time of the read: half a second after
    time 10000 a running job that starts at time 10500 has been running
    for -499.5 seconds, and the duration that is read is -499. *)
Example Find_start_ahead :
  match fst (@FindById json_runtime 1
               (set_clockNanos 500000000
                  (repository "sqlite3" 10000
                     [job_row 1 "alice" "p" "emmy" "main" 10500 0 3000 2 JobStateRunning
                        MonitoringStatusRunningOrArchiving None] []))) with
  | Ok job => Some (Duration job)
  | _ => None
  end = Some (-499)%Z.
Proof. vm_compute. reflexivity. Qed.

(** ** The archiving worker *)

Section ArchivingProperties.
Context {runtime : GoRuntime} {archiver : ArchiveClient}.

(** What the metadata operations leave alone: the tables other than the
    [meta_data] column are not their business, nor is the queue. *)
Lemma FetchMetadata_frame job r res r' :
  FetchMetadata job r = (res, r') →
  jobTable r' = jobTable r ∧ userTable r' = userTable r
  ∧ archiveChannel r' = archiveChannel r ∧ archivePending r' = archivePending r
  ∧ clock r' = clock r ∧ driver r' = driver r.
Proof.
  unfold FetchMetadata, bind, cache_Get, cache_Put, exec, modify, get, ret, fail, new_map.
  intros H. repeat case_match; simplify_eq; done.
Qed.

Lemma FetchMetadata_no_panic job r r' : FetchMetadata job r ≠ (Panic, r').
Proof.
  unfold FetchMetadata, bind, cache_Get, cache_Put, exec, modify, get, ret, fail, new_map.
  intros H. repeat case_match; simplify_eq.
Qed.

Lemma UpdateMonitoringStatus_run jobId status r :
  UpdateMonitoringStatus jobId status r
  = (Ok tt,
     set_jobTable
       (List.map (λ row, if (id row =? jobId)%Z
                         then set_monitoring_status status row else row) (jobTable r))
       (set_executed (executed r ++ [StmtUpdate "job"]) r)).
Proof. reflexivity. Qed.

Lemma archivingWorker_body_failure job r :
  pipeline_fails job r →
  ∃ r2, archivingWorker_body job r = (Ok ExitContinue, r2)
        ∧ jobTable r2 = mark_failed (ID job) (jobTable r)
        ∧ archiveChannel r2 = archiveChannel r
        ∧ archivePending r2 = archivePending r.
Proof.
  unfold pipeline_fails, archivingWorker_body.
  destruct (FetchMetadata job r) as [[[job' m]|e|] r1] eqn:Hfetch; [| |done].
  - intros Hfail. rewrite Hfail, UpdateMonitoringStatus_run.
    apply FetchMetadata_frame in Hfetch as (Hj & _ & Hc & Hp & _).
    eexists. split; [reflexivity|]. cbn. rewrite Hj. done.
  - intros _. rewrite UpdateMonitoringStatus_run.
    apply FetchMetadata_frame in Hfetch as (Hj & _ & Hc & Hp & _).
    eexists. split; [reflexivity|]. cbn. rewrite Hj. done.
Qed.



(** C2, as the code has it.  A job whose pipeline runs into an error
    leaves the worker on a [continue] that skips the call of [Done]: the
    job is gone from the queue and the pending-work counter is what it was
    before the job was taken. *)
Theorem archivingWorker_failure_skips_Done
    (r : JobRepository) (job : Job) (queue : list Job) :
  archiveChannel r = job :: queue →
  pipeline_fails job (set_archiveChannel queue r) →
  ∃ r2, archivingWorker_step r = Some (Ok ExitContinue, r2)
        ∧ archiveChannel r2 = queue
        ∧ archivePending r2 = archivePending r.
Proof.
  intros Hqueue Hfail.
  destruct (archivingWorker_body_failure job (set_archiveChannel queue r) Hfail)
    as (r2 & Hbody & _ & Hchan & Hpend).
  exists r2. unfold archivingWorker_step. rewrite Hqueue, Hbody. done.
Qed.

(** On the path without an error the counter is decremented. *)
Lemma archivingWorker_success_calls_Done
    (r : JobRepository) (job job' : Job) (queue : list Job) (m : option loc)
    (r1 : JobRepository) (statistics : gmap string JobStatistics) :
  archiveChannel r = job :: queue →
  FetchMetadata job (set_archiveChannel queue r) = (Ok (job', m), r1) →
  ArchiveJob r1 job' = Some statistics →
  ∃ r2, archivingWorker_step r = Some (Ok ExitFallThrough, r2)
        ∧ archiveChannel r2 = queue
        ∧ archivePending r2 = (archivePending r - 1)%Z.
Proof.
  intros Hqueue Hfetch Hok.
  unfold archivingWorker_step, archivingWorker_body. rewrite Hqueue, Hfetch, Hok.
  apply FetchMetadata_frame in Hfetch as (_ & _ & Hc & Hp & _).
  eexists. split; [reflexivity|]. cbn. rewrite Hc, Hp. done.
Qed.

End ArchivingProperties.


(** C2 at the failing input: the one job that was triggered is taken
    from the queue, its pipeline fails, and the counter stays at 1. *)
Lemma archivingWorker_failure_skips_Done_witness :
  ∃ r2, @archivingWorker_step json_runtime failing_archiver triggered
        = Some (Ok ExitContinue, r2)
        ∧ archiveChannel r2 = []
        ∧ archivePending r2 = archivePending triggered.
Proof.
  apply (@archivingWorker_failure_skips_Done json_runtime failing_archiver
           triggered (job_struct finished_row) []).
  - reflexivity.
  - vm_compute. reflexivity.
Defined.

(** The same run from [TriggerArchiving] on: once the worker has drained
    the queue the job is in a terminal status, the worker is idle, the
    counter is 1 and [WaitForArchiving] does not return. *)
Example WaitForArchiving_blocks_after_failure :
  ∃ r2,
    TriggerArchiving (job_struct finished_row)
      (repository "sqlite3" 10000 [finished_row] []) = Some triggered
    ∧ @archivingWorker json_runtime failing_archiver 8 triggered = (Ok tt, r2)
    ∧ archiveChannel r2 = []
    ∧ @archivingWorker_step json_runtime failing_archiver r2 = None
    ∧ List.map monitoring_status (jobTable r2) = [MonitoringStatusArchivingFailed]
    ∧ archivePending r2 = 1%Z
    ∧ WaitForArchiving r2 = None.
Proof.
  eexists. split; [reflexivity|]. split; [vm_compute; reflexivity|].
  repeat split.
Qed.

(** With a client that succeeds the counter returns to zero. *)
Example WaitForArchiving_returns_after_success :
  ∃ r2,
    @archivingWorker json_runtime working_archiver 8 triggered = (Ok tt, r2)
    ∧ archiveChannel r2 = []
    ∧ List.map monitoring_status (jobTable r2) = [MonitoringStatusArchivingSuccessful]
    ∧ List.map flops_any_avg (jobTable r2) = [Some 1%Z]
    ∧ archivePending r2 = 0%Z
    ∧ WaitForArchiving r2 = Some tt.
Proof.
  eexists. split; [vm_compute; reflexivity|].
  repeat split.
Qed.

(** ** Metadata *)

Section MetadataProperties.
Context {runtime : GoRuntime}.

Ltac proj_simpl :=
  cbn [jobTable userTable driver executed cache evictions mapHeap clock clockNanos
       archiveChannel archivePending set_jobTable set_executed set_cache
       set_evictions set_mapHeap set_clock set_clockNanos
       set_archiveChannel set_archivePending
       ID MetaData RawMetaData set_MetaData fst snd] in *.

(** Evictions keep the entry that has been inserted and only remove
    others. *)
Lemma lookup_evict_eq key victims (c : gmap string CacheEntry) :
  evict key victims c !! key = c !! key.
Proof.
  induction victims as [|k victims IH]; [reflexivity|].
  cbn [evict foldr]. fold (evict key victims c).
  destruct (decide (k = key)); [exact IH|]. by rewrite lookup_delete_ne.
Qed.

Lemma lookup_evict_cases key victims (c : gmap string CacheEntry) k :
  evict key victims c !! k = c !! k ∨ evict key victims c !! k = None.
Proof.
  induction victims as [|k' victims IH]; [by left|].
  cbn [evict foldr]. fold (evict key victims c).
  destruct (decide (k' = key)); [exact IH|].
  destruct (decide (k' = k)) as [->|Hne].
  - right. apply lookup_delete_eq.
  - by rewrite lookup_delete_ne.
Qed.

Lemma lookup_evict_Some key victims (c : gmap string CacheEntry) k e :
  evict key victims c !! k = Some e → c !! k = Some e.
Proof. destruct (lookup_evict_cases key victims c k) as [-> | ->]; done. Qed.

Lemma lookup_evict_insert key victims (c : gmap string CacheEntry) e :
  evict key victims (<[key := e]> c) !! key = Some e.
Proof. by rewrite lookup_evict_eq, lookup_insert_eq. Qed.

Lemma fresh_unused (h : gmap loc (gmap string string)) : h !! fresh (dom h) = None.
Proof. apply not_elem_of_dom, is_fresh. Qed.

Lemma fresh_other (h : gmap loc (gmap string string)) l m :
  h !! l = Some m → l ≠ fresh (dom h).
Proof. intros Hl ->. rewrite fresh_unused in Hl. discriminate. Qed.

Lemma find_update_where (P : JobRow → bool) (f : JobRow → JobRow) rows :
  (∀ row, P (f row) = P row) →
  List.find P (List.map (λ row, if P row then f row else row) rows)
  = f <$> List.find P rows.
Proof.
  intros HP. induction rows as [|row rows IH]; [reflexivity|].
  cbn [List.map List.find]. destruct (P row) eqn:Hrow.
  - rewrite HP, Hrow. reflexivity.
  - rewrite Hrow. exact IH.
Qed.

(** A hit in the cache: the cached map is returned and nothing else
    happens. *)
Lemma FetchMetadata_hit job r e :
  cache r !! metadata_cachekey job = Some e →
  (clock r < entryExpiration e)%Z →
  FetchMetadata job r
  = (Ok (set_MetaData (entryValue e) (RawMetaData job) job, entryValue e), r).
Proof.
  intros Hc Ht. unfold FetchMetadata, bind, cache_Get. rewrite Hc.
  destruct (clock r <? entryExpiration e)%Z eqn:Hlt; [reflexivity|lia].
Qed.

Lemma cache_Get_miss key r :
  cache_misses key r → cache_Get key r = (Ok None, after_miss key r).
Proof.
  unfold cache_misses, cache_Get, after_miss.
  destruct (cache r !! key) as [e|]; [|reflexivity].
  intros Ht. destruct (clock r <? entryExpiration e)%Z eqn:Hlt; [lia|reflexivity].
Qed.

(** A miss in the cache with a row that stores an object: the entries
    are decoded into a new map when the structure holds none, into the
    map it holds otherwise, and the map is cached. *)
Lemma FetchMetadata_reload job r row raw kv :
  cache_misses (metadata_cachekey job) r →
  job_row_of job r = Some row →
  meta_data row = Some raw →
  raw ≠ "" →
  unmarshal_metadata raw = Some (Some kv) →
  ∃ l r', FetchMetadata job r = (Ok (set_MetaData (Some l) (Some raw) job, Some l), r')
          ∧ deref r' l = match MetaData job with
                         | Some l0 => kv ∪ deref r l0
                         | None => kv
                         end
          ∧ jobTable r' = jobTable r.
Proof.
  intros Hmiss Hrow Hmd Hne Hdec.
  unfold FetchMetadata. rewrite (bind_run _ _ _ _ _ (cache_Get_miss _ _ Hmiss)).
  unfold bind at 1, exec, modify. unfold bind at 1, get.
  assert (Hfind : List.find (λ row0, (id row0 =? ID job)%Z)
            (jobTable (set_executed
               (executed (after_miss (metadata_cachekey job) r) ++ [StmtSelect "job"])
               (after_miss (metadata_cachekey job) r))) = Some row).
  { unfold after_miss. destruct (cache r !! metadata_cachekey job); exact Hrow. }
  rewrite Hfind, Hmd.
  assert (Hlen : (len (Some raw) =? 0)%Z = false).
  { apply Z.eqb_neq. destruct raw; [done|]. cbn. lia. }
  rewrite Hlen. change (default "" (Some raw)) with raw. rewrite Hdec.
  assert (Hheap : mapHeap (set_executed
               (executed (after_miss (metadata_cachekey job) r) ++ [StmtSelect "job"])
               (after_miss (metadata_cachekey job) r)) = mapHeap r).
  { unfold after_miss. destruct (cache r !! metadata_cachekey job); reflexivity. }
  assert (Hjobs : jobTable (after_miss (metadata_cachekey job) r) = jobTable r).
  { unfold after_miss. destruct (cache r !! metadata_cachekey job); reflexivity. }
  destruct (MetaData job) as [l0|] eqn:HM.
  - exists l0. eexists. split; [reflexivity|]. split.
    + unfold deref at 1. cbn. rewrite lookup_insert_eq. cbn.
      unfold deref. rewrite Hheap. reflexivity.
    + cbn. exact Hjobs.
  - eexists. eexists. split; [reflexivity|]. split.
    + unfold deref. cbn. rewrite lookup_insert_eq. reflexivity.
    + cbn. exact Hjobs.
Qed.

(** Loading the metadata of a structure that holds no map, with nothing
    in the cache. *)
Lemma FetchMetadata_fresh_load job r job0 m r0 :
  MetaData job = None →
  cache r !! metadata_cachekey job = None →
  FetchMetadata job r = (Ok (job0, m), r0) →
  ID job0 = ID job
  ∧ jobTable r0 = jobTable r
  ∧ clock r0 = clock r
  ∧ (∀ l' m', mapHeap r !! l' = Some m' → mapHeap r0 !! l' = Some m')
  ∧ match MetaData job0 with
    | Some l => deref r0 l
    | None => ∅
    end = prior_metadata job r.
Proof.
  intros HM Hc H. unfold FetchMetadata in H.
  assert (Hget : cache_Get (metadata_cachekey job) r = (Ok None, r))
    by (unfold cache_Get; rewrite Hc; reflexivity).
  rewrite (bind_run _ _ _ _ _ Hget) in H.
  unfold bind at 1, exec, modify in H. unfold bind at 1, get in H.
  proj_simpl. unfold prior_metadata, job_row_of. rewrite HM.
  destruct (List.find _ (jobTable r)) as [row|]; [|discriminate].
  destruct (len (meta_data row) =? 0)%Z.
  { unfold ret in H. injection H as <- <- <-. proj_simpl. rewrite HM. done. }
  destruct (unmarshal_metadata _) as [[kv|]|]; [| |discriminate].
  - rewrite HM in H.
    unfold bind, new_map, ret, cache_Put, modify in H. cbv beta iota in H.
    injection H as <- <- <-. proj_simpl.
    split; [done|]. split; [done|]. split; [done|]. split.
    + intros l' m' Hl'. rewrite lookup_insert_ne; [done|].
      apply not_eq_sym. by eapply fresh_other.
    + unfold deref. proj_simpl. by rewrite lookup_insert_eq.
  - unfold bind, ret, cache_Put, modify in H. cbv beta iota in H.
    injection H as <- <- <-. proj_simpl. done.
Qed.

(** What a successful update leaves behind. *)
Lemma UpdateMetadata_run job key val r job1 r1 :
  UpdateMetadata job key val r = (Ok job1, r1) →
  ∃ l raw,
    marshal_metadata (<[key := val]> (prior_metadata job r)) = Some raw
    ∧ ID job1 = ID job
    ∧ MetaData job1 = Some l
    ∧ mapHeap r !! l = None
    ∧ mapHeap r1 !! l = Some (<[key := val]> (prior_metadata job r))
    ∧ (∀ l' m, mapHeap r !! l' = Some m → mapHeap r1 !! l' = Some m)
    ∧ cache r1 !! metadata_cachekey job
      = Some {| entryValue := Some l; entrySize := len (Some raw);
                entryExpiration := (clock r + hours 24)%Z |}
    ∧ jobTable r1
      = List.map (λ row, if (id row =? ID job)%Z
                         then set_meta_data (Some raw) row else row) (jobTable r)
    ∧ clock r1 = clock r.
Proof.
  intros H. unfold UpdateMetadata in H.
  unfold bind at 1 in H. unfold cache_Del, modify in H.
  destruct (MetaData job) as [l0|] eqn:HM.
  - unfold bind, ret, get, new_map, update_where, exec, modify, cache_Put in H.
    rewrite HM in H.
    assert (Hprior : prior_metadata job r = deref r l0)
      by (unfold prior_metadata; rewrite HM; reflexivity).
    change (deref (set_cache ?c r) l0) with (deref r l0) in H.
    rewrite <- Hprior in H.
    destruct (marshal_metadata (<[key:=val]> (prior_metadata job r))) as [raw|] eqn:Hm;
      [|discriminate].
    cbv beta iota in H. injection H as <- <-.
    exists (fresh (dom (mapHeap r))), raw. proj_simpl.
    split; [reflexivity|]. split; [reflexivity|]. split; [reflexivity|].
    split; [apply fresh_unused|]. split; [apply lookup_insert_eq|].
    split; [|split; [apply lookup_evict_insert|done]].
    intros l' m Hl'. rewrite lookup_insert_ne; [done|].
    apply not_eq_sym. by eapply fresh_other.
  - assert (Hc : cache (set_cache (delete (metadata_cachekey job) (cache r)) r)
                 !! metadata_cachekey job = None) by apply lookup_delete_eq.
    unfold bind at 1 in H. unfold bind at 1 in H.
    destruct (FetchMetadata job _) as [[[job0 m]|e|] r0] eqn:Hfetch; [| discriminate..].
    apply (FetchMetadata_fresh_load _ _ _ _ _ HM Hc) in Hfetch
      as (Hid & Hjobs & Hclock & Hheap & Hprior).
    change (prior_metadata job (set_cache ?c r)) with (prior_metadata job r) in Hprior.
    proj_simpl. unfold ret at 1 in H. cbv beta iota in H.
    unfold bind, ret, get, new_map, update_where, exec, modify, cache_Put in H.
    assert (Hcpy : match MetaData job0 with
                   | Some l => <[key:=val]> (deref r0 l)
                   | None => {[key := val]}
                   end = <[key:=val]> (prior_metadata job r)).
    { rewrite <- Hprior. destruct (MetaData job0); [reflexivity|].
      symmetry. apply insert_empty. }
    rewrite !Hcpy in H.
    destruct (marshal_metadata (<[key:=val]> (prior_metadata job r))) as [raw|] eqn:Hm;
      [|discriminate].
    cbv beta iota in H. injection H as <- <-.
    exists (fresh (dom (mapHeap r0))), raw. proj_simpl.
    split; [reflexivity|]. split; [exact Hid|]. split; [reflexivity|].
    split.
    { destruct (mapHeap r !! fresh (dom (mapHeap r0))) as [m'|] eqn:Hl; [|done].
      apply Hheap in Hl. rewrite fresh_unused in Hl. discriminate. }
    split; [apply lookup_insert_eq|].
    split.
    { intros l' m' Hl'. apply Hheap in Hl'. rewrite lookup_insert_ne; [done|].
      apply not_eq_sym. by eapply fresh_other. }
    split; [rewrite lookup_evict_insert, Hclock; reflexivity|].
    rewrite Hjobs, Hid, Hclock. done.
Qed.



Lemma metadata_cachekey_ID jb job : ID jb = ID job → metadata_cachekey jb = metadata_cachekey job.
Proof. intros H. unfold metadata_cachekey. rewrite H. reflexivity. Qed.

Lemma union_same (m : gmap string string) : m ∪ m = m.
Proof.
  apply map_eq. intros i. rewrite lookup_union. destruct (m !! i); reflexivity.
Qed.

(** C6.  After [UpdateMetadata] has succeeded on a job that has a row,
    [FetchMetadata] at any later time, on the structure that was updated
    or on a new structure of the same job, with the cache entry still
    there, expired or deleted, returns a map that holds the new value
    under the key and, under every other key, exactly what the job had
    before.  The update writes into a new map: every map that existed
    before, in the cache or elsewhere, is as it was, and the cache entry
    of the job refers to the new map.  The statement assumes of the JSON
    codec that the written bytes are not empty and decode to the map that
    was encoded. *)
Theorem UpdateMetadata_then_FetchMetadata
    (job : Job) (key val : string) (r : JobRepository) (job1 : Job) (r1 : JobRepository) :
  UpdateMetadata job key val r = (Ok job1, r1) →
  is_Some (job_row_of job r) →
  (∀ raw, marshal_metadata (<[key := val]> (prior_metadata job r)) = Some raw →
          raw ≠ ""
          ∧ unmarshal_metadata raw = Some (Some (<[key := val]> (prior_metadata job r)))) →
  (∀ l m, mapHeap r !! l = Some m → mapHeap r1 !! l = Some m)
  ∧ (∃ l, MetaData job1 = Some l
          ∧ mapHeap r !! l = None
          ∧ entryValue <$> cache r1 !! metadata_cachekey job = Some (Some l))
  ∧ (∀ (now : Z) (deleted : bool) (jb : Job),
       ID jb = ID job →
       MetaData jb = None ∨ MetaData jb = MetaData job1 →
       ∃ l jb' r2,
         FetchMetadata jb (later now deleted job r1) = (Ok (jb', Some l), r2)
         ∧ deref r2 l = <[key := val]> (prior_metadata job r)
         ∧ deref r2 l !! key = Some val
         ∧ (∀ k, k ≠ key → deref r2 l !! k = prior_metadata job r !! k)).
Proof.
  intros Hupd [row Hrow] Hcodec.
  destruct (UpdateMetadata_run _ _ _ _ _ _ Hupd)
    as (l & raw & Hm & Hid & HM1 & Hnew & Hl & Hheap & Hcache & Hjobs & Hclock).
  destruct (Hcodec raw Hm) as [Hne Hdec].
  split; [exact Hheap|]. split.
  { exists l. rewrite Hcache. done. }
  intros now deleted jb Hjb HMjb.
  assert (Hresult : ∀ r2 l2,
            deref r2 l2 = <[key := val]> (prior_metadata job r) →
            deref r2 l2 = <[key := val]> (prior_metadata job r)
            ∧ deref r2 l2 !! key = Some val
            ∧ (∀ k, k ≠ key → deref r2 l2 !! k = prior_metadata job r !! k)).
  { intros r2 l2 ->. split; [done|]. split; [apply lookup_insert_eq|].
    intros k Hk. by apply lookup_insert_ne. }
  assert (Hreload : cache_misses (metadata_cachekey jb) (later now deleted job r1) →
            ∃ l2 jb' r2,
              FetchMetadata jb (later now deleted job r1) = (Ok (jb', Some l2), r2)
              ∧ deref r2 l2 = <[key := val]> (prior_metadata job r)).
  { intros Hmiss.
    assert (Hfind : job_row_of jb (later now deleted job r1)
                    = Some (set_meta_data (Some raw) row)).
    { unfold job_row_of, later, cache_Del, modify. rewrite Hjb.
      destruct deleted; proj_simpl; rewrite Hjobs;
        (rewrite find_update_where by reflexivity);
        unfold job_row_of in Hrow; rewrite Hrow; reflexivity. }
    destruct (FetchMetadata_reload jb _ _ raw _ Hmiss Hfind eq_refl Hne Hdec)
      as (l2 & r2 & Hfetch & Hderef & _).
    exists l2, (set_MetaData (Some l2) (Some raw) jb), r2. split; [exact Hfetch|].
    rewrite Hderef. destruct HMjb as [-> | ->]; [reflexivity|].
    rewrite HM1.
    assert (Hl1 : deref (later now deleted job r1) l = <[key := val]> (prior_metadata job r)).
    { unfold deref, later, cache_Del, modify. destruct deleted; proj_simpl; rewrite Hl; reflexivity. }
    rewrite Hl1. apply union_same. }
  destruct deleted.
  - destruct Hreload as (l2 & jb' & r2 & Hfetch & Hderef).
    { unfold cache_misses, later, cache_Del, modify. proj_simpl.
      rewrite (metadata_cachekey_ID _ _ Hjb), lookup_delete_eq. done. }
    exists l2, jb', r2. split; [exact Hfetch|]. by apply Hresult.
  - destruct (decide (now < clock r + hours 24)%Z) as [Hnow|Hnow].
    + exists l. eexists. eexists. split.
      * apply FetchMetadata_hit with
          (e := {| entryValue := Some l; entrySize := len (Some raw);
                   entryExpiration := (clock r + hours 24)%Z |}).
        -- unfold later, cache_Del, modify. proj_simpl. rewrite (metadata_cachekey_ID _ _ Hjb). exact Hcache.
        -- unfold later, cache_Del, modify. proj_simpl. exact Hnow.
      * apply Hresult. unfold deref, later, cache_Del, modify. proj_simpl. rewrite Hl. reflexivity.
    + destruct Hreload as (l2 & jb' & r2 & Hfetch & Hderef).
      { unfold cache_misses, later, cache_Del, modify. proj_simpl.
        rewrite (metadata_cachekey_ID _ _ Hjb), Hcache. proj_simpl. cbn. lia. }
      exists l2, jb', r2. split; [exact Hfetch|]. by apply Hresult.
Qed.

End MetadataProperties.

(** C6 on the finished job, whose row stores a job name: a note is
    added, the cache entry is deleted, and the metadata loaded into a new
    structure at a later time holds the note and the job name. *)
Lemma UpdateMetadata_then_FetchMetadata_witness :
  ∃ job1 r1,
    @UpdateMetadata json_runtime (job_struct finished_row) "note" "x"
      (repository "sqlite3" 10000 [finished_row] []) = (Ok job1, r1)
    ∧ ∃ l jb' r2,
        @FetchMetadata json_runtime (job_struct finished_row)
          (later 20000 true (job_struct finished_row) r1) = (Ok (jb', Some l), r2)
        ∧ deref r2 l !! "note" = Some "x"
        ∧ deref r2 l !! "jobName" = Some "solver".
Proof.
  eexists. eexists. split; [vm_compute; reflexivity|].
  edestruct (@UpdateMetadata_then_FetchMetadata json_runtime (job_struct finished_row)
               "note" "x" (repository "sqlite3" 10000 [finished_row] []))
    as (_ & _ & H).
  - vm_compute. reflexivity.
  - eexists. reflexivity.
  - intros raw Hraw. vm_compute in Hraw. injection Hraw as <-.
    split; [discriminate|]. vm_compute. reflexivity.
  - destruct (H 20000%Z true (job_struct finished_row) eq_refl (or_introl eq_refl))
      as (l & jb' & r2 & Hfetch & _ & Hkey & Hothers).
    exists l, jb', r2. split; [exact Hfetch|]. split; [exact Hkey|].
    rewrite Hothers by discriminate. vm_compute. reflexivity.
Defined.

(** ** Statistics *)

Section StatisticsBasics.

Lemma apply_filters_spec (filter : list JobFilter) (q : Query) (row : JobRow) :
  apply_filters filter q row = q row && forallb (λ f : JobFilter, f row) filter.
Proof.
  unfold apply_filters. revert q.
  induction filter as [|f filter IH]; intros q; cbn [fold_left forallb].
  - by rewrite andb_true_r.
  - rewrite IH. unfold BuildWhereClause. by rewrite andb_assoc.
Qed.

Lemma SecurityCheck_spec ctx q q' :
  SecurityCheck ctx q = Ok q' → ∀ row, q' row = q row && caller_sees ctx row.
Proof.
  unfold SecurityCheck, caller_sees. destruct (GetUser ctx) as [u|]; [|discriminate].
  destruct (HasAnyRole u elevated); intros [= <-] row; cbn [orb].
  - by rewrite andb_true_r.
  - reflexivity.
Qed.



Lemma subcluster_query_spec ctx filter c sc q :
  SecurityCheck ctx (λ row, String.eqb (cluster row) (archive.ClusterName c)
                            && String.eqb (subcluster row) (archive.SubClusterName sc)) = Ok q →
  ∀ row, apply_filters filter q row = subcluster_jobs ctx filter c sc row.
Proof.
  intros Hq row. rewrite apply_filters_spec, (SecurityCheck_spec _ _ _ Hq).
  unfold subcluster_jobs, selected. by rewrite !andb_assoc.
Qed.

Lemma filter_ext_eq {A} (f g : A → bool) (l : list A) :
  (∀ x, f x = g x) → List.filter f l = List.filter g l.
Proof.
  intros H. induction l as [|x l IH]; [reflexivity|].
  cbn. rewrite H, IH. reflexivity.
Qed.

Lemma filter_filter_and {A} (f g : A → bool) (l : list A) :
  List.filter g (List.filter f l) = List.filter (λ x, f x && g x) l.
Proof.
  induction l as [|x l IH]; [reflexivity|].
  cbn. destruct (f x); cbn; [destruct (g x)|]; rewrite ?IH; reflexivity.
Qed.

Lemma elem_of_filter_bool {A} (f : A → bool) (l : list A) (x : A) :
  x ∈ List.filter f l ↔ f x = true ∧ x ∈ l.
Proof.
  rewrite !list_elem_of_In, filter_In. tauto.
Qed.

Lemma elem_of_distinct (l : list string) (x : string) : x ∈ distinct l ↔ x ∈ l.
Proof.
  induction l as [|y l IH]; [reflexivity|].
  cbn [distinct]. rewrite !elem_of_cons, elem_of_filter_bool, IH.
  rewrite negb_true_iff, String.eqb_neq.
  destruct (decide (x = y)); tauto.
Qed.

Lemma NoDup_filter_bool {A} (f : A → bool) (l : list A) :
  NoDup l → NoDup (List.filter f l).
Proof.
  induction 1 as [|x l Hx Hl IH]; [constructor|].
  cbn. destruct (f x); [|exact IH].
  constructor; [|exact IH]. rewrite elem_of_filter_bool. tauto.
Qed.

Lemma NoDup_distinct (l : list string) : NoDup (distinct l).
Proof.
  induction l as [|y l IH]; [constructor|].
  cbn [distinct]. constructor.
  - rewrite elem_of_filter_bool, negb_true_iff, String.eqb_neq. tauto.
  - by apply NoDup_filter_bool.
Qed.

Lemma outcome_mapM_Ok {A B} (f : A → outcome B) (l : list A) (bs : list B) :
  outcome_mapM f l = Ok bs → Forall2 (λ a b, f a = Ok b) l bs.
Proof.
  revert bs. induction l as [|a l IH]; intros bs; cbn.
  - intros [= <-]. constructor.
  - destruct (f a) as [b| |] eqn:Ha; cbn; try discriminate.
    destruct (outcome_mapM f l) as [bs'| |]; cbn; try discriminate.
    intros [= <-]. constructor; [exact Ha|]. by apply IH.
Qed.

Lemma cast_round_Ok castType n v :
  cast_round castType n = Ok v → v = engine_round castType n.
Proof.
  unfold cast_round. repeat case_decide; [congruence| |discriminate].
  destruct (0 <=? engine_round castType n)%Z; [congruence|discriminate].
Qed.


Lemma engine_round_0 castType : engine_round castType 0 = 0%Z.
Proof. unfold engine_round. case_decide; reflexivity. Qed.

(** Go integers *)

Lemma go_int_fits (x : Z) : (- 2 ^ 63 ≤ x < 2 ^ 63)%Z → go_int x = x.
Proof.
  intros Hx. unfold go_int. rewrite Z.mod_small; lia.
Qed.

Lemma go_int_add_l (a b : Z) : go_int (go_int a + b) = go_int (a + b).
Proof.
  unfold go_int. f_equal.
  replace ((a + 2 ^ 63) mod 2 ^ 64 - 2 ^ 63 + b + 2 ^ 63)%Z
    with ((a + 2 ^ 63) mod 2 ^ 64 + b)%Z by lia.
  rewrite Zplus_mod_idemp_l. f_equal. lia.
Qed.

Lemma go_int_add_r (a b : Z) : go_int (a + go_int b) = go_int (a + b).
Proof. rewrite (Z.add_comm a), go_int_add_l. f_equal. lia. Qed.

Lemma go_int_idem (a : Z) : go_int (go_int a) = go_int a.
Proof.
  replace (go_int a) with (go_int a + 0)%Z at 1 by lia.
  rewrite go_int_add_l. f_equal. lia.
Qed.

Lemma go_int_0 : go_int 0 = 0%Z.
Proof. reflexivity. Qed.

End StatisticsBasics.

Section StatisticsTotals.
Context {engine : SqlEngine} {configuration : Config}.

Lemma sumZ_cons (x : Z) (l : list Z) : sumZ (x :: l) = (x + sumZ l)%Z.
Proof. reflexivity. Qed.

Lemma sumZ_app (l1 l2 : list Z) : sumZ (l1 ++ l2)%list = (sumZ l1 + sumZ l2)%Z.
Proof.
  unfold sumZ. induction l1 as [|x l1 IH]; cbn; [reflexivity|].
  rewrite IH. lia.
Qed.

Lemma filter_key_absent (key : JobRow → string) (g : string) (l : list JobRow) :
  g ∉ List.map key l → List.filter (λ row, String.eqb (key row) g) l = [].
Proof.
  induction l as [|row rest IH]; [reflexivity|]. intros Hg.
  cbn [List.filter]. destruct (String.eqb (key row) g) eqn:Heq.
  - apply String.eqb_eq in Heq. exfalso. apply Hg. cbn [List.map].
    rewrite Heq. apply list_elem_of_here.
  - apply IH. intros Hin. apply Hg. cbn [List.map]. by apply list_elem_of_further.
Qed.

Lemma column_key_aggregate a : column_key (groupBy2column a) = Some (aggregate_key a).
Proof. destruct a; reflexivity. Qed.

(** The statistics statement of a pair whose selected jobs are in the
    exact fragment. *)
Lemma stats_query_exact ctx filter c sc q groupBy castType rows :
  SecurityCheck ctx
    (λ row, String.eqb (cluster row) (archive.ClusterName c)
            && String.eqb (subcluster row) (archive.SubClusterName sc)) = Ok q →
  pair_exact castType ctx filter rows (c, sc) = true →
  stats_query groupBy castType (archive.SocketsPerNode sc) (archive.CoresPerSocket sc)
    (apply_filters filter q) rows
  = stats_rows groupBy castType (archive.SocketsPerNode sc) (archive.CoresPerSocket sc)
      (List.filter (apply_filters filter q) rows)
  ∧ valid_castType castType = true.
Proof.
  intros Hq Hex. unfold pair_exact in Hex. cbn [fst snd] in Hex.
  assert (Hrows : List.filter (apply_filters filter q) rows
                  = List.filter (subcluster_jobs ctx filter c sc) rows).
  { apply filter_ext_eq. intros row. apply (subcluster_query_spec ctx filter c sc q Hq). }
  unfold stats_query. rewrite Hrows, Hex. split; [reflexivity|].
  unfold stats_exact in Hex. by repeat (apply andb_true_iff in Hex as [Hex _]).
Qed.



(** The entries of the statistics map after the rows of one query have
    been merged, for rows with distinct group ids. *)
Lemma merge_stats_fold (V : string → Z) keys rows stats :
  NoDup keys →
  Forall2 (λ g row, ∃ n w, row = (g, n, w, V g)) keys rows →
  ∀ g, match fold_left merge_stats rows stats !! g with
       | Some st' =>
           match stats !! g with
           | Some st =>
               model.ID st' = model.ID st
               ∧ model.TotalCoreHours st'
                 = (if decide (g ∈ keys) then go_int (model.TotalCoreHours st + V g)
                    else model.TotalCoreHours st)
           | None =>
               g ∈ keys ∧ model.ID st' = g ∧ model.TotalCoreHours st' = go_int (V g)
           end
       | None => (g ∉ keys) ∧ stats !! g = None
       end.
Proof.
  intros Hnd Hrows. revert stats.
  induction Hrows as [|k row keys rows (n & w & ->) _ IH]; intros stats g.
  - cbn. destruct (stats !! g) as [st|] eqn:Hg.
    + rewrite decide_False by apply not_elem_of_nil. split; done.
    + split; [apply not_elem_of_nil|done].
  - apply NoDup_cons in Hnd as [Hk Hnd]. cbn [fold_left].
    specialize (IH Hnd (merge_stats stats (k, n, w, V k)) g).
    destruct (decide (g = k)) as [->|Hne].
    + (* the group of the first row *)
      destruct (fold_left merge_stats rows _ !! k) as [st'|].
      * unfold merge_stats in IH.
        destruct (stats !! k) as [st|] eqn:Hst; rewrite lookup_insert_eq in IH;
          cbn [model.ID model.TotalCoreHours] in IH;
          rewrite decide_False in IH by done; destruct IH as [-> ->].
        -- rewrite decide_True by apply list_elem_of_here.
           split; [done|apply go_int_add_r].
        -- split; [apply list_elem_of_here|]. split; done.
      * destruct IH as [_ IH]. unfold merge_stats in IH.
        destruct (stats !! k); rewrite lookup_insert_eq in IH; discriminate.
    + (* another group *)
      assert (Hother : merge_stats stats (k, n, w, V k) !! g = stats !! g).
      { unfold merge_stats. destruct (stats !! k); by rewrite lookup_insert_ne. }
      rewrite Hother in IH.
      assert (Hin : g ∈ k :: keys ↔ g ∈ keys) by (rewrite elem_of_cons; tauto).
      destruct (fold_left merge_stats rows _ !! g) as [st'|].
      * destruct (stats !! g) as [st|].
        -- destruct IH as [-> ->]. split; [done|].
           destruct (decide (g ∈ keys)); [rewrite decide_True by tauto
                                         |rewrite decide_False by tauto]; done.
        -- destruct IH as (? & ? & ?). tauto.
      * destruct IH as [? ?]. tauto.
Qed.

Lemma subcluster_stats_step ctx filter a castType c sc stats r stats' r' P :
  pair_exact castType ctx filter (jobTable r) (c, sc) = true →
  subcluster_stats ctx filter (Some a) castType c sc stats r = (Ok stats', r') →
  totals_upto castType ctx filter (aggregate_key a) (jobTable r) P stats →
  jobTable r' = jobTable r
  ∧ totals_upto castType ctx filter (aggregate_key a) (jobTable r)
      (P ++ [(c, sc)])%list stats'.
Proof.
  intros Hex Hrun Hinv. unfold subcluster_stats in Hrun.
  unfold bind at 1, lift in Hrun.
  destruct (SecurityCheck ctx _) as [q| |] eqn:Hq; try discriminate.
  unfold bind at 1, exec, modify in Hrun. unfold bind at 1, get in Hrun.
  unfold bind at 1, lift, ret in Hrun.
  change (jobTable (set_executed ?e r)) with (jobTable r) in Hrun.
  destruct (stats_query _ _ _ _ _ _) as [rows| |] eqn:Hrows; try discriminate.
  injection Hrun as <- <-. split; [reflexivity|].
  rewrite (proj1 (stats_query_exact ctx filter c sc q _ _ _ Hq Hex)) in Hrows.
  unfold stats_rows in Hrows.
  rewrite column_key_aggregate in Hrows.
  apply outcome_mapM_Ok in Hrows.
  set (matching := List.filter (apply_filters filter q) (jobTable r)) in *.
  set (V := λ g, subcluster_core_hours castType ctx filter (aggregate_key a) g
                   (jobTable r) (c, sc)).
  assert (Hgroup : ∀ g,
    List.filter (λ row, String.eqb (aggregate_key a row) g) matching
    = List.filter (λ row, subcluster_jobs ctx filter c sc row
                          && String.eqb (aggregate_key a row) g) (jobTable r)).
  { intros g. unfold matching. rewrite filter_filter_and.
    apply filter_ext_eq. intros row.
    by rewrite (subcluster_query_spec ctx filter c sc q Hq). }
  assert (Hfold := merge_stats_fold V
    (distinct (List.map (aggregate_key a) matching)) rows stats
    (NoDup_distinct _)).
  assert (Hshape : Forall2 (λ g row, ∃ n w, row = (g, n, w, V g))
            (distinct (List.map (aggregate_key a) matching)) rows).
  { eapply Forall2_impl; [exact Hrows|]. intros g row Hrow. cbn beta in Hrow.
    unfold aggregate_row in Hrow.
    destruct (cast_round castType (sumZ (List.map duration _))) as [w| |];
      try discriminate. cbn [outcome_bind] in Hrow.
    destruct (cast_round castType (sumZ (List.map (core_seconds _ _) _)))
      as [ch| |] eqn:Hch; try discriminate. cbn [outcome_bind] in Hrow.
    injection Hrow as <-. eexists _, _. f_equal.
    apply cast_round_Ok in Hch. rewrite Hch. unfold V, subcluster_core_hours.
    cbn [fst snd]. by rewrite Hgroup. }
  specialize (Hfold Hshape).
  assert (HV0 : ∀ g, g ∉ distinct (List.map (aggregate_key a) matching) → V g = 0%Z).
  { intros g Hg. unfold V, subcluster_core_hours. cbn [fst snd].
    rewrite <- Hgroup.
    replace (List.filter (λ row, String.eqb (aggregate_key a row) g) matching)
      with (@nil JobRow); [apply engine_round_0|].
    symmetry. rewrite elem_of_distinct in Hg. by apply filter_key_absent. }
  intros g. specialize (Hfold g). specialize (Hinv g).
  rewrite map_app, sumZ_app. cbn [List.map sumZ foldr]. fold (V g).
  destruct (fold_left merge_stats rows stats !! g) as [st'|].
  - destruct (stats !! g) as [st|].
    + destruct Hfold as [-> ->]. destruct Hinv as [-> ->]. split; [done|].
      destruct (decide (g ∈ _)) as [|Hg].
      * rewrite go_int_add_l. f_equal. lia.
      * rewrite (HV0 g Hg). f_equal. lia.
    + destruct Hfold as (_ & -> & ->). rewrite Hinv. split; [done|f_equal; lia].
  - destruct Hfold as [Hg Hnone]. rewrite Hnone in Hinv. rewrite Hinv, (HV0 g Hg). lia.
Qed.

Lemma subclusters_loop ctx filter a castType c scs stats r stats' r' P :
  forallb (pair_exact castType ctx filter (jobTable r)) (List.map (pair c) scs) = true →
  for_range scs (subcluster_stats ctx filter (Some a) castType c) stats r = (Ok stats', r') →
  totals_upto castType ctx filter (aggregate_key a) (jobTable r) P stats →
  jobTable r' = jobTable r
  ∧ totals_upto castType ctx filter (aggregate_key a) (jobTable r)
      (P ++ List.map (pair c) scs)%list stats'.
Proof.
  revert stats r P. induction scs as [|sc scs IH]; intros stats r P Hex Hrun Hinv.
  - injection Hrun as <- <-. cbn [List.map]. by rewrite app_nil_r.
  - cbn [for_range] in Hrun. unfold bind at 1 in Hrun.
    cbn [List.map forallb] in Hex. apply andb_true_iff in Hex as [Hex1 Hex].
    destruct (subcluster_stats _ _ _ _ _ _ _ _) as [[stats1| |] r1] eqn:Hstep;
      try discriminate.
    destruct (subcluster_stats_step _ _ _ _ _ _ _ _ _ _ P Hex1 Hstep Hinv)
      as [Hjobs Hinv1].
    rewrite <- Hjobs in Hinv1, Hex.
    destruct (IH _ _ _ Hex Hrun Hinv1) as [Hjobs' Hinv'].
    split; [congruence|]. rewrite Hjobs in Hinv'.
    cbn [List.map]. rewrite <- app_assoc in Hinv'. exact Hinv'.
Qed.

Lemma clusters_loop ctx filter a castType cs stats r stats' r' P :
  forallb (pair_exact castType ctx filter (jobTable r))
    (flat_map (λ c, List.map (pair c) (archive.SubClusters c)) cs) = true →
  for_range cs (λ cluster' stats,
      for_range (archive.SubClusters cluster')
        (subcluster_stats ctx filter (Some a) castType cluster') stats) stats r
  = (Ok stats', r') →
  totals_upto castType ctx filter (aggregate_key a) (jobTable r) P stats →
  jobTable r' = jobTable r
  ∧ totals_upto castType ctx filter (aggregate_key a) (jobTable r)
      (P ++ flat_map (λ c, List.map (pair c) (archive.SubClusters c)) cs)%list stats'.
Proof.
  revert stats r P. induction cs as [|c cs IH]; intros stats r P Hex Hrun Hinv.
  - injection Hrun as <- <-. cbn [flat_map]. by rewrite app_nil_r.
  - cbn [for_range] in Hrun. unfold bind at 1 in Hrun.
    cbn [flat_map] in Hex. rewrite forallb_app in Hex.
    apply andb_true_iff in Hex as [Hex1 Hex].
    destruct (for_range (archive.SubClusters c) _ _ _) as [[stats1| |] r1] eqn:Hinner;
      try discriminate.
    destruct (subclusters_loop _ _ _ _ _ _ _ _ _ _ P Hex1 Hinner Hinv) as [Hjobs Hinv1].
    rewrite <- Hjobs in Hinv1, Hex.
    destruct (IH _ _ _ Hex Hrun Hinv1) as [Hjobs' Hinv'].
    split; [congruence|]. rewrite Hjobs in Hinv'.
    cbn [flat_map]. rewrite <- app_assoc in Hinv'. exact Hinv'.
Qed.

(** The loop over the configured clusters and subclusters leaves, for
    every group, the sum of its rounded core hours over all pairs. *)
Lemma cluster_stats_totals ctx filter a castType r stats r' :
  statistics_exact castType ctx filter (jobTable r) = true →
  cluster_stats ctx filter (Some a) castType ∅ r = (Ok stats, r') →
  jobTable r' = jobTable r
  ∧ totals_upto castType ctx filter (aggregate_key a) (jobTable r) config_pairs stats.
Proof.
  intros Hex Hrun. unfold cluster_stats in Hrun.
  apply (clusters_loop _ _ _ _ _ _ _ _ _ [] Hex) in Hrun; [exact Hrun|].
  intros g. rewrite lookup_empty. reflexivity.
Qed.

Lemma keeps_totals_refl stats : keeps_totals stats stats.
Proof. intros g st Hst. exists st. by repeat split. Qed.

Lemma keeps_totals_trans s1 s2 s3 :
  keeps_totals s1 s2 → keeps_totals s2 s3 → keeps_totals s1 s3.
Proof.
  intros H12 H23 g st3 H3.
  destruct (H23 g st3 H3) as (st2 & H2 & Ha & Hb & Hc & Hd).
  destruct (H12 g st2 H2) as (st1 & H1 & Ha' & Hb' & Hc' & Hd').
  exists st1. split; [done|]. repeat split; congruence.
Qed.

Lemma keeps_totals_insert stats g st st' :
  stats !! g = Some st → same_totals st st' →
  keeps_totals stats (<[g := st']> stats).
Proof.
  intros Hg Hsame g' st'' Hg'.
  destruct (decide (g = g')) as [<-|Hne].
  - rewrite lookup_insert_eq in Hg'. injection Hg' as <-. eauto.
  - rewrite lookup_insert_ne in Hg' by done. exists st''. by repeat split.
Qed.

Lemma short_jobs_keeps ctx filter groupBy stats r stats' r' :
  short_jobs ctx filter groupBy stats r = (Ok stats', r') → keeps_totals stats stats'.
Proof.
  unfold short_jobs. intros Hrun. destruct groupBy as [a|].
  - unfold bind at 1, lift in Hrun.
    destruct (SecurityCheck ctx _) as [q| |]; try discriminate.
    unfold bind at 1, exec, modify in Hrun. unfold bind at 1, get in Hrun.
    rewrite column_key_aggregate in Hrun.
    destruct (sql_bare_row _) as [row|].
    + destruct (stats !! aggregate_key a row) as [st|] eqn:Hst; [|discriminate].
      injection Hrun as <- <-. eapply keeps_totals_insert; [exact Hst|].
      by repeat split.
    + injection Hrun as <- <-. apply keeps_totals_refl.
  - unfold bind at 1, lift in Hrun.
    destruct (SecurityCheck ctx _) as [q| |]; try discriminate.
    unfold bind at 1, exec, modify in Hrun. unfold bind at 1, get in Hrun.
    destruct (stats !! "") as [st|] eqn:Hst; [|discriminate].
    injection Hrun as <- <-. eapply keeps_totals_insert; [exact Hst|].
    by repeat split.
Qed.

Lemma user_names_loop_keeps ctx ids stats r stats' r' :
  for_range ids (λ id' stats,
      let user' := GetUser ctx in
      let* name' := ignore_error (FindColumnValue user' id' "user" "name" "username" false) in
      let n := if negb (String.eqb name' "") then name' else "-" in
      ret (alter (set_Name n) id' stats)) stats r = (Ok stats', r') →
  keeps_totals stats stats'.
Proof.
  revert stats r. induction ids as [|g ids IH]; intros stats r Hrun.
  - injection Hrun as <- <-. apply keeps_totals_refl.
  - cbn [for_range] in Hrun. unfold bind at 1 in Hrun. unfold bind at 1 in Hrun.
    destruct (ignore_error _ r) as [[name'| |] r1]; try discriminate.
    unfold ret at 1 in Hrun.
    eapply keeps_totals_trans; [|exact (IH _ _ Hrun)].
    intros g' st' Hg'. destruct (decide (g = g')) as [<-|Hne].
    + rewrite lookup_alter_eq in Hg'.
      destruct (stats !! g) as [st|]; [|discriminate].
      injection Hg' as <-. exists st. by repeat split.
    + rewrite lookup_alter_ne in Hg' by done. exists st'. by repeat split.
Qed.

Lemma user_names_keeps ctx groupBy stats r stats' r' :
  user_names ctx groupBy stats r = (Ok stats', r') → keeps_totals stats stats'.
Proof.
  unfold user_names. destruct groupBy as [a|].
  - case_decide.
    + apply user_names_loop_keeps.
    + intros [= <- <-]. apply keeps_totals_refl.
  - intros [= <- <-]. apply keeps_totals_refl.
Qed.

Lemma with_histograms_keeps ctx filter groupBy castType stat r stat' r' :
  with_histograms ctx filter groupBy castType stat r = (Ok stat', r') →
  same_totals stat stat'.
Proof.
  unfold with_histograms. destruct (histogramsNeeded ctx).
  - unfold bind at 1, get. unfold bind at 1.
    destruct (jobsStatisticsHistogram _ _ _ _ _ _) as [[d| |] r1]; try discriminate.
    unfold bind at 1.
    destruct (jobsStatisticsHistogram _ _ _ _ _ _) as [[n| |] r2]; try discriminate.
    intros [= <- <-]. by repeat split.
  - intros [= <- <-]. by repeat split.
Qed.

Lemma collect_stats_keeps ctx filter groupBy castType stats r res r' :
  collect_stats ctx filter groupBy castType stats r = (Ok res, r') →
  Forall2 same_totals stats res.
Proof.
  revert r res. induction stats as [|stat stats IH]; intros r res Hrun.
  - injection Hrun as <- <-. constructor.
  - cbn [collect_stats] in Hrun. unfold bind at 1 in Hrun.
    destruct (with_histograms _ _ _ _ _ _) as [[stat'| |] r1] eqn:Hh; try discriminate.
    unfold bind at 1 in Hrun.
    destruct (collect_stats _ _ _ _ _ _) as [[res'| |] r2] eqn:Hc; try discriminate.
    injection Hrun as <- <-. constructor.
    + by eapply with_histograms_keeps.
    + by eapply IH.
Qed.

Lemma cluster_hours_of_pairs castType ctx filter g rows
    (P : list (archive.ClusterConfig * archive.SubClusterConfig)) :
  sumZ (List.map (subcluster_core_hours castType ctx filter cluster g rows) P)
  = sumZ (List.map
            (λ p, engine_round castType
                    (sumZ (List.map (core_seconds (archive.SocketsPerNode p.2)
                                                  (archive.CoresPerSocket p.2))
                             (List.filter (subcluster_jobs ctx filter p.1 p.2) rows))))
            (List.filter (λ p, String.eqb (archive.ClusterName p.1) g) P)).
Proof.
  induction P as [|p P IH]; [reflexivity|].
  cbn [List.map List.filter]. unfold subcluster_core_hours at 1.
  destruct (String.eqb (archive.ClusterName p.1) g) eqn:Hname.
  - apply String.eqb_eq in Hname. cbn [List.map]. rewrite !sumZ_cons, IH.
    assert (Hf : List.filter (λ row, subcluster_jobs ctx filter p.1 p.2 row
                                     && String.eqb (cluster row) g) rows
                 = List.filter (subcluster_jobs ctx filter p.1 p.2) rows).
    { apply filter_ext_eq. intros row. unfold subcluster_jobs.
      destruct (String.eqb (cluster row) (archive.ClusterName p.1)) eqn:Hc;
        [|reflexivity].
      apply String.eqb_eq in Hc. rewrite Hc, Hname, String.eqb_refl.
      by rewrite andb_true_r. }
    rewrite Hf. reflexivity.
  - apply String.eqb_neq in Hname. rewrite sumZ_cons, IH.
    assert (Hf : List.filter (λ row, subcluster_jobs ctx filter p.1 p.2 row
                                     && String.eqb (cluster row) g) rows = []).
    { clear IH. induction rows as [|row rows IHrows]; [reflexivity|].
      cbn [List.filter]. rewrite IHrows. unfold subcluster_jobs.
      destruct (String.eqb (cluster row) (archive.ClusterName p.1)) eqn:Hc;
        [|reflexivity].
      apply String.eqb_eq in Hc.
      destruct (String.eqb (cluster row) g) eqn:Hg; [|by rewrite andb_false_r].
      apply String.eqb_eq in Hg. congruence. }
    rewrite Hf. cbn [List.map]. change (sumZ []) with 0%Z.
    rewrite engine_round_0. lia.
Qed.

(** Every entry of the result of [JobsStatistics] comes from an entry
    of the map the first loop has built, with the same group and
    totals. *)
Lemma JobsStatistics_entries ctx filter a r res r' :
  statistics_exact (castType_of (driver r)) ctx filter (jobTable r) = true →
  JobsStatistics ctx filter (Some a) r = (Ok res, r') →
  ∀ st, st ∈ res →
    model.TotalCoreHours st
    = go_int (sumZ (List.map (subcluster_core_hours (castType_of (driver r)) ctx filter
                                (aggregate_key a) (model.ID st) (jobTable r))
                      config_pairs)).
Proof.
  intros Hex Hrun st Hst. unfold JobsStatistics in Hrun.
  unfold bind at 1, get in Hrun. unfold bind at 1 in Hrun.
  destruct (cluster_stats _ _ _ _ _ _) as [[stats1| |] r1] eqn:H1; try discriminate.
  unfold bind at 1 in Hrun.
  destruct (short_jobs _ _ _ _ _) as [[stats2| |] r2] eqn:H2; try discriminate.
  unfold bind at 1 in Hrun.
  destruct (user_names _ _ _ _) as [[stats3| |] r3] eqn:H3; try discriminate.
  apply collect_stats_keeps in Hrun.
  apply (cluster_stats_totals _ _ _ _ _ _ _ Hex) in H1 as [_ Htotals].
  apply short_jobs_keeps in H2. apply user_names_keeps in H3.
  pose proof (keeps_totals_trans _ _ _ H2 H3) as Hkeep.
  destruct (proj1 (list_elem_of_lookup _ _) Hst) as [i Hi].
  destruct (Forall2_lookup_r _ _ _ _ _ Hrun Hi) as (st3 & Hi3 & Hid & _ & _ & Hch).
  assert (Hin3 : st3 ∈ (map_to_list stats3).*2) by (eapply list_elem_of_lookup_2; eauto).
  apply list_elem_of_fmap in Hin3 as ([g st3'] & -> & Hin3).
  apply elem_of_map_to_list in Hin3. cbn [snd] in *.
  destruct (Hkeep g st3' Hin3) as (st1 & Hst1 & Hid1 & _ & _ & Hch1).
  specialize (Htotals g). rewrite Hst1 in Htotals. destruct Htotals as [Hg Hsum].
  rewrite Hch, Hch1, Hsum, Hid, Hid1, Hg. reflexivity.
Qed.

(** C8.  For every group in the result of [JobsStatistics] grouped by
    cluster, the total core hours are the sum, over the configured
    subclusters of that cluster, of the core seconds (duration times
    nodes times sockets per node times cores per socket) of the selected
    jobs of the subcluster, divided by 3600 and rounded by the rule of the
    configured engine; the partial sums of the subclusters are merged
    under the name of the cluster.  Stated for tables on which the
    statements of the configured pairs are in the fragment that the engine
    computes exactly (the products and sums of the core seconds fit 64
    bits); the total is a Go integer, which is the sum itself when the sum
    fits 64 bits. *)
Theorem JobsStatistics_cluster_core_hours
    (ctx : Context) (filter : list JobFilter) (r : JobRepository)
    (res : list model.JobsStatistics) (r' : JobRepository) :
  statistics_exact (castType_of (driver r)) ctx filter (jobTable r) = true →
  JobsStatistics ctx filter (Some model.AggregateCluster) r = (Ok res, r') →
  ∀ st, st ∈ res →
    model.TotalCoreHours st
    = go_int (cluster_core_hours (castType_of (driver r)) ctx filter (model.ID st)
                (jobTable r))
    ∧ ((- 2 ^ 63 ≤ cluster_core_hours (castType_of (driver r)) ctx filter (model.ID st)
                     (jobTable r) < 2 ^ 63)%Z →
       model.TotalCoreHours st
       = cluster_core_hours (castType_of (driver r)) ctx filter (model.ID st) (jobTable r)).
Proof.
  intros Hex Hrun st Hst.
  rewrite (JobsStatistics_entries _ _ _ _ _ _ Hex Hrun st Hst).
  change aggregate_key with (λ a, aggregate_key a). cbn beta.
  rewrite (cluster_hours_of_pairs _ ctx filter (model.ID st) (jobTable r) config_pairs).
  split; [reflexivity|]. apply go_int_fits.
Qed.

End StatisticsTotals.

(** C8 on two clusters under SQLite: the result has the two clusters,
    and the core hours of emmy are 45 + 44, the truncated core hours of
    its two subclusters. *)
Lemma JobsStatistics_cluster_core_hours_witness :
  ∃ res r',
    @JobsStatistics wildcard_engine two_clusters (request root) []
      (Some model.AggregateCluster) (repository "sqlite3" 10000 finished_jobs [])
    = (Ok res, r')
    ∧ List.map (λ st, (model.ID st, model.TotalCoreHours st)) res
      = [("woody", 4%Z); ("emmy", 89%Z)]
    ∧ ∀ st, st ∈ res →
        model.TotalCoreHours st
        = go_int (@cluster_core_hours two_clusters "int" (request root) [] (model.ID st)
                    finished_jobs)
        ∧ ((- 2 ^ 63 ≤ @cluster_core_hours two_clusters "int" (request root) []
                         (model.ID st) finished_jobs < 2 ^ 63)%Z →
           model.TotalCoreHours st
           = @cluster_core_hours two_clusters "int" (request root) [] (model.ID st)
               finished_jobs).
Proof.
  eexists. eexists. split; [vm_compute; reflexivity|]. split; [reflexivity|].
  eapply (@JobsStatistics_cluster_core_hours wildcard_engine two_clusters (request root) []
            (repository "sqlite3" 10000 finished_jobs [])).
  - vm_compute. reflexivity.
  - vm_compute. reflexivity.
Defined.

(** Under MySQL the two partial sums are rounded to 46 and 44. *)
Example JobsStatistics_cluster_core_hours_mysql :
  List.map (λ st, (model.ID st, model.TotalCoreHours st))
    match fst (@JobsStatistics wildcard_engine two_clusters (request root) []
                 (Some model.AggregateCluster)
                 (repository "mysql" 10000 finished_jobs [])) with
    | Ok res => res
    | _ => []
    end
  = [("woody", 4%Z); ("emmy", 90%Z)].
Proof. vm_compute. reflexivity. Qed.

(** ** Missing entries of the statistics map *)

Section StatisticsPanics.
Context {engine : SqlEngine} {configuration : Config}.

Lemma outcome_mapM_no_panic {A B} (f : A → outcome B) (l : list A) :
  (∀ a, f a ≠ Panic) → outcome_mapM f l ≠ Panic.
Proof.
  intros Hf. induction l as [|a l IH]; cbn; [discriminate|].
  specialize (Hf a). destruct (f a); cbn; [|discriminate|done].
  destruct (outcome_mapM f l); cbn; [discriminate|discriminate|done].
Qed.







Lemma subcluster_stats_run ctx filter groupBy castType c sc stats r :
  subcluster_stats ctx filter groupBy castType c sc stats r
  = match SecurityCheck ctx
            (λ row, String.eqb (cluster row) (archive.ClusterName c)
                    && String.eqb (subcluster row) (archive.SubClusterName sc)) with
    | Ok q =>
        match stats_query groupBy castType (archive.SocketsPerNode sc)
                (archive.CoresPerSocket sc) (apply_filters filter q) (jobTable r) with
        | Ok rows =>
            (Ok (fold_left merge_stats rows stats),
             set_executed (executed r ++ [StmtSelect "job"]) r)
        | Err e => (Err e, set_executed (executed r ++ [StmtSelect "job"]) r)
        | Panic => (Panic, set_executed (executed r ++ [StmtSelect "job"]) r)
        end
    | Err e => (Err e, r)
    | Panic => (Panic, r)
    end.
Proof.
  unfold subcluster_stats. unfold bind at 1, lift.
  destruct (SecurityCheck ctx _) as [q| |]; reflexivity.
Qed.


Lemma subcluster_stats_jobTable ctx filter groupBy castType c sc stats r res r' :
  subcluster_stats ctx filter groupBy castType c sc stats r = (res, r') →
  jobTable r' = jobTable r.
Proof.
  rewrite subcluster_stats_run.
  destruct (SecurityCheck ctx _) as [q| |]; [|by intros [= _ <-]..].
  destruct (stats_query _ _ _ _ _ _); by intros [= _ <-].
Qed.



(** *** Loops *)


Lemma for_range_total {A S} (l : list A) (body : A → S → M S) s r :
  (∀ a s r, ∃ s' r', body a s r = (Ok s', r')) →
  ∃ s' r', for_range l body s r = (Ok s', r').
Proof.
  intros Hbody. revert s r. induction l as [|a l IH]; intros s r; [by eexists _, _|].
  cbn [for_range]. destruct (Hbody a s r) as (s1 & r1 & H1).
  rewrite (bind_run _ _ _ _ _ H1). apply IH.
Qed.

Lemma for_range_invariant {A S} (I : S → JobRepository → Prop)
    (l : list A) (body : A → S → M S) s r s' r' :
  (∀ a s r s' r', a ∈ l → body a s r = (Ok s', r') → I s r → I s' r') →
  for_range l body s r = (Ok s', r') → I s r → I s' r'.
Proof.
  revert s r. induction l as [|a l IH]; intros s r Hbody Hrun HI.
  - by injection Hrun as <- <-.
  - cbn [for_range] in Hrun. unfold bind in Hrun.
    destruct (body a s r) as [[s1| |] r1] eqn:H1; try discriminate.
    eapply IH; [|exact Hrun|].
    + intros a0 s0 r0 s0' r0' Ha0. apply Hbody. by apply list_elem_of_further.
    + eapply Hbody; [apply list_elem_of_here|exact H1|exact HI].
Qed.





(** *** The first loop *)





(** *** The later parts *)

Lemma short_jobs_ungrouped_run ctx filter stats r :
  short_jobs ctx filter None stats r
  = match SecurityCheck ctx (λ row, (duration row <? ShortRunningJobsDuration)%Z) with
    | Ok q =>
        (match stats !! "" with
         | Some st =>
             Ok (<["" := set_ShortJobs
                          (Z.of_nat (List.length
                             (List.filter (apply_filters filter q) (jobTable r)))) st]> stats)
         | None => Panic
         end,
         set_executed (executed r ++ [StmtSelect "job"]) r)
    | Err e => (Err e, r)
    | Panic => (Panic, r)
    end.
Proof.
  unfold short_jobs. unfold bind at 1, lift.
  destruct (SecurityCheck ctx _) as [q| |]; try reflexivity.
  unfold bind at 1, exec, modify. unfold bind at 1, get.
  change (jobTable (set_executed ?e r)) with (jobTable r).
  destruct (stats !! ""); reflexivity.
Qed.

Lemma short_jobs_grouped_run ctx filter a stats r :
  short_jobs ctx filter (Some a) stats r
  = match SecurityCheck ctx (λ row, (duration row <? ShortRunningJobsDuration)%Z) with
    | Ok q =>
        (match sql_bare_row (List.filter (apply_filters filter q) (jobTable r)) with
         | None => Ok stats
         | Some row =>
             match stats !! aggregate_key a row with
             | Some st =>
                 Ok (<[aggregate_key a row :=
                         set_ShortJobs
                           (Z.of_nat (List.length
                              (List.filter (apply_filters filter q) (jobTable r)))) st]> stats)
             | None => Panic
             end
         end,
         set_executed (executed r ++ [StmtSelect "job"]) r)
    | Err e => (Err e, r)
    | Panic => (Panic, r)
    end.
Proof.
  unfold short_jobs. unfold bind at 1, lift.
  destruct (SecurityCheck ctx _) as [q| |]; try reflexivity.
  unfold bind at 1, exec, modify. unfold bind at 1, get.
  change (jobTable (set_executed ?e r)) with (jobTable r).
  rewrite column_key_aggregate.
  destruct (sql_bare_row _) as [row|]; [|reflexivity].
  destruct (stats !! _); reflexivity.
Qed.

Lemma short_query_spec ctx filter q :
  SecurityCheck ctx (λ row, (duration row <? ShortRunningJobsDuration)%Z) = Ok q →
  ∀ rows, List.filter (apply_filters filter q) rows = short_rows ctx filter rows.
Proof.
  intros Hq rows. unfold short_rows. apply filter_ext_eq. intros row.
  rewrite apply_filters_spec, (SecurityCheck_spec _ _ _ Hq).
  unfold selected. by rewrite andb_assoc.
Qed.








(** *** Groups without an entry *)



Lemma elem_of_map_key (key : JobRow → string) (g : string) (rows : list JobRow) :
  g ∈ List.map key rows → ∃ row, row ∈ rows ∧ key row = g.
Proof.
  rewrite list_elem_of_In, in_map_iff. intros (row & Hk & Hin).
  exists row. by rewrite list_elem_of_In.
Qed.








End StatisticsPanics.



(** A configured pair whose statement delivers no row: the core seconds
    of the one job of emmy/main leave the 64-bit range, the reference
    engine fails the statement at its first step, the loop over its result
    scans nothing and the entry under the empty key is missing. *)
Example JobsStatistics_overflow_panics :
  fst (@JobsStatistics wildcard_engine
         {| Clusters :=
              [ {| archive.ClusterName := "emmy";
                   archive.SubClusters :=
                     [ {| archive.SubClusterName := "main";
                          archive.SocketsPerNode := 2;
                          archive.CoresPerSocket := 10 |} ] |} ];
            ShortRunningJobsDuration := 300 |}
         (request root) [] None
         (repository "sqlite3" 10000
            [ job_row 1 "alice" "p" "emmy" "main" 100 (2 ^ 61) 7200 4 JobStateCompleted
                MonitoringStatusArchivingSuccessful None ] []))
  = Panic.
Proof. vm_compute. reflexivity. Qed.

(** The duration is derived again on every read: the same row read 100
    seconds later reports 100 seconds more. *)
Example Find_derives_again :
  List.map (λ now,
      match fst (@Find json_runtime (Some 1001%Z) None None
                   (repository "sqlite3" now walltime_jobs [])) with
      | Ok job => Some (Duration job)
      | _ => None
      end) [10000%Z; 10100%Z]
  = [Some 3700%Z; Some 3800%Z].
Proof. vm_compute. reflexivity. Qed.

(** Copy on write: the metadata of the finished job is loaded, which
    puts the decoded map into the cache, and then updated through the same
    structure.  The map that was loaded still holds the job name only; the
    cache entry refers to another map, which also holds the note. *)
Example UpdateMetadata_copies :
  match @FetchMetadata json_runtime (job_struct finished_row)
          (repository "sqlite3" 10000 [finished_row] []) with
  | (Ok (job, Some loaded), r1) =>
      match @UpdateMetadata json_runtime job "note" "x" r1 with
      | (Ok job', r2) =>
          Some (map_to_list (deref r2 loaded),
                (λ l, map_to_list (deref r2 l)) <$> MetaData job',
                bool_decide (MetaData job' = Some loaded),
                bool_decide (entryValue <$> cache r2 !! metadata_cachekey job
                             = Some (MetaData job')))
      | _ => None
      end
  | _ => None
  end
  = Some ([("jobName", "solver")],
          Some [("note", "x"); ("jobName", "solver")],
          false, true).
Proof. vm_compute. reflexivity. Qed.

(** * Further properties *)

Section ReadingAndStopping.
Context {runtime : GoRuntime}.

Lemma find_head_filter {A} (P : A → bool) (l : list A) :
  List.find P l = head (List.filter P l).
Proof.
  induction l as [|x l IH]; [reflexivity|]. cbn. destruct (P x); [reflexivity|exact IH].
Qed.

Lemma scanJob_state row r res r' : scanJob row r = (res, r') → r' = r.
Proof.
  unfold scanJob. destruct (unmarshal_resources _); intros [= _ <-]; reflexivity.
Qed.

Lemma scan_rows_state rows r res r' : scan_rows rows r = (res, r') → r' = r.
Proof.
  revert res r'. induction rows as [|row rows IH]; intros res r' H.
  - injection H as _ <-. reflexivity.
  - cbn [scan_rows] in H. unfold bind at 1 in H.
    destruct (scanJob row r) as [[job|e|] r1] eqn:Hs;
      apply scanJob_state in Hs as ->; [|by injection H as _ <-..].
    unfold bind at 1 in H.
    destruct (scan_rows rows r) as [[jobs|e|] r2] eqn:Hr;
      specialize (IH _ _ eq_refl) as ->; by injection H as _ <-.
Qed.

(** X1.  [Find] returns the first job of the list that [FindAll] returns
    for the same arguments, and [sql.ErrNoRows] when that list is empty;
    both leave the repository in the same state. *)
Theorem Find_is_head_of_FindAll
    (jobId : Z) (cluster' : option string) (startTime : option Z)
    (r : JobRepository) (jobs : list Job) (r' : JobRepository) :
  FindAll (Some jobId) cluster' startTime r = (Ok jobs, r') →
  Find (Some jobId) cluster' startTime r
  = (match jobs with
     | [] => Err ErrNoRows
     | job :: _ => Ok job
     end, r').
Proof.
  unfold FindAll, Find. unfold bind at 1 3, exec, modify. unfold bind at 1 2, get.
  change (jobTable (set_executed ?e r)) with (jobTable r).
  rewrite find_head_filter.
  destruct (List.filter _ (jobTable r)) as [|row rows]; cbn [head scan_rows].
  - intros [= <- <-]. reflexivity.
  - unfold bind at 1.
    destruct (scanJob row _) as [[job|e|] r1] eqn:Hs; try discriminate.
    pose proof (scanJob_state _ _ _ _ Hs) as ->.
    unfold bind at 1.
    destruct (scan_rows rows _) as [[jobs'|e|] r2] eqn:Hr; try discriminate.
    pose proof (scan_rows_state _ _ _ _ Hr) as ->.
    intros [= <- <-]. reflexivity.
Qed.

(** X2.  After [Stop], [FindById] reports the job with the state, the
    duration and the monitoring status that were passed, whatever the row
    held before; the other columns of the row and the rows of the other
    jobs are as before. *)
Theorem Stop_then_FindById
    (jobId d : Z) (st : JobState) (ms : MonitoringStatus) (r : JobRepository)
    (row : JobRow) (res : list (option Resource)) :
  List.find (λ row, (id row =? jobId)%Z) (jobTable r) = Some row →
  unmarshal_resources (resources row) = Some res →
  (st = JobStateRunning → d ≠ 0%Z) →
  ∃ job r1 r2,
    Stop jobId d st ms r = (Ok tt, r1)
    ∧ FindById jobId r1 = (Ok job, r2)
    ∧ ID job = jobId
    ∧ State job = st
    ∧ Duration job = d
    ∧ JMonitoringStatus job = ms
    ∧ JobID job = job_id row
    ∧ JUser job = user row
    ∧ Cluster job = cluster row
    ∧ StartTime job = start_time row
    ∧ Walltime job = walltime row
    ∧ Resources job = res
    ∧ (∀ (i : nat) (row' : JobRow),
         jobTable r !! i = Some row' → id row' ≠ jobId →
         jobTable r1 !! i = Some row').
Proof.
  intros Hfind Hres Hd.
  unfold Stop. rewrite update_where_run.
  eexists _, _, _. split; [reflexivity|].
  unfold FindById. unfold bind at 1, exec, modify. unfold bind at 1, get.
  cbn [jobTable set_jobTable set_executed].
  rewrite (find_update_where (λ row, (id row =? jobId)%Z)) by reflexivity.
  rewrite Hfind. cbn [fmap option_fmap option_map].
  unfold scanJob. cbn [resources set_stopped row_with]. rewrite Hres.
  unfold bind at 1, get, ret. cbn [duration job_state set_stopped row_with].
  assert (Hflag : ((d =? 0)%Z && bool_decide (st = JobStateRunning))%bool = false).
  { destruct (Z.eqb_spec d 0) as [->|]; [|reflexivity].
    cbn. apply bool_decide_eq_false. intros ->. by apply Hd. }
  rewrite Hflag. split; [reflexivity|]. cbn.
  apply find_some in Hfind as [_ Hid]. apply Z.eqb_eq in Hid.
  repeat split; try done.
  intros i row' Hi Hne. rewrite lookup_map, Hi. cbn.
  destruct (Z.eqb_spec (id row') jobId); [contradiction|reflexivity].
Qed.

Lemma StopJobsExceedingWalltimeBy_run seconds r :
  StopJobsExceedingWalltimeBy seconds r
  = (Ok tt,
     set_jobTable
       (List.map (λ row, if exceeds_walltime (clock r) seconds row
                         then set_stopped JobStateFailed 0 MonitoringStatusArchivingFailed row
                         else row) (jobTable r))
       (set_executed (executed r ++ [StmtUpdate "job"]) r)).
Proof. reflexivity. Qed.

Lemma stopped_row_within now seconds row :
  exceeds_walltime now seconds
    (if exceeds_walltime now seconds row
     then set_stopped JobStateFailed 0 MonitoringStatusArchivingFailed row
     else row) = false.
Proof. destruct (exceeds_walltime now seconds row) eqn:Hex; [reflexivity|exact Hex]. Qed.

(** X3.  [StopJobsExceedingWalltimeBy] leaves no running job that
    exceeds its walltime by more than the given number of seconds, and a
    second call at the same time changes no row. *)
Theorem StopJobsExceedingWalltimeBy_idempotent (seconds : Z) (r : JobRepository) :
  Forall (λ row, exceeds_walltime (clock r) seconds row = false)
    (jobTable (snd (StopJobsExceedingWalltimeBy seconds r)))
  ∧ jobTable (snd (StopJobsExceedingWalltimeBy seconds
                     (snd (StopJobsExceedingWalltimeBy seconds r))))
    = jobTable (snd (StopJobsExceedingWalltimeBy seconds r)).
Proof.
  rewrite !StopJobsExceedingWalltimeBy_run. cbn [snd jobTable set_jobTable clock set_executed].
  split.
  - apply Forall_forall. intros row' Hin.
    apply list_elem_of_In, in_map_iff in Hin as (row & <- & _).
    apply stopped_row_within.
  - rewrite List.map_map. apply List.map_ext. intros row.
    by rewrite stopped_row_within.
Qed.

End ReadingAndStopping.

Lemma Find_is_head_of_FindAll_witness :
  ∃ job job' r',
    @FindAll json_runtime (Some 1001%Z) None None
      (repository "sqlite3" 10000 (walltime_jobs ++ walltime_jobs) []) = (Ok [job; job'], r')
    ∧ @Find json_runtime (Some 1001%Z) None None
        (repository "sqlite3" 10000 (walltime_jobs ++ walltime_jobs) []) = (Ok job, r').
Proof.
  eexists _, _, _. split; [vm_compute; reflexivity|].
  eapply (@Find_is_head_of_FindAll json_runtime 1001%Z None None
           (repository "sqlite3" 10000 (walltime_jobs ++ walltime_jobs) []) [_; _]).
  vm_compute. reflexivity.
Defined.

Lemma Stop_then_FindById_witness :
  ∃ job r1 r2,
    @Stop 2 3100 JobStateCompleted MonitoringStatusRunningOrArchiving
      (repository "sqlite3" 10100 walltime_jobs []) = (Ok tt, r1)
    ∧ @FindById json_runtime 2 r1 = (Ok job, r2)
    ∧ State job = JobStateCompleted
    ∧ Duration job = 3100%Z
    ∧ jobTable r1 !! 0%nat = walltime_jobs !! 0%nat.
Proof.
  destruct (@Stop_then_FindById json_runtime 2 3100 JobStateCompleted
              MonitoringStatusRunningOrArchiving
              (repository "sqlite3" 10100 walltime_jobs [])
              (job_row 2 "alice" "p" "emmy" "main" 7000 0 3000 2 JobStateRunning
                 MonitoringStatusRunningOrArchiving None) [])
    as (job & r1 & r2 & Hstop & Hfind & _ & Hst & Hd & _ & _ & _ & _ & _ & _ & _ & Hothers).
  - reflexivity.
  - reflexivity.
  - discriminate.
  - exists job, r1, r2. repeat split; try assumption.
    apply Hothers; [reflexivity|]. cbn. lia.
Defined.

Section ArchivingDrain.
Context {runtime : GoRuntime} {archiver : ArchiveClient}.

Lemma jobTable_after_miss key r : jobTable (after_miss key r) = jobTable r.
Proof. unfold after_miss. by destruct (cache r !! key). Qed.

Lemma cache_hit_or_miss key r :
  (∃ e, cache r !! key = Some e ∧ (clock r < entryExpiration e)%Z) ∨ cache_misses key r.
Proof.
  unfold cache_misses. destruct (cache r !! key) as [e|]; [|by right].
  destruct (Z.lt_ge_cases (clock r) (entryExpiration e)); [left; eauto|by right].
Qed.

Lemma FetchMetadata_loadable job r :
  metadata_loadable job (jobTable r) →
  ∃ job' m r1, FetchMetadata job r = (Ok (job', m), r1).
Proof.
  intros Hload.
  destruct (cache_hit_or_miss (metadata_cachekey job) r) as [(e & He & Hlt)|Hmiss].
  { rewrite (FetchMetadata_hit _ _ _ He Hlt). eauto. }
  unfold FetchMetadata. rewrite (bind_run _ _ _ _ _ (cache_Get_miss _ _ Hmiss)).
  unfold bind at 1, exec, modify. unfold bind at 1, get.
  change (jobTable (set_executed ?e ?r0)) with (jobTable r0).
  rewrite jobTable_after_miss.
  unfold metadata_loadable in Hload.
  destruct (List.find _ (jobTable r)) as [row|]; [|contradiction].
  destruct Hload as [Hlen|[decoded Hdec]].
  - rewrite Hlen. cbn. eauto.
  - destruct (len (meta_data row) =? 0)%Z; [cbn; eauto|].
    rewrite Hdec. destruct decoded as [kv|], (MetaData job) as [l|];
      cbn; eauto.
Qed.

Lemma find_Forall2 {A} (R : A → A → Prop) (P : A → bool) (l l' : list A) :
  Forall2 R l l' → (∀ a b, R a b → P b = P a) →
  match List.find P l, List.find P l' with
  | Some a, Some b => R a b
  | None, None => True
  | _, _ => False
  end.
Proof.
  intros HR HP. induction HR as [|a b l l' Hab _ IH]; [exact I|].
  cbn. rewrite (HP _ _ Hab). destruct (P a); [exact Hab|exact IH].
Qed.

Lemma metadata_loadable_archived ids job rows rows' :
  Forall2 (archived_row ids) rows rows' →
  metadata_loadable job rows → metadata_loadable job rows'.
Proof.
  intros HR. unfold metadata_loadable.
  assert (Hfind := find_Forall2 _ (λ row, (id row =? ID job)%Z) _ _ HR).
  destruct (List.find _ rows) as [row|], (List.find _ rows') as [row'|].
  - destruct Hfind as (_ & -> & _); [|done].
    intros a b (-> & _). reflexivity.
  - intros _. apply Hfind. intros a b (-> & _). reflexivity.
  - intros [].
  - intros [].
Qed.

Lemma archived_row_refl rows : Forall2 (archived_row []) rows rows.
Proof.
  induction rows as [|row rows IH]; constructor; [|exact IH].
  split; [reflexivity|]. split; [reflexivity|]. split; [|reflexivity].
  intros Hin. by apply elem_of_nil in Hin.
Qed.

Lemma archived_row_step jobId ids rows rows1 rows2 :
  Forall2 (archived_row [jobId]) rows rows1 →
  Forall2 (archived_row ids) rows1 rows2 →
  Forall2 (archived_row (jobId :: ids)) rows rows2.
Proof.
  intros H1. revert rows2. induction H1 as [|a b l l' Hab _ IH]; intros rows2 H2.
  - inversion H2. constructor.
  - inversion H2 as [|b' c l1 l2 Hbc Hrest]; subst. constructor; [|by apply IH].
    destruct Hab as (Hid & Hmd & Hin & Hout), Hbc as (Hid' & Hmd' & Hin' & Hout').
    split; [congruence|]. split; [congruence|]. split.
    + intros Hmem. destruct (decide (id a ∈ ids)) as [Hi|Hi].
      * apply Hin'. by rewrite Hid.
      * rewrite Hout' by (by rewrite Hid). apply Hin.
        apply elem_of_cons in Hmem as [->|?]; [apply list_elem_of_here|contradiction].
    + intros Hmem. rewrite not_elem_of_cons in Hmem. destruct Hmem as [Hne Hni].
      rewrite Hout' by (by rewrite Hid). apply Hout.
      rewrite list_elem_of_singleton. exact Hne.
Qed.

Lemma archivingWorker_body_success job r :
  (∀ r' job', is_Some (ArchiveJob r' job')) →
  metadata_loadable job (jobTable r) →
  ∃ r2, archivingWorker_body job r = (Ok ExitFallThrough, r2)
        ∧ archiveChannel r2 = archiveChannel r
        ∧ archivePending r2 = (archivePending r - 1)%Z
        ∧ Forall2 (archived_row [ID job]) (jobTable r) (jobTable r2).
Proof.
  intros Htotal Hload.
  destruct (FetchMetadata_loadable job r Hload) as (job' & m & r1 & Hfetch).
  unfold archivingWorker_body. rewrite Hfetch.
  destruct (Htotal r1 job') as [statistics ->].
  unfold MarkArchived. rewrite update_where_run.
  destruct (FetchMetadata_frame _ _ _ _ Hfetch) as (Hjobs & _ & Hch & Hp & _).
  eexists. split; [reflexivity|]. cbn [archiveChannel archivePending jobTable
    set_archivePending set_jobTable set_executed].
  split; [exact Hch|]. split; [by rewrite Hp|]. rewrite Hjobs.
  generalize (jobTable r). intros rows. induction rows as [|row rows IH]; cbn [List.map];
    constructor; [|exact IH].
  destruct (Z.eqb_spec (id row) (ID job)) as [Heq|Hne].
  - repeat split; cbn; try done. intros Hni. exfalso. apply Hni.
    rewrite Heq. apply list_elem_of_here.
  - repeat split; try done. intros Hin. apply list_elem_of_singleton in Hin. contradiction.
Qed.

(** The worker empties a queue of jobs whose pipelines succeed. *)
Lemma archivingWorker_drain_run (queue : list Job) (r : JobRepository) (fuel : nat) :
  (∀ r' job', is_Some (ArchiveJob r' job')) →
  archiveChannel r = queue →
  Forall (λ job, metadata_loadable job (jobTable r)) queue →
  (List.length queue ≤ fuel)%nat →
  ∃ r', archivingWorker fuel r = (Ok tt, r')
        ∧ archiveChannel r' = []
        ∧ archivePending r' = (archivePending r - Z.of_nat (List.length queue))%Z
        ∧ Forall2 (archived_row (List.map ID queue)) (jobTable r) (jobTable r').
Proof.
  intros Htotal. revert r fuel.
  induction queue as [|job queue IH]; intros r fuel Hch Hload Hfuel.
  - exists r. split.
    + destruct fuel; [reflexivity|]. cbn [archivingWorker].
      unfold archivingWorker_step. rewrite Hch. reflexivity.
    + split; [exact Hch|]. split; [cbn; lia|]. apply archived_row_refl.
  - destruct fuel as [|fuel]; [cbn in Hfuel; lia|].
    apply Forall_cons in Hload as [Hjob Hload].
    destruct (archivingWorker_body_success job (set_archiveChannel queue r) Htotal Hjob)
      as (r2 & Hbody & Hch2 & Hp2 & Hrows2).
    cbn [archiveChannel archivePending jobTable set_archiveChannel] in Hch2, Hp2, Hrows2.
    destruct (IH r2 fuel Hch2) as (r' & Hrun & Hch' & Hp' & Hrows').
    { eapply Forall_impl; [exact Hload|]. intros jb Hjb.
      eapply metadata_loadable_archived; eauto. }
    { cbn in Hfuel. lia. }
    exists r'. split.
    + cbn [archivingWorker]. unfold archivingWorker_step. rewrite Hch, Hbody. exact Hrun.
    + split; [exact Hch'|]. split.
      * rewrite Hp', Hp2. cbn [List.length]. lia.
      * cbn [List.map]. eapply archived_row_step; eauto.
Qed.

(** X4.  When the archive client succeeds and the metadata of every
    queued job can be loaded, the worker empties the queue without a
    panic, calls [Done] once per job, marks the rows of the queued jobs as
    archived and leaves the rows of all other jobs as they are. *)
Theorem archivingWorker_drains (r : JobRepository) (fuel : nat) :
  (∀ r' job', is_Some (ArchiveJob r' job')) →
  Forall (λ job, metadata_loadable job (jobTable r)) (archiveChannel r) →
  (List.length (archiveChannel r) ≤ fuel)%nat →
  ∃ r', archivingWorker fuel r = (Ok tt, r')
        ∧ archiveChannel r' = []
        ∧ archivePending r'
          = (archivePending r - Z.of_nat (List.length (archiveChannel r)))%Z
        ∧ (∀ (i : nat) (row : JobRow),
             jobTable r !! i = Some row →
             ∃ row', jobTable r' !! i = Some row'
                     ∧ (id row ∈ List.map ID (archiveChannel r) →
                        monitoring_status row' = MonitoringStatusArchivingSuccessful)
                     ∧ (id row ∉ List.map ID (archiveChannel r) → row' = row)).
Proof.
  intros Htotal Hload Hfuel.
  destruct (archivingWorker_drain_run _ r fuel Htotal eq_refl Hload Hfuel)
    as (r' & Hrun & Hch & Hp & Hrows).
  exists r'. repeat split; try assumption.
  intros i row Hi.
  destruct (Forall2_lookup_l _ _ _ _ _ Hrows Hi) as (row' & Hi' & _ & _ & Hin & Hout).
  eauto.
Qed.

Lemma trigger_all_run jobs r :
  (List.length (archiveChannel r) + List.length jobs ≤ 128)%nat →
  ∃ r1, trigger_all jobs r = Some r1
        ∧ archiveChannel r1 = (archiveChannel r ++ jobs)%list
        ∧ archivePending r1 = (archivePending r + Z.of_nat (List.length jobs))%Z
        ∧ jobTable r1 = jobTable r.
Proof.
  revert r. induction jobs as [|job jobs IH]; intros r Hlen.
  - exists r. rewrite app_nil_r. cbn. repeat split. lia.
  - cbn [trigger_all]. unfold TriggerArchiving.
    cbn [archiveChannel set_archivePending].
    cbn [List.length] in Hlen.
    destruct (Z.ltb_spec (Z.of_nat (List.length (archiveChannel r))) 128); [|lia].
    destruct (IH (set_archiveChannel (archiveChannel r ++ [job])
                    (set_archivePending (archivePending r + 1) r)))
      as (r1 & Hrun & Hch & Hp & Hjobs).
    { cbn [archiveChannel set_archiveChannel]. rewrite length_app. cbn. lia. }
    exists r1. split; [exact Hrun|]. cbn in Hch, Hp, Hjobs.
    split; [by rewrite Hch, <- app_assoc|]. split; [|exact Hjobs].
    rewrite Hp. cbn [List.length]. lia.
Qed.

(** X5.  Jobs handed to [TriggerArchiving] while the queue has room are
    queued in the order of the calls; once the worker has processed them,
    all with success, [WaitForArchiving] returns. *)
Theorem WaitForArchiving_returns_after_drain (jobs : list Job) (r : JobRepository) :
  (∀ r' job', is_Some (ArchiveJob r' job')) →
  archiveChannel r = [] →
  archivePending r = 0%Z →
  (List.length jobs ≤ 128)%nat →
  Forall (λ job, metadata_loadable job (jobTable r)) jobs →
  ∃ r1 r2,
    trigger_all jobs r = Some r1
    ∧ archiveChannel r1 = jobs
    ∧ (jobs ≠ [] → WaitForArchiving r1 = None)
    ∧ archivingWorker (List.length jobs) r1 = (Ok tt, r2)
    ∧ archiveChannel r2 = []
    ∧ WaitForArchiving r2 = Some tt.
Proof.
  intros Htotal Hch Hp Hlen Hload.
  destruct (trigger_all_run jobs r) as (r1 & Htrig & Hch1 & Hp1 & Hjobs1).
  { rewrite Hch. cbn. lia. }
  rewrite Hch in Hch1. cbn [app] in Hch1. rewrite Hp in Hp1.
  destruct (archivingWorker_drain_run jobs r1 (List.length jobs) Htotal Hch1)
    as (r2 & Hrun & Hch2 & Hp2 & _).
  { by rewrite Hjobs1. }
  { lia. }
  exists r1, r2. repeat split; try assumption.
  - intros Hne. unfold WaitForArchiving. rewrite Hp1.
    destruct jobs; [done|]. cbn [List.length].
    destruct (Z.eqb_spec (0 + Z.of_nat (S (List.length jobs))) 0); [lia|reflexivity].
  - unfold WaitForArchiving. rewrite Hp2, Hp1.
    replace (0 + _ - _)%Z with 0%Z by lia. reflexivity.
Qed.

End ArchivingDrain.

Lemma archivingWorker_drains_witness :
  ∃ r', @archivingWorker json_runtime working_archiver 1 triggered = (Ok tt, r')
        ∧ archiveChannel r' = []
        ∧ archivePending r' = 0%Z
        ∧ List.map monitoring_status (jobTable r') = [MonitoringStatusArchivingSuccessful].
Proof.
  destruct (@archivingWorker_drains json_runtime working_archiver triggered 1)
    as (r' & Hrun & Hch & Hp & Hrows).
  - intros r' job'. eexists. reflexivity.
  - constructor; [|constructor]. right. eexists. vm_compute. reflexivity.
  - cbn. lia.
  - exists r'. split; [exact Hrun|]. split; [exact Hch|]. split; [exact Hp|].
    vm_compute in Hrun. injection Hrun as <-. reflexivity.
Defined.

Lemma WaitForArchiving_returns_after_drain_witness :
  ∃ r1 r2,
    trigger_all [job_struct finished_row] (repository "sqlite3" 10000 [finished_row] [])
    = Some r1
    ∧ archiveChannel r1 = [job_struct finished_row]
    ∧ WaitForArchiving r1 = None
    ∧ @archivingWorker json_runtime working_archiver 1 r1 = (Ok tt, r2)
    ∧ archiveChannel r2 = []
    ∧ WaitForArchiving r2 = Some tt.
Proof.
  destruct (@WaitForArchiving_returns_after_drain json_runtime working_archiver
              [job_struct finished_row] (repository "sqlite3" 10000 [finished_row] []))
    as (r1 & r2 & Htrig & Hch & Hwait & Hrun & Hch2 & Hwait2).
  - intros r' job'. eexists. reflexivity.
  - reflexivity.
  - reflexivity.
  - cbn. lia.
  - constructor; [|constructor]. right. eexists. vm_compute. reflexivity.
  - exists r1, r2. repeat split; try assumption. apply Hwait. discriminate.
Defined.

Section MetadataSharing.
Context {runtime : GoRuntime}.

Ltac proj_simpl :=
  cbn [jobTable userTable driver executed cache evictions mapHeap clock clockNanos
       archiveChannel archivePending set_jobTable set_executed set_cache
       set_evictions set_mapHeap set_clock set_clockNanos
       set_archiveChannel set_archivePending
       ID MetaData RawMetaData set_MetaData fst snd] in *.


(** A load after a miss in the cache. *)
Lemma FetchMetadata_miss job r :
  cache_misses (metadata_cachekey job) r →
  fetched (FetchMetadata job r)
  = stored_metadata (deref r <$> MetaData job) (job_row_of job r).
Proof.
  intros Hmiss. unfold FetchMetadata.
  rewrite (bind_run _ _ _ _ _ (cache_Get_miss _ _ Hmiss)).
  unfold bind at 1, exec, modify. unfold bind at 1, get.
  assert (Hjobs : jobTable (after_miss (metadata_cachekey job) r) = jobTable r)
    by (unfold after_miss; destruct (cache r !! metadata_cachekey job); reflexivity).
  assert (Hheap : mapHeap (after_miss (metadata_cachekey job) r) = mapHeap r)
    by (unfold after_miss; destruct (cache r !! metadata_cachekey job); reflexivity).
  proj_simpl. rewrite Hjobs. unfold job_row_of, stored_metadata.
  destruct (List.find _ (jobTable r)) as [row|]; [|reflexivity].
  destruct (len (meta_data row) =? 0)%Z; [reflexivity|].
  destruct (unmarshal_metadata _) as [[kv|]|]; [| |reflexivity].
  - destruct (MetaData job) as [l0|].
    + unfold bind, ret, cache_Put, modify. cbv beta iota. proj_simpl.
      cbn. unfold deref. proj_simpl. rewrite lookup_insert_eq, Hheap. reflexivity.
    + unfold bind, ret, new_map, cache_Put, modify. cbv beta iota. proj_simpl.
      cbn. unfold deref. proj_simpl. rewrite lookup_insert_eq. reflexivity.
  - unfold bind, ret, cache_Put, modify. cbv beta iota. proj_simpl.
    reflexivity.
Qed.

(** A map that has been loaded after a miss is cached for 24 hours. *)
Lemma FetchMetadata_miss_cached job r job' l r1 :
  cache_misses (metadata_cachekey job) r →
  FetchMetadata job r = (Ok (job', Some l), r1) →
  ∃ size, cache r1 !! metadata_cachekey job
          = Some {| entryValue := Some l; entrySize := size;
                    entryExpiration := (clock r + hours 24)%Z |}.
Proof.
  intros Hmiss H. unfold FetchMetadata in H.
  rewrite (bind_run _ _ _ _ _ (cache_Get_miss _ _ Hmiss)) in H.
  unfold bind at 1, exec, modify in H. unfold bind at 1, get in H.
  assert (Hclock : clock (after_miss (metadata_cachekey job) r) = clock r)
    by (unfold after_miss; destruct (cache r !! metadata_cachekey job); reflexivity).
  proj_simpl.
  destruct (List.find _ _) as [row|]; [|discriminate].
  destruct (len (meta_data row) =? 0)%Z; [discriminate|].
  destruct (unmarshal_metadata _) as [[kv|]|]; [| |discriminate].
  - destruct (MetaData job) as [l0|];
      unfold bind, ret, new_map, cache_Put, modify in H; cbv beta iota in H;
      injection H as <- <- <-; proj_simpl; rewrite lookup_evict_insert, Hclock; eauto.
  - unfold bind, ret, cache_Put, modify in H; cbv beta iota in H. discriminate.
Qed.


(** The entries of other keys after an insert: as before, or evicted;
    as before when the insert does not evict the key. *)
Definition others_kept (k : string) (r r1 : JobRepository) : Prop :=
  (cache r1 !! k = cache r !! k ∨ cache r1 !! k = None)
  ∧ (k ∉ default [] (head (evictions r)) → cache r1 !! k = cache r !! k)
  ∧ (evictions r1 = evictions r ∧ cache r1 !! k = cache r !! k
     ∨ evictions r1 = tail (evictions r)).


Lemma others_kept_refl k r : others_kept k r r.
Proof. unfold others_kept. split; [by left|]. split; [done|by left]. Qed.





(** X7.  Once [FetchMetadata] has returned a map, a further call for the
    same job returns that very map without a statement being executed:
    at once in any case, and at any time within 24 hours when the first
    call has loaded the map from the database. *)
Theorem FetchMetadata_again_is_cached
    (job job' : Job) (l : loc) (r r1 : JobRepository) :
  FetchMetadata job r = (Ok (job', Some l), r1) →
  ∀ (jb : Job) (now : Z),
    ID jb = ID job →
    now = clock r
    ∨ (cache_misses (metadata_cachekey job) r ∧ (now < clock r + hours 24)%Z) →
    FetchMetadata jb (set_clock now r1)
    = (Ok (set_MetaData (Some l) (RawMetaData jb) jb, Some l), set_clock now r1).
Proof.
  intros Hfetch jb now Hjb Hnow.
  destruct (cache_hit_or_miss (metadata_cachekey job) r) as [(e & He & Hlt)|Hmiss].
  - rewrite (FetchMetadata_hit job r e He Hlt) in Hfetch.
    injection Hfetch as _ Hl <-.
    destruct Hnow as [->|[Hmiss _]].
    + rewrite (FetchMetadata_hit jb (set_clock (clock r) r) e).
      * by rewrite Hl.
      * proj_simpl. by rewrite (metadata_cachekey_ID _ _ Hjb).
      * exact Hlt.
    + unfold cache_misses in Hmiss. rewrite He in Hmiss. lia.
  - destruct (FetchMetadata_miss_cached _ _ _ _ _ Hmiss Hfetch) as [size Hentry].
    rewrite (FetchMetadata_hit jb (set_clock now r1)
               {| entryValue := Some l; entrySize := size;
                  entryExpiration := (clock r + hours 24)%Z |}).
    + reflexivity.
    + proj_simpl. rewrite (metadata_cachekey_ID _ _ Hjb). exact Hentry.
    + proj_simpl. cbn [entryExpiration]. unfold hours in *.
      destruct Hnow as [->|[_ ?]]; lia.
Qed.

End MetadataSharing.


(** An insert that evicts: the metadata of the second job is cached, its
    row is deleted, and the update of the finished job evicts the entry.
    Before the update the load of the second job yields the cached map,
    after it the row is read and is not found. *)
Example UpdateMetadata_evicts_other_job :
  match @FetchMetadata json_runtime (job_struct second_row)
          (set_evictions [[]; ["metadata:8"]]
             (repository "sqlite3" 10000 [finished_row; second_row] [])) with
  | (Ok _, r0) =>
      match DeleteJobById 8 r0 with
      | (Ok _, r1) =>
          match @UpdateMetadata json_runtime (job_struct finished_row) "note" "x" r1 with
          | (Ok _, r2) =>
              Some (fetched (@FetchMetadata json_runtime (job_struct second_row) r1),
                    fetched (@FetchMetadata json_runtime (job_struct second_row) r2))
          | _ => None
          end
      | _ => None
      end
  | _ => None
  end
  = Some (Ok (Some {[ "jobName" := "mesh" ]}), Err ErrNoRows).
Proof. vm_compute. reflexivity. Qed.

Lemma FetchMetadata_again_is_cached_witness :
  ∃ job' l r1,
    @FetchMetadata json_runtime (job_struct finished_row)
      (repository "sqlite3" 10000 [finished_row] []) = (Ok (job', Some l), r1)
    ∧ @FetchMetadata json_runtime (job_struct finished_row) (set_clock 90000 r1)
      = (Ok (set_MetaData (Some l) None (job_struct finished_row), Some l),
         set_clock 90000 r1)
    ∧ executed (set_clock 90000 r1) = [StmtSelect "job"].
Proof.
  eexists _, _, _. split; [vm_compute; reflexivity|]. split.
  - eapply (@FetchMetadata_again_is_cached json_runtime (job_struct finished_row) _ _
              (repository "sqlite3" 10000 [finished_row] [])).
    + vm_compute. reflexivity.
    + reflexivity.
    + right. split; [exact I|]. vm_compute. reflexivity.
  - reflexivity.
Defined.

Section MetadataFrame.
Context {runtime : GoRuntime}.

Ltac proj_simpl :=
  cbn [jobTable userTable driver executed cache evictions mapHeap clock clockNanos
       archiveChannel archivePending set_jobTable set_executed set_cache
       set_evictions set_mapHeap set_clock set_clockNanos
       set_archiveChannel set_archivePending
       ID MetaData RawMetaData set_MetaData fst snd] in *.

Lemma FetchMetadata_ID job r job' m r' :
  FetchMetadata job r = (Ok (job', m), r') → ID job' = ID job.
Proof.
  unfold FetchMetadata. unfold bind at 1.
  destruct (cache_Get _ r) as [[[m0|]|e|] r0]; try discriminate.
  - intros [= <- _ _]. reflexivity.
  - unfold bind at 1, exec, modify. unfold bind at 1, get.
    destruct (List.find _ _) as [row|]; [|discriminate].
    destruct (len (meta_data row) =? 0)%Z; [by intros [= <- _ _]|].
    destruct (unmarshal_metadata _) as [[kv|]|]; [| |discriminate].
    + destruct (MetaData job);
        unfold bind, new_map, cache_Put, modify, ret; by intros [= <- _ _].
    + unfold bind, cache_Put, modify, ret. by intros [= <- _ _].
Qed.

(** What an update does to the job table: nothing when it fails, and
    the new [meta_data] in the rows of the job when it succeeds. *)
Lemma UpdateMetadata_table job key val r res r1 :
  UpdateMetadata job key val r = (res, r1) →
  userTable r1 = userTable r
  ∧ archiveChannel r1 = archiveChannel r
  ∧ archivePending r1 = archivePending r
  ∧ clock r1 = clock r
  ∧ ((jobTable r1 = jobTable r ∧ ∃ e, res = Err e)
     ∨ (∃ job1 raw,
          res = Ok job1
          ∧ jobTable r1
            = List.map (λ row, if (id row =? ID job)%Z
                               then set_meta_data (Some raw) row else row) (jobTable r))).
Proof.
  intros H. unfold UpdateMetadata in H.
  unfold bind at 1 in H. unfold cache_Del, modify in H.
  change (userTable r) with (userTable (set_cache (delete (metadata_cachekey job) (cache r)) r)).
  change (archiveChannel r)
    with (archiveChannel (set_cache (delete (metadata_cachekey job) (cache r)) r)).
  change (archivePending r)
    with (archivePending (set_cache (delete (metadata_cachekey job) (cache r)) r)).
  change (clock r) with (clock (set_cache (delete (metadata_cachekey job) (cache r)) r)).
  change (jobTable r) with (jobTable (set_cache (delete (metadata_cachekey job) (cache r)) r)).
  revert H. generalize (set_cache (delete (metadata_cachekey job) (cache r)) r).
  clear r. intros r0 H. unfold bind at 1 in H.
  assert (Hstep : ∀ jb r2, ID jb = ID job →
    (let* r := get in
     let cpy := match MetaData jb with
                | Some l => <[key:=val]> (deref r l)
                | None => {[key := val]}
                end in
     let* l := new_map cpy in
     match marshal_metadata cpy with
     | Some raw =>
         let job0 := set_MetaData (Some l) (Some raw) jb in
         let* _ := update_where (λ row, (id row =? ID job0)%Z) (set_meta_data (Some raw)) in
         let* _ := cache_Put (metadata_cachekey job) (Some l) (len (Some raw)) (hours 24) in
         ret job0
     | None => fail ErrMarshal
     end) r2 = (res, r1) →
    userTable r1 = userTable r2
    ∧ archiveChannel r1 = archiveChannel r2
    ∧ archivePending r1 = archivePending r2
    ∧ clock r1 = clock r2
    ∧ ((jobTable r1 = jobTable r2 ∧ ∃ e, res = Err e)
       ∨ (∃ job1 raw,
            res = Ok job1
            ∧ jobTable r1
              = List.map (λ row, if (id row =? ID job)%Z
                                 then set_meta_data (Some raw) row else row) (jobTable r2)))).
  { intros jb r2 Hid.
    unfold bind, ret, get, new_map, update_where, exec, modify, cache_Put, fail.
    destruct (marshal_metadata _) as [raw|]; intros [= <- <-]; proj_simpl.
    - repeat split. right. exists (set_MetaData (Some (fresh (dom (mapHeap r2)))) (Some raw) jb), raw.
      rewrite Hid. done.
    - repeat split. left. eauto. }
  destruct (MetaData job) as [l0|].
  - unfold ret at 1 in H. by apply Hstep in H.
  - unfold bind at 1 in H.
    destruct (FetchMetadata job r0) as [[[job0 m]|e|] r2] eqn:Hfetch.
    + unfold ret at 1 in H. cbn [fst] in H.
      destruct (FetchMetadata_frame _ _ _ _ Hfetch) as (Hj & Hu & Hc & Hp & Hcl & _).
      apply Hstep in H; [|by eapply FetchMetadata_ID].
      rewrite Hj, Hu, Hc, Hp, Hcl in H. exact H.
    + injection H as <- <-.
      destruct (FetchMetadata_frame _ _ _ _ Hfetch) as (Hj & Hu & Hc & Hp & Hcl & _).
      repeat split; try done. left. eauto.
    + by apply FetchMetadata_no_panic in Hfetch.
Qed.

Lemma set_meta_data_same row : set_meta_data (meta_data row) row = row.
Proof. by destruct row. Qed.

(** X8.  [UpdateMetadata] writes nothing but the [meta_data] column of
    the rows of the job it is called for: every other column, the rows of
    all other jobs, the user table and the archiving queue are as before,
    and an update that fails leaves the whole table as it was. *)
Theorem UpdateMetadata_frame
    (job : Job) (key val : string) (r : JobRepository)
    (res : outcome Job) (r1 : JobRepository) :
  UpdateMetadata job key val r = (res, r1) →
  res ≠ Panic
  ∧ userTable r1 = userTable r
  ∧ archiveChannel r1 = archiveChannel r
  ∧ archivePending r1 = archivePending r
  ∧ List.length (jobTable r1) = List.length (jobTable r)
  ∧ (∀ (i : nat) (row : JobRow),
       jobTable r !! i = Some row →
       ∃ row', jobTable r1 !! i = Some row'
               ∧ row' = set_meta_data (meta_data row') row
               ∧ (id row ≠ ID job → row' = row)
               ∧ (∀ e, res = Err e → row' = row)).
Proof.
  intros H. destruct (UpdateMetadata_table _ _ _ _ _ _ H)
    as (Hu & Hc & Hp & _ & [[Hj [e ->]]|(job1 & raw & -> & Hj)]).
  - split; [discriminate|]. repeat split; try done; [by rewrite Hj|].
    intros i row Hi. exists row. rewrite Hj. split; [exact Hi|].
    split; [by rewrite set_meta_data_same|]. done.
  - split; [discriminate|]. repeat split; try done; [by rewrite Hj, length_map|].
    intros i row Hi. rewrite Hj, lookup_map, Hi. cbn [fmap option_fmap option_map].
    eexists. split; [reflexivity|].
    destruct (Z.eqb_spec (id row) (ID job)) as [Heq|Hne].
    + split; [reflexivity|]. split; [contradiction|discriminate].
    + split; [by rewrite set_meta_data_same|]. done.
Qed.

End MetadataFrame.

Lemma UpdateMetadata_frame_witness :
  ∃ res r1,
    @UpdateMetadata json_runtime (job_struct finished_row) "note" "x"
      (repository "sqlite3" 10000 [finished_row; second_row] []) = (res, r1)
    ∧ res ≠ Panic
    ∧ jobTable r1 !! 1%nat = Some second_row.
Proof.
  destruct (@UpdateMetadata json_runtime (job_struct finished_row) "note" "x"
              (repository "sqlite3" 10000 [finished_row; second_row] []))
    as [res r1] eqn:Hrun.
  exists res, r1. split; [reflexivity|].
  destruct (@UpdateMetadata_frame json_runtime (job_struct finished_row) "note" "x"
              (repository "sqlite3" 10000 [finished_row; second_row] []) res r1 Hrun)
    as (Hres & _ & _ & _ & _ & Hrows).
  split; [exact Hres|].
  destruct (Hrows 1%nat second_row eq_refl) as (row' & Hrow' & _ & Hother & _).
  rewrite Hrow'. f_equal. apply Hother. cbn. lia.
Defined.

(** ** Creating and deleting jobs *)

Section CreatingAndDeleting.
Context {runtime : GoRuntime} {codec : ResourceCodec} {inserts : InsertEngine}.

Lemma Start_run job r rawResources rawMetaData :
  marshal_resources (schema.Resources job) = Some rawResources →
  marshal_map (schema.MetaData job) = Some rawMetaData →
  Start job r
  = (Ok (sql_insert_id (jobTable r)),
     set_jobTable
       (jobTable r ++ [inserted_row (sql_insert_id (jobTable r)) job rawResources rawMetaData])
       (set_executed (executed r ++ [StmtInsert "job"]) r)).
Proof. intros Hr Hm. unfold Start. rewrite Hr, Hm. reflexivity. Qed.

Lemma find_app_absent {A} (P : A → bool) (l : list A) (x : A) :
  Forall (λ a, P a = false) l → P x = true → List.find P (l ++ [x]) = Some x.
Proof.
  intros Hall Hx. induction Hall as [|a l Ha _ IH]; cbn.
  - by rewrite Hx.
  - by rewrite Ha.
Qed.

(** X9.  A job that [Start] has inserted is found by [FindById] under
    the id that [Start] returned, with the fields it was started with, the
    resources decoded again and the duration derived from the clock while
    it is running with a stored duration of 0.  The id is new, and the
    rows that existed are untouched.  The statement assumes that the
    encoded resources decode to the resources that were encoded. *)
Theorem Start_then_FindById
    (job : schema.JobMeta) (r : JobRepository) (id' : Z) (r1 : JobRepository) :
  Start job r = (Ok id', r1) →
  (∀ raw, marshal_resources (schema.Resources job) = Some raw →
          unmarshal_resources raw = Some (schema.Resources job)) →
  clock_reading r →
  (schema.State job = JobStateRunning → schema.Duration job = 0%Z →
   (- 2 ^ 24 < clock r - schema.StartTime job < 2 ^ 24)%Z) →
  (id' ∉ List.map id (jobTable r))
  ∧ (∀ (i : nat) (row : JobRow), jobTable r !! i = Some row → jobTable r1 !! i = Some row)
  ∧ List.length (jobTable r1) = S (List.length (jobTable r))
  ∧ ∃ found r2,
      FindById id' r1 = (Ok found, r2)
      ∧ ID found = id'
      ∧ JobID found = schema.JobID job
      ∧ JUser found = schema.User job
      ∧ Project found = schema.Project job
      ∧ Cluster found = schema.Cluster job
      ∧ SubCluster found = schema.SubCluster job
      ∧ Partition found = schema.Partition job
      ∧ NumNodes found = schema.NumNodes job
      ∧ StartTime found = schema.StartTime job
      ∧ Walltime found = schema.Walltime job
      ∧ State found = schema.State job
      ∧ JMonitoringStatus found = schema.MonitoringStatus job
      ∧ Resources found = schema.Resources job
      ∧ Duration found
        = (if decide (schema.State job = JobStateRunning ∧ schema.Duration job = 0%Z)
           then Z.quot ((clock r - schema.StartTime job) * 10 ^ 9 + clockNanos r) (10 ^ 9)
           else schema.Duration job)%Z
      ∧ (schema.State job = JobStateRunning → schema.Duration job = 0%Z →
         (schema.StartTime job ≤ clock r)%Z →
         Duration found = (clock r - schema.StartTime job)%Z).
Proof.
  intros Hstart Hcodec Hn Hfits. unfold Start in Hstart.
  destruct (marshal_resources _) as [rawResources|] eqn:Hr; [|discriminate].
  destruct (marshal_map _) as [rawMetaData|] eqn:Hm; [|discriminate].
  unfold bind, exec, modify, get, ret in Hstart. cbv beta iota in Hstart.
  injection Hstart as <- <-.
  cbn [jobTable set_jobTable set_executed].
  pose proof (sql_insert_id_fresh (jobTable r)) as Hfresh.
  split; [exact Hfresh|]. split.
  { intros i row Hi. by apply lookup_app_l_Some. }
  split; [rewrite length_app; cbn; lia|].
  set (id' := sql_insert_id (jobTable r)) in *.
  set (row := inserted_row id' job rawResources rawMetaData).
  assert (Hfind : List.find (λ row0, (id row0 =? id')%Z) (jobTable r ++ [row]) = Some row).
  { apply find_app_absent; [|apply Z.eqb_refl].
    apply Forall_forall. intros row0 Hin. apply Z.eqb_neq. intros Heq.
    apply Hfresh. rewrite <- Heq. apply list_elem_of_In, in_map, list_elem_of_In, Hin. }
  unfold FindById. unfold bind at 1, exec, modify. unfold bind at 1, get.
  cbn [jobTable set_jobTable set_executed]. rewrite Hfind.
  unfold scanJob. cbn [resources row inserted_row]. rewrite (Hcodec _ eq_refl).
  unfold bind, get, ret. cbn [clock set_jobTable set_executed duration job_state
    start_time inserted_row].
  assert (Hel : ∀ st, clock st = clock r → clockNanos st = clockNanos r →
            schema.State job = JobStateRunning → schema.Duration job = 0%Z →
            to_int32 (duration_seconds (time_Since (schema.StartTime job) st))
            = Z.quot ((clock r - schema.StartTime job) * 10 ^ 9 + clockNanos r) (10 ^ 9)).
  { intros st Hc Hns Hst Hd.
    pose proof (scanned_elapsed st row) as H. unfold elapsed_seconds in H.
    cbn [start_time row inserted_row] in H. rewrite Hc, Hns in H. apply H.
    - unfold clock_reading. by rewrite Hns.
    - by apply Hfits. }
  eexists _, _. split; [reflexivity|]. cbn [ID JobID JUser Project Cluster SubCluster
    Partition NumNodes StartTime Walltime State JMonitoringStatus Resources Duration
    id job_id user project cluster subcluster partition num_nodes start_time walltime
    duration job_state monitoring_status row inserted_row].
  repeat split; try reflexivity.
  - case_decide as Hd.
    + destruct Hd as [Hst Hd]. rewrite Hd. cbn [Z.eqb andb].
      rewrite bool_decide_eq_true_2 by exact Hst. by apply Hel.
    + destruct (Z.eqb_spec (schema.Duration job) 0) as [Hz|Hz]; [|reflexivity].
      cbn [andb]. rewrite bool_decide_eq_false_2; [reflexivity|]. tauto.
  - intros Hst Hd Hle. rewrite Hd. cbn [Z.eqb andb].
    rewrite bool_decide_eq_true_2 by exact Hst. rewrite Hel by done.
    destruct (quot_seconds (clock r - schema.StartTime job) (clockNanos r) Hn)
      as (H & _ & _).
    apply H. lia.
Qed.

Lemma DeleteJobsBefore_run startTime r :
  DeleteJobsBefore startTime r
  = (Ok (Z.of_nat (List.length
                     (List.filter (λ row, (start_time row <? startTime)%Z) (jobTable r)))),
     set_jobTable
       (List.filter (λ row, negb (start_time row <? startTime)%Z) (jobTable r))
       (set_executed (executed r ++ [StmtSelect "job"; StmtDelete "job"]) r)).
Proof.
  unfold DeleteJobsBefore, bind, exec, modify, get, ret. cbv beta iota.
  cbn [jobTable executed set_executed]. by rewrite <- app_assoc.
Qed.

Lemma filter_length_split {A} (P : A → bool) (l : list A) :
  (List.length (List.filter P l) + List.length (List.filter (λ a, negb (P a)) l)
   = List.length l)%nat.
Proof.
  induction l as [|a l IH]; [reflexivity|]. cbn [List.filter].
  destruct (P a); cbn [negb List.length]; lia.
Qed.

Lemma filter_none {A} (P : A → bool) (l : list A) :
  Forall (λ a, P a = false) l → List.filter P l = [].
Proof.
  induction 1 as [|a l Ha _ IH]; [reflexivity|]. cbn. by rewrite Ha.
Qed.

Lemma filter_all {A} (P : A → bool) (l : list A) :
  Forall (λ a, P a = true) l → List.filter P l = l.
Proof.
  induction 1 as [|a l Ha _ IH]; [reflexivity|]. cbn. by rewrite Ha, IH.
Qed.

(** X10.  [DeleteJobsBefore] removes exactly the jobs that started
    before the cut-off and keeps the others in their order; when no other
    statement runs between its two statements, the count it returns is the
    number of rows removed.  A second call with the same cut-off removes
    nothing and returns 0, and deleting up to an earlier cut-off first
    changes neither the final table nor the total count. *)
Theorem DeleteJobsBefore_exact (startTime : Z) (r : JobRepository) :
  ∃ cnt r1,
    DeleteJobsBefore startTime r = (Ok cnt, r1)
    ∧ cnt = (Z.of_nat (List.length (jobTable r)) - Z.of_nat (List.length (jobTable r1)))%Z
    ∧ Forall (λ row, (startTime ≤ start_time row)%Z) (jobTable r1)
    ∧ jobTable r1 `sublist_of` jobTable r
    ∧ (∀ row, row ∈ jobTable r → (startTime ≤ start_time row)%Z → row ∈ jobTable r1)
    ∧ (∃ r2, DeleteJobsBefore startTime r1 = (Ok 0%Z, r2) ∧ jobTable r2 = jobTable r1)
    ∧ (∀ earlier cnt0 r0 cnt' r',
         (earlier ≤ startTime)%Z →
         DeleteJobsBefore earlier r = (Ok cnt0, r0) →
         DeleteJobsBefore startTime r0 = (Ok cnt', r') →
         jobTable r' = jobTable r1 ∧ (cnt0 + cnt' = cnt)%Z).
Proof.
  rewrite DeleteJobsBefore_run. eexists _, _. split; [reflexivity|].
  cbn [jobTable set_jobTable set_executed].
  set (old := λ row, (start_time row <? startTime)%Z).
  change (λ row : JobRow, negb (start_time row <? startTime)%Z)
    with (λ row, negb (old row)).
  assert (Hkept : Forall (λ row, old row = false)
                    (List.filter (λ row, negb (old row)) (jobTable r))).
  { apply Forall_forall. intros row Hin. apply elem_of_filter_bool in Hin as [Hneg _].
    by apply negb_true_iff. }
  split.
  { pose proof (filter_length_split old (jobTable r)). lia. }
  split.
  { eapply Forall_impl; [exact Hkept|]. intros row Hrow. by apply Z.ltb_ge. }
  split.
  { generalize (jobTable r). intros l. induction l as [|a l IH]; [constructor|].
    cbn [List.filter]. destruct (negb (old a)); by constructor. }
  split.
  { intros row Hin Hle. apply elem_of_filter_bool. split; [|exact Hin].
    apply negb_true_iff. by apply Z.ltb_ge. }
  split.
  { rewrite DeleteJobsBefore_run. cbn [jobTable set_jobTable set_executed].
    change (λ row : JobRow, (start_time row <? startTime)%Z) with old.
    change (λ row : JobRow, negb (start_time row <? startTime)%Z)
      with (λ row, negb (old row)).
    rewrite (filter_none old) by exact Hkept.
    eexists. split; [reflexivity|]. cbn [jobTable set_jobTable].
    apply filter_all. eapply Forall_impl; [exact Hkept|].
    intros row Hrow. cbn beta. by rewrite Hrow. }
  intros earlier cnt0 r0 cnt' r' Hle H0 H'.
  rewrite DeleteJobsBefore_run in H0. injection H0 as <- <-.
  rewrite DeleteJobsBefore_run in H'. injection H' as <- <-.
  cbn [jobTable set_jobTable set_executed].
  set (older := λ row, (start_time row <? earlier)%Z).
  change (λ row : JobRow, negb (start_time row <? earlier)%Z)
    with (λ row, negb (older row)).
  change (λ row : JobRow, negb (start_time row <? startTime)%Z)
    with (λ row, negb (old row)).
  change (λ row : JobRow, (start_time row <? startTime)%Z) with old.
  generalize (jobTable r). intros l. induction l as [|a l [IH1 IH2]]; [done|].
  cbn [List.filter].
  destruct (older a) eqn:Ha, (old a) eqn:Hb; cbn [negb List.filter List.length];
    rewrite ?Hb; cbn [negb List.length]; unfold older, old in Ha, Hb.
  - split; [exact IH1|lia].
  - apply Z.ltb_lt in Ha. apply Z.ltb_ge in Hb. lia.
  - split; [exact IH1|lia].
  - split; [by rewrite IH1|lia].
Qed.

Lemma DeleteJobById_run id' r :
  DeleteJobById id' r
  = (Ok tt,
     set_jobTable (List.filter (λ row, negb (id row =? id')%Z) (jobTable r))
       (set_executed (executed r ++ [StmtDelete "job"]) r)).
Proof. reflexivity. Qed.

Lemma find_filter_other {A} (P Q : A → bool) (l : list A) :
  (∀ a, P a = true → Q a = true) →
  List.find P (List.filter Q l) = List.find P l.
Proof.
  intros HPQ. induction l as [|a l IH]; [reflexivity|]. cbn.
  destruct (Q a) eqn:Hq; cbn.
  - destruct (P a); [reflexivity|exact IH].
  - destruct (P a) eqn:Hp; [|exact IH]. apply HPQ in Hp. congruence.
Qed.

Lemma find_filter_none {A} (P Q : A → bool) (l : list A) :
  (∀ a, P a = true → Q a = false) →
  List.find P (List.filter Q l) = None.
Proof.
  intros HPQ. induction l as [|a l IH]; [reflexivity|]. cbn.
  destruct (Q a) eqn:Hq; cbn; [|exact IH].
  destruct (P a) eqn:Hp; [|exact IH]. apply HPQ in Hp. congruence.
Qed.

(** X11.  After [DeleteJobById] the job is gone: [FindById] reports
    [sql.ErrNoRows] for its id.  Every row with another id is kept, and
    [FindById] answers for every other id as it did before. *)
Theorem DeleteJobById_then_FindById (id' : Z) (r : JobRepository) :
  ∃ r1,
    DeleteJobById id' r = (Ok tt, r1)
    ∧ fst (FindById id' r1) = Err ErrNoRows
    ∧ Forall (λ row, id row ≠ id') (jobTable r1)
    ∧ jobTable r1 `sublist_of` jobTable r
    ∧ (∀ row, row ∈ jobTable r → id row ≠ id' → row ∈ jobTable r1)
    ∧ (∀ other, other ≠ id' → fst (FindById other r1) = fst (FindById other r)).
Proof.
  rewrite DeleteJobById_run. eexists. split; [reflexivity|].
  split.
  { unfold FindById. unfold bind at 1, exec, modify. unfold bind at 1, get.
    cbn [jobTable set_jobTable set_executed].
    rewrite find_filter_none; [reflexivity|].
    intros row Hrow. by rewrite Hrow. }
  cbn [jobTable set_jobTable set_executed].
  split.
  { apply Forall_forall. intros row Hin. apply elem_of_filter_bool in Hin as [Hneg _].
    apply negb_true_iff, Z.eqb_neq in Hneg. exact Hneg. }
  split.
  { generalize (jobTable r). intros l. induction l as [|a l IH]; [constructor|].
    cbn [List.filter]. destruct (negb _); by constructor. }
  split.
  { intros row Hin Hne. apply elem_of_filter_bool. split; [|exact Hin].
    apply negb_true_iff, Z.eqb_neq. exact Hne. }
  intros other Hother.
  unfold FindById. unfold bind at 1 3, exec, modify. unfold bind at 1 2, get.
  cbn [jobTable set_jobTable set_executed].
  rewrite find_filter_other.
  - destruct (List.find _ (jobTable r)) as [row|]; [|reflexivity].
    unfold scanJob. destruct (unmarshal_resources _); reflexivity.
  - intros row Hrow. apply Z.eqb_eq in Hrow. apply negb_true_iff, Z.eqb_neq. congruence.
Qed.

(** A map that [FetchMetadata] has returned is in the cache. *)
Lemma FetchMetadata_leaves_entry job r job' l r1 :
  FetchMetadata job r = (Ok (job', Some l), r1) →
  ∃ e, cache r1 !! metadata_cachekey job = Some e
       ∧ entryValue e = Some l
       ∧ (clock r1 < entryExpiration e)%Z.
Proof.
  intros Hfetch.
  destruct (FetchMetadata_frame _ _ _ _ Hfetch) as (_ & _ & _ & _ & Hclock & _).
  destruct (cache_hit_or_miss (metadata_cachekey job) r) as [(e & He & Hlt)|Hmiss].
  - rewrite (FetchMetadata_hit job r e He Hlt) in Hfetch.
    injection Hfetch as _ Hl <-. eauto.
  - destruct (FetchMetadata_miss_cached _ _ _ _ _ Hmiss Hfetch) as [size Hentry].
    eexists. split; [exact Hentry|]. split; [reflexivity|].
    cbn [entryExpiration]. rewrite Hclock. unfold hours. lia.
Qed.

(** X12.  The deletion of a job does not touch the result cache: when
    the metadata of the job has been loaded, [FetchMetadata] still returns
    the cached map after [DeleteJobById], without a statement, although
    the job has no row any more and [FindById] fails. *)
Theorem DeleteJobById_keeps_cached_metadata
    (job job' : Job) (l : loc) (r r0 : JobRepository) :
  FetchMetadata job r = (Ok (job', Some l), r0) →
  ∃ r1,
    DeleteJobById (ID job) r0 = (Ok tt, r1)
    ∧ fst (FindById (ID job) r1) = Err ErrNoRows
    ∧ FetchMetadata job r1
      = (Ok (set_MetaData (Some l) (RawMetaData job) job, Some l), r1)
    ∧ deref r1 l = deref r0 l.
Proof.
  intros Hfetch.
  destruct (FetchMetadata_leaves_entry _ _ _ _ _ Hfetch) as (e & He & Hl & Hlt).
  rewrite DeleteJobById_run. eexists. split; [reflexivity|]. split.
  { unfold FindById. unfold bind at 1, exec, modify. unfold bind at 1, get.
    cbn [jobTable set_jobTable set_executed].
    rewrite find_filter_none; [reflexivity|].
    intros row Hrow. by rewrite Hrow. }
  split; [|reflexivity].
  rewrite (FetchMetadata_hit job _ e); [by rewrite Hl|exact He|exact Hlt].
Qed.

End CreatingAndDeleting.

Lemma Start_then_FindById_witness :
  ∃ found r1 r2,
    @Start json_runtime json_codec ascending_ids new_job
      (repository "sqlite3" 10000 walltime_jobs []) = (Ok 4%Z, r1)
    ∧ @FindById json_runtime 4 r1 = (Ok found, r2)
    ∧ JUser found = "carol"
    ∧ Resources found = schema.Resources new_job
    ∧ Duration found = 1000%Z.
Proof.
  destruct (@Start json_runtime json_codec ascending_ids new_job
              (repository "sqlite3" 10000 walltime_jobs [])) as [res r1] eqn:Hstart.
  assert (Hres : res = Ok 4%Z) by (vm_compute in Hstart; by injection Hstart as <- _).
  subst res.
  destruct (@Start_then_FindById json_runtime json_codec ascending_ids new_job
              (repository "sqlite3" 10000 walltime_jobs []) 4 r1 Hstart)
    as (_ & _ & _ & found & r2 & Hfind & _ & _ & Huser & _ & _ & _ & _ & _ & _ & _ & _ & _
        & Hres & _ & Hd).
  - intros raw Hraw. vm_compute in Hraw. injection Hraw as <-. vm_compute. reflexivity.
  - by vm_compute.
  - intros _ _. cbn. lia.
  - exists found, r1, r2. repeat split; try assumption.
    apply Hd; [reflexivity|reflexivity|cbn; lia].
Defined.

Lemma DeleteJobById_keeps_cached_metadata_witness :
  ∃ job' l r0 r1,
    @FetchMetadata json_runtime (job_struct finished_row)
      (repository "sqlite3" 10000 [finished_row] []) = (Ok (job', Some l), r0)
    ∧ DeleteJobById 7 r0 = (Ok tt, r1)
    ∧ jobTable r1 = []
    ∧ @FetchMetadata json_runtime (job_struct finished_row) r1
      = (Ok (set_MetaData (Some l) None (job_struct finished_row), Some l), r1)
    ∧ deref r1 l = {[ "jobName" := "solver" ]}.
Proof.
  destruct (@FetchMetadata json_runtime (job_struct finished_row)
              (repository "sqlite3" 10000 [finished_row] [])) as [res r0] eqn:Hfetch.
  assert (Hres : ∃ job', res = Ok (job', Some 1%positive))
    by (vm_compute in Hfetch; injection Hfetch as <- _; eauto).
  destruct Hres as [job' ->].
  destruct (@DeleteJobById_keeps_cached_metadata json_runtime (job_struct finished_row)
              job' 1%positive _ r0 Hfetch) as (r1 & Hdel & _ & Hagain & Hderef).
  exists job', 1%positive, r0, r1. split; [reflexivity|]. split; [exact Hdel|].
  split; [|split; [exact Hagain|]].
  - vm_compute in Hfetch. injection Hfetch as _ <-. vm_compute in Hdel.
    injection Hdel as <-. reflexivity.
  - rewrite Hderef. vm_compute in Hfetch. injection Hfetch as _ <-. vm_compute. reflexivity.
Defined.

(** ** The job name *)

Section JobName.
Context {runtime : GoRuntime}.

Ltac proj_simpl :=
  cbn [jobTable userTable driver executed cache evictions mapHeap clock clockNanos
       archiveChannel archivePending set_jobTable set_executed set_cache
       set_evictions set_mapHeap set_clock set_clockNanos
       set_archiveChannel set_archivePending
       ID MetaData RawMetaData set_MetaData fst snd] in *.

(** The part of [FetchJobName] that follows the lookup in the cache. *)
Lemma FetchJobName_query (job : Job) (cachekey : string) r0 job' name r1 :
  (let* _ := exec (StmtSelect "job") in
   let* r := get in
   match List.find (λ row, (id row =? ID job)%Z) (jobTable r) with
   | None => fail ErrNoRows
   | Some row =>
       let raw := meta_data row in
       if (len raw =? 0)%Z then ret (set_MetaData (MetaData job) raw job, None)
       else
         match unmarshal_metadata (default "" raw) with
         | None => fail ErrUnmarshal
         | Some decoded =>
             let* m :=
               match decoded, MetaData job with
               | None, _ => ret None
               | Some kv, None =>
                   let* l := new_map kv in ret (Some l)
               | Some kv, Some l =>
                   let* _ := modify (λ r, set_mapHeap (<[l := kv ∪ deref r l]> (mapHeap r)) r) in
                   ret (Some l)
               end in
             let* _ := cache_Put cachekey m (len raw) (hours 24) in
             let* r := get in
             ret (set_MetaData m raw job, Some (map_index r m "jobName"))
         end
   end) r0 = (Ok (job', Some name), r1) →
  ∃ m row decoded,
    List.find (λ row, (id row =? ID job)%Z) (jobTable r0) = Some row
    ∧ unmarshal_metadata (default "" (meta_data row)) = Some decoded
    ∧ cache r1 !! cachekey
      = Some {| entryValue := m; entrySize := len (meta_data row);
                entryExpiration := (clock r0 + hours 24)%Z |}
    ∧ clock r1 = clock r0
    ∧ map_index r1 m "jobName" = name
    ∧ match decoded, MetaData job with
      | None, _ => m = None ∧ mapHeap r1 = mapHeap r0
      | Some kv, Some l => m = Some l ∧ mapHeap r1 = <[l := kv ∪ deref r0 l]> (mapHeap r0)
      | Some kv, None =>
          m = Some (fresh (dom (mapHeap r0)))
          ∧ mapHeap r1 = <[fresh (dom (mapHeap r0)) := kv]> (mapHeap r0)
      end.
Proof.
  unfold bind at 1, exec, modify. unfold bind at 1, get. proj_simpl.
  destruct (List.find _ (jobTable r0)) as [row|]; [|discriminate].
  destruct (len (meta_data row) =? 0)%Z; [discriminate|].
  destruct (unmarshal_metadata _) as [[kv|]|] eqn:Hdec; [| |discriminate].
  - destruct (MetaData job) as [l|];
      unfold bind, ret, new_map, cache_Put, modify, get; cbv beta iota;
      intros [= <- <- <-]; eexists _, row, (Some kv); proj_simpl;
      rewrite lookup_evict_insert; repeat split; first [reflexivity|assumption].
  - unfold bind, ret, cache_Put, modify, get; cbv beta iota.
    intros [= <- <- <-]. eexists _, row, None. proj_simpl.
    rewrite lookup_evict_insert. repeat split; first [reflexivity|assumption].
Qed.

(** X13.  A name that [FetchJobName] returns is the [jobName] entry of
    the map that [FetchMetadata] returns next for the job; that call finds
    the map in the cache and executes no statement. *)
Theorem FetchJobName_agrees_with_FetchMetadata
    (job job' : Job) (name : string) (r r1 : JobRepository) :
  FetchJobName job r = (Ok (job', Some name), r1) →
  ∃ m,
    FetchMetadata job r1 = (Ok (set_MetaData m (RawMetaData job) job, m), r1)
    ∧ map_index r1 m "jobName" = name.
Proof.
  intros H. unfold FetchJobName in H.
  destruct (cache_hit_or_miss (metadata_cachekey job) r) as [(e & He & Hlt)|Hmiss].
  - assert (Hget : cache_Get (metadata_cachekey job) r = (Ok (Some (entryValue e)), r)).
    { unfold cache_Get. rewrite He. destruct (Z.ltb_spec (clock r) (entryExpiration e));
        [reflexivity|lia]. }
    rewrite (bind_run _ _ _ _ _ Hget) in H. unfold bind at 1, get in H.
    destruct (negb (map_index r (entryValue e) "jobName" =? "")) eqn:Hname.
    + unfold ret in H. proj_simpl. injection H as _ <- <-.
      exists (entryValue e). split; [|reflexivity].
      by apply FetchMetadata_hit.
    + apply FetchJobName_query in H
        as (m & row & kv & _ & _ & Hentry & Hclock & Hm & _).
      exists m. split; [|exact Hm].
      rewrite (FetchMetadata_hit job r1 _ Hentry); [reflexivity|].
      cbn [entryExpiration]. rewrite Hclock. unfold hours. lia.
  - rewrite (bind_run _ _ _ _ _ (cache_Get_miss _ _ Hmiss)) in H.
    unfold bind at 1, get in H. cbn [String.eqb negb] in H.
    apply FetchJobName_query in H
      as (m & row & kv & _ & _ & Hentry & Hclock & Hm & _).
    exists m. split; [|exact Hm].
    rewrite (FetchMetadata_hit job r1 _ Hentry); [reflexivity|].
    cbn [entryExpiration]. rewrite Hclock. unfold hours. lia.
Qed.

(** X14.  When the cache holds a map of the job without a job name,
    [FetchJobName] reads the row and decodes the stored metadata into the
    cached map itself: the map that every holder of the cached reference
    sees gains the stored entries, and keeps the entries that are not
    stored. *)
Theorem FetchJobName_fills_cached_map
    (job : Job) (r : JobRepository) (e : CacheEntry) (l : loc) (row : JobRow)
    (kv : gmap string string) :
  cache r !! metadata_cachekey job = Some e →
  (clock r < entryExpiration e)%Z →
  entryValue e = Some l →
  default "" (deref r l !! "jobName") = "" →
  job_row_of job r = Some row →
  len (meta_data row) ≠ 0%Z →
  unmarshal_metadata (default "" (meta_data row)) = Some (Some kv) →
  ∃ job' r1,
    FetchJobName job r
    = (Ok (job', Some (default "" ((kv ∪ deref r l) !! "jobName"))), r1)
    ∧ MetaData job' = Some l
    ∧ deref r1 l = kv ∪ deref r l
    ∧ (∀ l' m, l' ≠ l → mapHeap r !! l' = Some m → mapHeap r1 !! l' = Some m)
    ∧ entryValue <$> cache r1 !! metadata_cachekey job = Some (Some l)
    ∧ executed r1 = (executed r ++ [StmtSelect "job"])%list.
Proof.
  intros He Hlt Hl Hname Hrow Hlen Hdec. unfold FetchJobName.
  assert (Hget : cache_Get (metadata_cachekey job) r = (Ok (Some (entryValue e)), r)).
  { unfold cache_Get. rewrite He. destruct (Z.ltb_spec (clock r) (entryExpiration e));
      [reflexivity|lia]. }
  rewrite (bind_run _ _ _ _ _ Hget). unfold bind at 1, get.
  rewrite Hl. cbn [map_index]. rewrite Hname. cbn [String.eqb negb].
  unfold bind at 1, exec, modify. unfold bind at 1, get. proj_simpl.
  unfold job_row_of in Hrow. rewrite Hrow.
  apply Z.eqb_neq in Hlen. rewrite Hlen, Hdec.
  unfold bind, ret, cache_Put, modify, get. cbv beta iota. proj_simpl.
  eexists _, _. split.
  { f_equal. f_equal. f_equal. f_equal. unfold map_index, deref. proj_simpl.
    rewrite lookup_insert_eq. reflexivity. }
  proj_simpl. split; [reflexivity|]. split.
  { unfold deref. proj_simpl. rewrite lookup_insert_eq. reflexivity. }
  split.
  { intros l' m Hne Hm. by rewrite lookup_insert_ne. }
  split; [by rewrite lookup_evict_insert|reflexivity].
Qed.

End JobName.

Lemma FetchJobName_agrees_with_FetchMetadata_witness :
  ∃ job' r1 l,
    @FetchJobName json_runtime (job_struct finished_row)
      (repository "sqlite3" 10000 [finished_row] []) = (Ok (job', Some "solver"), r1)
    ∧ @FetchMetadata json_runtime (job_struct finished_row) r1
      = (Ok (set_MetaData (Some l) None (job_struct finished_row), Some l), r1)
    ∧ deref r1 l !! "jobName" = Some "solver".
Proof.
  destruct (@FetchJobName json_runtime (job_struct finished_row)
              (repository "sqlite3" 10000 [finished_row] [])) as [res r1] eqn:Hrun.
  assert (Hres : ∃ job', res = Ok (job', Some "solver"))
    by (vm_compute in Hrun; injection Hrun as <- _; eauto).
  destruct Hres as [job' ->].
  destruct (@FetchJobName_agrees_with_FetchMetadata json_runtime _ _ _ _ _ Hrun)
    as (m & Hfetch & Hname).
  assert (Hm : m = Some 1%positive).
  { vm_compute in Hrun. injection Hrun as _ <-. vm_compute in Hfetch.
    by injection Hfetch as <-. }
  subst m. exists job', r1, 1%positive. split; [reflexivity|]. split; [exact Hfetch|].
  vm_compute in Hrun. injection Hrun as _ <-. vm_compute. reflexivity.
Defined.

Lemma FetchJobName_fills_cached_map_witness :
  ∃ job' r1,
    @FetchJobName json_runtime (job_struct finished_row) cached_without_name
    = (Ok (job', Some "solver"), r1)
    ∧ deref cached_without_name 1%positive = {[ "note" := "x" ]}
    ∧ deref r1 1%positive = {[ "jobName" := "solver" ]} ∪ {[ "note" := "x" ]}.
Proof.
  destruct (@FetchJobName_fills_cached_map json_runtime (job_struct finished_row)
              cached_without_name
              {| entryValue := Some 1%positive; entrySize := 12; entryExpiration := 90000 |}
              1%positive finished_row {[ "jobName" := "solver" ]})
    as (job' & r1 & Hrun & _ & Hderef & _).
  - reflexivity.
  - reflexivity.
  - reflexivity.
  - reflexivity.
  - reflexivity.
  - vm_compute. discriminate.
  - vm_compute. reflexivity.
  - exists job', r1. split; [exact Hrun|]. split; [reflexivity|]. exact Hderef.
Defined.

(** ** Lists of column values *)

Section ColumnValues.
Context {engine : SqlEngine}.

Lemma FindColumnValues_elevated_run u query table sel whr r :
  HasAnyRole u elevated = true →
  FindColumnValues (Some u) query table sel whr r
  = (select_column_values r table sel whr (λ x, sql_like x ("%" +:+ query +:+ "%")),
     set_executed (executed r ++ [StmtSelect table]) r).
Proof.
  intros Hrole. unfold FindColumnValues. rewrite Hrole.
  unfold bind at 1, exec, modify. unfold bind at 1, get. unfold lift.
  reflexivity.
Qed.

Lemma outcome_mapM_scan {R} (sel : R → option string) (rows : list R) (values : list string) :
  outcome_mapM (λ r, match sel r with Some x => Ok x | None => Err ErrScan end) rows
  = Ok values →
  List.map sel rows = List.map Some values.
Proof.
  revert values. induction rows as [|row rows IH]; intros values H.
  - by injection H as <-.
  - cbn [outcome_mapM] in H. destruct (sel row) as [x|] eqn:Hx; [|discriminate].
    cbn [outcome_bind] in H.
    destruct (outcome_mapM _ rows) as [vs| |]; try discriminate.
    injection H as <-. cbn [List.map]. by rewrite Hx, (IH vs eq_refl).
Qed.

Lemma query_first_of_query_all {R} (rows : list R) (sel whr : R → option string)
    (cmp : string → bool) (values : list string) :
  query_all rows sel whr cmp = Ok values →
  query_first rows sel whr cmp
  = match values with
    | [] => Err ErrNoRows
    | v :: _ => Ok v
    end.
Proof.
  unfold query_all, query_first. rewrite find_head_filter.
  destruct (outcome_mapM _ _) as [vs| |] eqn:Hscan; try discriminate.
  cbn [outcome_bind]. intros [= <-].
  apply outcome_mapM_scan in Hscan.
  destruct (List.filter _ rows) as [|row matching]; destruct vs as [|v vs];
    try discriminate; [reflexivity|].
  cbn [head]. injection Hscan as -> _. reflexivity.
Qed.

(** X15.  For a caller with an elevated role, [FindColumnValue] with
    [LIKE] returns the first of the values that [FindColumnValues] returns
    for the same search, and [ErrNotFound] when that list is empty; both
    execute the same statement. *)
Theorem FindColumnValue_is_head_of_FindColumnValues
    (u : User) (searchterm table selectColumn whereColumn : string)
    (r : JobRepository) (values : list string) (r' : JobRepository) :
  FindColumnValues (Some u) searchterm table selectColumn whereColumn r = (Ok values, r') →
  FindColumnValue (Some u) searchterm table selectColumn whereColumn true r
  = (match values with
     | [] => Err ErrNotFound
     | v :: _ => Ok v
     end, r').
Proof.
  intros H.
  destruct (HasAnyRole u elevated) eqn:Hrole.
  - rewrite (FindColumnValues_elevated_run _ _ _ _ _ _ Hrole) in H.
    injection H as H <-.
    rewrite (FindColumnValue_elevated_run _ _ _ _ _ _ _ Hrole). f_equal.
    unfold select_column_values in H. unfold select_column_value.
    repeat case_decide.
    + destruct (job_text_column selectColumn), (job_text_column whereColumn);
        try discriminate.
      rewrite (query_first_of_query_all _ _ _ _ _ H). by destruct values.
    + destruct (user_text_column selectColumn), (user_text_column whereColumn);
        try discriminate.
      rewrite (query_first_of_query_all _ _ _ _ _ H). by destruct values.
    + discriminate.
  - unfold FindColumnValues in H. rewrite Hrole in H. discriminate.
Qed.

Lemma distinct_nil (l : list string) : distinct l = [] → l = [].
Proof. destruct l; [done|discriminate]. Qed.

Lemma query_all_spec {R} (rows : list R) (sel whr : R → option string) (query : string) :
  match query_all rows sel whr (λ x, sql_like x ("%" +:+ query +:+ "%")) with
  | Ok values =>
      NoDup values
      ∧ (∀ v, v ∈ values ↔ ∃ row, row ∈ like_rows whr query rows ∧ sel row = Some v)
      ∧ Forall (λ row, is_Some (sel row)) (like_rows whr query rows)
  | Err e => e = ErrScan ∧ Exists (λ row, sel row = None) (like_rows whr query rows)
  | Panic => False
  end.
Proof.
  unfold query_all. fold (like_rows whr query rows).
  generalize (like_rows whr query rows). intros matching.
  destruct (outcome_mapM _ matching) as [vs|e|] eqn:Hscan; cbn [outcome_bind].
  - apply outcome_mapM_scan in Hscan. split; [apply NoDup_distinct|]. split.
    + intros v. rewrite elem_of_distinct. split.
      * intros Hin. assert (Hs : Some v ∈ List.map Some vs).
        { apply list_elem_of_In, in_map, list_elem_of_In, Hin. }
        rewrite <- Hscan in Hs. apply list_elem_of_In, in_map_iff in Hs as (row & Hrow & Hin').
        exists row. split; [by apply list_elem_of_In|exact Hrow].
      * intros (row & Hin & Hrow).
        assert (Hs : Some v ∈ List.map sel matching).
        { rewrite <- Hrow. apply list_elem_of_In, in_map, list_elem_of_In, Hin. }
        rewrite Hscan in Hs. apply list_elem_of_In, in_map_iff in Hs as (v' & [= ->] & Hin').
        by apply list_elem_of_In.
    + apply Forall_forall. intros row Hin.
      assert (Hs : sel row ∈ List.map sel matching)
        by (apply list_elem_of_In, in_map, list_elem_of_In, Hin).
      rewrite Hscan in Hs. apply list_elem_of_In, in_map_iff in Hs as (v' & <- & _). eauto.
  - revert e Hscan. induction matching as [|row matching IH]; intros e Hscan; [discriminate|].
    cbn [outcome_mapM] in Hscan. destruct (sel row) as [x|] eqn:Hx.
    + cbn [outcome_bind] in Hscan.
      destruct (outcome_mapM _ matching) as [vs|e'|]; try discriminate.
      injection Hscan as <-. destruct (IH e' eq_refl) as [-> Hex].
      split; [reflexivity|]. by apply Exists_cons_tl.
    + injection Hscan as <-. split; [reflexivity|]. by apply Exists_cons_hd.
  - exfalso. revert Hscan. apply outcome_mapM_no_panic. intros row.
    destruct (sel row); discriminate.
Qed.

(** X16.  [FindColumnValues]: a caller without an elevated role gets
    [ErrForbidden] and no statement is executed.  For a caller with an
    elevated role and columns of table [job], the result lists each value
    of the select column among the rows whose where column contains the
    search term exactly once; a search without a match succeeds with the
    empty list, and the call fails exactly when one of the matching rows
    holds [NULL] in the select column. *)
Theorem FindColumnValues_result
    (u : User) (query selectColumn whereColumn : string)
    (sel whr : JobRow → option string) (r : JobRepository) :
  job_text_column selectColumn = Some sel →
  job_text_column whereColumn = Some whr →
  (HasAnyRole u elevated = false →
   FindColumnValues (Some u) query "job" selectColumn whereColumn r = (Err ErrForbidden, r))
  ∧ (HasAnyRole u elevated = true →
     snd (FindColumnValues (Some u) query "job" selectColumn whereColumn r)
     = set_executed (executed r ++ [StmtSelect "job"]) r
     ∧ match fst (FindColumnValues (Some u) query "job" selectColumn whereColumn r) with
       | Ok values =>
           NoDup values
           ∧ (∀ v, v ∈ values
                   ↔ ∃ row, row ∈ like_rows whr query (jobTable r) ∧ sel row = Some v)
           ∧ (like_rows whr query (jobTable r) = [] → values = [])
       | Err e =>
           e = ErrScan
           ∧ Exists (λ row, sel row = None) (like_rows whr query (jobTable r))
       | Panic => False
       end).
Proof.
  intros Hsel Hwhr. split.
  - intros Hrole. unfold FindColumnValues. by rewrite Hrole.
  - intros Hrole. rewrite (FindColumnValues_elevated_run _ _ _ _ _ _ Hrole).
    split; [reflexivity|]. cbn [fst]. unfold select_column_values.
    rewrite decide_True by reflexivity. rewrite Hsel, Hwhr.
    change (jobTable (set_executed ?e r)) with (jobTable r).
    pose proof (query_all_spec (jobTable r) sel whr query) as Hspec.
    destruct (query_all _ _ _ _) as [values|e|]; [|exact Hspec..].
    destruct Hspec as (Hnd & Hmem & _). split; [exact Hnd|]. split; [exact Hmem|].
    intros Hnone. destruct values as [|v values]; [reflexivity|].
    destruct (proj1 (Hmem v) (list_elem_of_here _ _)) as (row & Hin & _).
    rewrite Hnone in Hin. by apply elem_of_nil in Hin.
Qed.

End ColumnValues.

Lemma FindColumnValue_is_head_of_FindColumnValues_witness :
  ∃ r',
    @FindColumnValues wildcard_engine (Some root) "p" "job" "user" "project"
      (repository "sqlite3" 10000 (bob_job "emmy" :: finished_jobs) [])
    = (Ok ["bob"; "alice"], r')
    ∧ @FindColumnValue wildcard_engine (Some root) "p" "job" "user" "project" true
        (repository "sqlite3" 10000 (bob_job "emmy" :: finished_jobs) [])
      = (Ok "bob", r').
Proof.
  eexists. split; [vm_compute; reflexivity|].
  apply (@FindColumnValue_is_head_of_FindColumnValues wildcard_engine root "p" "job"
           "user" "project" (repository "sqlite3" 10000 (bob_job "emmy" :: finished_jobs) [])
           ["bob"; "alice"]).
  vm_compute. reflexivity.
Defined.

Lemma FindColumnValues_result_witness :
  @FindColumnValues wildcard_engine (Some alice) "e" "job" "cluster" "cluster"
    (repository "sqlite3" 10000 finished_jobs [])
  = (Err ErrForbidden, repository "sqlite3" 10000 finished_jobs [])
  ∧ fst (@FindColumnValues wildcard_engine (Some root) "e" "job" "cluster" "cluster"
           (repository "sqlite3" 10000 finished_jobs []))
    = Ok ["emmy"].
Proof.
  destruct (@FindColumnValues_result wildcard_engine alice "e" "cluster" "cluster"
              (λ row, Some (cluster row)) (λ row, Some (cluster row))
              (repository "sqlite3" 10000 finished_jobs []) eq_refl eq_refl) as [H _].
  split; [apply H; reflexivity|]. vm_compute. reflexivity.
Defined.

(** ** Allocated nodes *)

Section AllocatedNodesProperties.
Context {runtime : GoRuntime}.








End AllocatedNodesProperties.

(** The tally of the scenario: two allocations of e0102, one of e0101,
    none of e0103. *)
Example AllocatedNodes_on_nodes :
  (λ subclusters, map_to_list <$> (subclusters !! "main"))
    <$> match fst (@AllocatedNodes json_runtime "emmy"
                     (repository "sqlite3" 10000 jobs_on_nodes [])) with
        | Ok subclusters => Some subclusters
        | _ => None
        end
  = Some (Some [("e0101", 1%Z); ("e0102", 2%Z)]).
Proof. vm_compute. reflexivity. Qed.

(** ** Counting jobs by group *)

Section CountingProperties.
Context {engine : SqlEngine} {order : OrderEngine}.

Lemma fold_left_insert_lookup (l : list (string * Z)) (m : gmap string Z) (g : string) :
  NoDup l.*1 →
  fold_left (λ counts (row : string * Z), <[row.1 := row.2]> counts) l m !! g
  = match (list_to_map l : gmap string Z) !! g with
    | Some v => Some v
    | None => m !! g
    end.
Proof.
  revert m. induction l as [|[k v] l IH]; intros m Hnd; [reflexivity|].
  cbn [fmap list_fmap fst] in Hnd. apply NoDup_cons in Hnd as [Hk Hnd].
  cbn [fold_left fst snd]. rewrite (IH _ Hnd). rewrite list_to_map_cons.
  destruct (decide (g = k)) as [->|Hne].
  - rewrite (proj1 (not_elem_of_list_to_map l k) Hk) at 1.
    by rewrite !lookup_insert_eq.
  - rewrite !lookup_insert_ne by done. reflexivity.
Qed.

Lemma fold_left_insert_list_to_map (l : list (string * Z)) :
  NoDup l.*1 →
  fold_left (λ counts (row : string * Z), <[row.1 := row.2]> counts) l ∅
  = (list_to_map l : gmap string Z).
Proof.
  intros Hnd. apply map_eq. intros g. rewrite (fold_left_insert_lookup _ _ _ Hnd).
  rewrite lookup_empty. by destruct (list_to_map l !! g).
Qed.

(** What [CountGroupedJobs] does for a request with an identity, when
    the statement is in the fragment that the engine computes exactly. *)
Lemma CountGroupedJobs_run ctx aggreg filters weight limit r counts r' :
  counts_exact weight (clock r) limit (List.filter (selected ctx filters) (jobTable r))
  = true →
  CountGroupedJobs ctx aggreg filters weight limit r = (Ok counts, r') →
  r' = set_executed (executed r ++ [StmtSelect "job"]) r
  ∧ ∃ ordered,
      ordered ≡ₚ List.map (λ g, (g, group_count weight (clock r) ctx filters aggreg g
                                      (jobTable r)))
                   (groups_of ctx filters aggreg (jobTable r))
      ∧ StronglySorted (λ a b : string * Z, (b.2 ≤ a.2)%Z) ordered
      ∧ NoDup ordered.*1
      ∧ counts = list_to_map match limit with
                             | Some n => take (Z.to_nat (uint64 n)) ordered
                             | None => ordered
                             end.
Proof.
  intros Hexact.
  unfold CountGroupedJobs. unfold bind at 1, get. unfold bind at 1, lift.
  destruct (SecurityCheck ctx _) as [q| |] eqn:Hq; try discriminate.
  unfold bind at 1, exec, modify. unfold bind at 1, get.
  cbn [jobTable set_executed].
  assert (Hsel : ∀ row, apply_filters filters q row = selected ctx filters row).
  { intros row. rewrite apply_filters_spec, (SecurityCheck_spec _ _ _ Hq). reflexivity. }
  rewrite (filter_ext_eq _ _ _ Hsel), Hexact.
  unfold bind, ret, counts_rows. intros [= <- <-]. split; [reflexivity|].
  set (matching := List.filter (selected ctx filters) (jobTable r)).
  set (groups := List.map _ (distinct (List.map (aggregate_column aggreg) matching))).
  assert (Hgroups : groups
    = List.map (λ g, (g, group_count weight (clock r) ctx filters aggreg g (jobTable r)))
        (groups_of ctx filters aggreg (jobTable r))).
  { unfold groups, groups_of. fold matching. apply List.map_ext. intros g.
    unfold group_count, group_jobs, matching. by rewrite filter_filter_and. }
  assert (Hnd : NoDup (sql_order_desc groups).*1).
  { rewrite (sql_order_desc_perm groups), Hgroups.
    change (NoDup (List.map fst (List.map (λ g, (g, group_count weight (clock r) ctx filters
                                                      aggreg g (jobTable r)))
                                   (groups_of ctx filters aggreg (jobTable r))))).
    rewrite List.map_map. cbn [fst]. rewrite List.map_id. apply NoDup_distinct. }
  exists (sql_order_desc groups). split; [by rewrite sql_order_desc_perm, Hgroups|].
  split; [apply sql_order_desc_sorted|]. split; [exact Hnd|].
  apply fold_left_insert_list_to_map.
  destruct limit as [n|]; [|exact Hnd].
  rewrite fmap_take. apply (sublist_NoDup _ _ Hnd (sublist_take _ _)).
Qed.

Lemma elem_of_groups_of ctx filters aggreg rows g :
  g ∈ groups_of ctx filters aggreg rows ↔ group_jobs ctx filters aggreg g rows ≠ [].
Proof.
  unfold groups_of, group_jobs. rewrite elem_of_distinct. split.
  - intros Hin. apply elem_of_map_key in Hin as (row & Hrow & Hkey).
    apply elem_of_filter_bool in Hrow as [Hsel Hrow].
    intros Hnil.
    assert (Hmem : row ∈ List.filter (λ row, selected ctx filters row
                            && String.eqb (aggregate_column aggreg row) g) rows).
    { apply elem_of_filter_bool. split; [|exact Hrow].
      rewrite Hsel, Hkey. cbn. apply String.eqb_refl. }
    rewrite Hnil in Hmem. by apply elem_of_nil in Hmem.
  - intros Hne. destruct (List.filter _ rows) as [|row l] eqn:Hf; [done|].
    assert (Hmem : row ∈ List.filter (λ row, selected ctx filters row
                            && String.eqb (aggregate_column aggreg row) g) rows)
      by (rewrite Hf; apply list_elem_of_here).
    apply elem_of_filter_bool in Hmem as [Hboth Hrow].
    apply andb_true_iff in Hboth as [Hsel Hkey]. apply String.eqb_eq in Hkey.
    rewrite <- Hkey. apply list_elem_of_In, in_map, list_elem_of_In.
    by apply elem_of_filter_bool.
Qed.

Lemma elem_of_group_rows (V : string → Z) (keys : list string) (g : string) (c : Z) :
  (g, c) ∈ List.map (λ g, (g, V g)) keys ↔ g ∈ keys ∧ c = V g.
Proof.
  split.
  - intros Hin. apply list_elem_of_In, in_map_iff in Hin as (g' & [= -> ->] & Hin).
    split; [by apply list_elem_of_In|reflexivity].
  - intros [Hin ->]. apply list_elem_of_In, in_map_iff. exists g.
    split; [reflexivity|by apply list_elem_of_In].
Qed.

(** X18.  Without a limit, [CountGroupedJobs] returns one entry for
    every group that has a job among those the caller may see and that
    pass the filters, and no other entry; the entry is the number of these
    jobs, the sum of their node counts, or the sum of node count times
    run time in seconds (taken from the clock for running jobs), as the
    weight asks.  The call executes one query and writes nothing.  The
    statement is for sums that the engine computes exactly, in 64 bits:
    [counts_exact] holds of the jobs that are counted, as it always does
    when the jobs are only counted. *)
Theorem CountGroupedJobs_counts
    (ctx : Context) (aggreg : model.Aggregate) (filters : list JobFilter)
    (weight : option Weights) (r : JobRepository)
    (counts : gmap string Z) (r' : JobRepository) :
  counts_exact weight (clock r) None (List.filter (selected ctx filters) (jobTable r))
  = true →
  CountGroupedJobs ctx aggreg filters weight None r = (Ok counts, r') →
  r' = set_executed (executed r ++ [StmtSelect "job"]) r
  ∧ (∀ g, counts !! g
          = match group_jobs ctx filters aggreg g (jobTable r) with
            | [] => None
            | _ :: _ => Some (group_count weight (clock r) ctx filters aggreg g (jobTable r))
            end)
  ∧ (∀ g c, weight = None → counts !! g = Some c →
            c = Z.of_nat (List.length (group_jobs ctx filters aggreg g (jobTable r)))
            ∧ (1 ≤ c)%Z).
Proof.
  intros Hexact Hrun.
  destruct (CountGroupedJobs_run _ _ _ _ _ _ _ _ Hexact Hrun)
    as (-> & ordered & Hperm & _ & Hnd & ->).
  split; [reflexivity|].
  assert (Hlookup : ∀ g, (list_to_map ordered : gmap string Z) !! g
          = match group_jobs ctx filters aggreg g (jobTable r) with
            | [] => None
            | _ :: _ => Some (group_count weight (clock r) ctx filters aggreg g (jobTable r))
            end).
  { intros g.
    destruct (group_jobs ctx filters aggreg g (jobTable r)) as [|row l] eqn:Hg.
    - apply not_elem_of_list_to_map. intros Hin.
      apply list_elem_of_fmap in Hin as ([g' c] & -> & Hin). cbn [fst] in Hg.
      rewrite Hperm in Hin. apply elem_of_group_rows in Hin as [Hin _].
      apply elem_of_groups_of in Hin. by apply Hin.
    - apply elem_of_list_to_map; [exact Hnd|]. rewrite Hperm.
      apply elem_of_group_rows. split; [|reflexivity].
      apply elem_of_groups_of. rewrite Hg. discriminate. }
  split; [exact Hlookup|].
  intros g c -> Hc. rewrite Hlookup in Hc.
  destruct (group_jobs ctx filters aggreg g (jobTable r)) as [|row l] eqn:Hg; [discriminate|].
  injection Hc as <-. unfold group_count. rewrite Hg.
  assert (Hones : ∀ l0 : list JobRow,
            sumZ (List.map (job_weight None (clock r)) l0) = Z.of_nat (List.length l0)).
  { induction l0 as [|a l0 IH]; [reflexivity|].
    cbn [List.map List.length]. rewrite sumZ_cons, IH. cbn [job_weight]. lia. }
  rewrite Hones. cbn [List.length]. lia.
Qed.

(** X19.  With a limit [n] that is not negative, [CountGroupedJobs]
    returns [n] entries, or all when there are fewer groups; every entry is
    the count of its group, and no group that is left out has a larger
    count than a group that is returned.  The statement is for a limit and
    sums that the engine computes exactly: [counts_exact] holds of the
    limit and of the jobs that are counted, which excludes a negative
    limit. *)
Theorem CountGroupedJobs_limit
    (ctx : Context) (aggreg : model.Aggregate) (filters : list JobFilter)
    (weight : option Weights) (n : Z) (r : JobRepository)
    (counts : gmap string Z) (r' : JobRepository) :
  counts_exact weight (clock r) (Some n) (List.filter (selected ctx filters) (jobTable r))
  = true →
  CountGroupedJobs ctx aggreg filters weight (Some n) r = (Ok counts, r') →
  size counts
  = Nat.min (Z.to_nat n) (List.length (groups_of ctx filters aggreg (jobTable r)))
  ∧ (∀ g c, counts !! g = Some c →
            group_jobs ctx filters aggreg g (jobTable r) ≠ []
            ∧ c = group_count weight (clock r) ctx filters aggreg g (jobTable r))
  ∧ (∀ g c g', counts !! g = Some c → counts !! g' = None →
               group_jobs ctx filters aggreg g' (jobTable r) ≠ [] →
               (group_count weight (clock r) ctx filters aggreg g' (jobTable r) ≤ c)%Z).
Proof.
  intros Hexact Hrun.
  destruct (CountGroupedJobs_run _ _ _ _ _ _ _ _ Hexact Hrun)
    as (_ & ordered & Hperm & Hsorted & Hnd & ->).
  assert (Hn : (0 ≤ n < 2 ^ 64)%Z).
  { unfold counts_exact, int64 in Hexact.
    apply andb_true_iff in Hexact as [Hexact _].
    apply andb_true_iff in Hexact as [Hpos Hexact].
    apply andb_true_iff in Hexact as [_ Hexact]. lia. }
  assert (Hu : uint64 n = n) by (unfold uint64; apply Z.mod_small; lia).
  rewrite Hu. set (k := Z.to_nat n).
  assert (Hndk : NoDup (take k ordered).*1).
  { rewrite fmap_take. apply (sublist_NoDup _ _ Hnd (sublist_take _ _)). }
  assert (Hin_take : ∀ g c, (list_to_map (take k ordered) : gmap string Z) !! g = Some c
                            ↔ (g, c) ∈ take k ordered).
  { intros g c. symmetry. by apply elem_of_list_to_map. }
  split.
  { rewrite map_size_list_to_map by exact Hndk. rewrite length_take.
    rewrite Hperm, length_map. reflexivity. }
  split.
  { intros g c Hc. apply Hin_take in Hc.
    assert (Hin : (g, c) ∈ ordered).
    { rewrite <- (take_drop k ordered). apply elem_of_app. by left. }
    rewrite Hperm in Hin. apply elem_of_group_rows in Hin as [Hin ->].
    split; [by apply elem_of_groups_of|reflexivity]. }
  intros g c g' Hc Hnone Hgroup. apply Hin_take in Hc.
  set (c' := group_count weight (clock r) ctx filters aggreg g' (jobTable r)).
  assert (Hin : (g', c') ∈ ordered).
  { rewrite Hperm. apply elem_of_group_rows. split; [|reflexivity].
    by apply elem_of_groups_of. }
  rewrite <- (take_drop k ordered) in Hin, Hsorted.
  apply elem_of_app in Hin as [Hin|Hin].
  - apply Hin_take in Hin. congruence.
  - apply (StronglySorted_app_1_elem_of _ _ _ (g, c) (g', c') Hsorted Hc Hin).
Qed.

End CountingProperties.

Lemma CountGroupedJobs_counts_witness :
  ∃ counts r',
    @CountGroupedJobs wildcard_engine merge_order (request root) model.AggregateUser []
      (Some WeightsNodeCount) None (repository "sqlite3" 10000 finished_jobs [])
    = (Ok counts, r')
    ∧ counts !! "alice" = Some 3%Z
    ∧ counts !! "bob" = Some 2%Z
    ∧ counts !! "carol" = None.
Proof.
  destruct (@CountGroupedJobs wildcard_engine merge_order (request root) model.AggregateUser []
              (Some WeightsNodeCount) None (repository "sqlite3" 10000 finished_jobs []))
    as [res r'] eqn:Hrun.
  assert (Hres : ∃ counts, res = Ok counts)
    by (vm_compute in Hrun; injection Hrun as <- _; eauto).
  destruct Hres as [counts ->].
  assert (Hexact : counts_exact (Some WeightsNodeCount) 10000 None
                     (List.filter (selected (request root) []) finished_jobs) = true)
    by (vm_compute; reflexivity).
  destruct (@CountGroupedJobs_counts wildcard_engine merge_order (request root)
              model.AggregateUser [] (Some WeightsNodeCount)
              (repository "sqlite3" 10000 finished_jobs []) _ _ Hexact Hrun)
    as (_ & Hcounts & _).
  exists counts, r'. split; [reflexivity|].
  rewrite !Hcounts. repeat split; reflexivity.
Defined.

Lemma CountGroupedJobs_limit_witness :
  ∃ counts r',
    @CountGroupedJobs wildcard_engine merge_order (request root) model.AggregateCluster [] None (Some 1%Z)
      (repository "sqlite3" 10000 finished_jobs [])
    = (Ok counts, r')
    ∧ size counts = 1%nat
    ∧ counts !! "emmy" = Some 3%Z.
Proof.
  destruct (@CountGroupedJobs wildcard_engine merge_order (request root) model.AggregateCluster [] None
              (Some 1%Z) (repository "sqlite3" 10000 finished_jobs []))
    as [res r'] eqn:Hrun.
  assert (Hres : ∃ counts, res = Ok counts ∧ counts !! "emmy" = Some 3%Z).
  { vm_compute in Hrun. injection Hrun as <- _. eexists. split; [reflexivity|].
    vm_compute. reflexivity. }
  destruct Hres as (counts & -> & Hemmy).
  assert (Hexact : counts_exact None 10000 (Some 1%Z)
                     (List.filter (selected (request root) []) finished_jobs) = true)
    by (vm_compute; reflexivity).
  destruct (@CountGroupedJobs_limit wildcard_engine merge_order (request root)
              model.AggregateCluster [] None 1%Z
              (repository "sqlite3" 10000 finished_jobs []) _ _ Hexact Hrun)
    as (Hsize & _ & _).
  exists counts, r'. split; [reflexivity|]. split; [|exact Hemmy].
  rewrite Hsize. reflexivity.
Defined.

(** ** Search terms that are integers *)

Lemma pretty_N_char_digit (d : N) :
  (d < 10)%N →
  is_digit (pretty_N_char d) = true
  ∧ (Z.of_nat (nat_of_ascii (pretty_N_char d)) - 48 = Z.of_N d)%Z.
Proof.
  intros Hd.
  assert (d = 0 ∨ d = 1 ∨ d = 2 ∨ d = 3 ∨ d = 4 ∨ d = 5 ∨ d = 6 ∨ d = 7 ∨ d = 8 ∨ d = 9)%N
    as Hcases by lia.
  repeat (destruct Hcases as [->|Hcases]; [split; reflexivity|]).
  subst d. split; reflexivity.
Qed.

(** The digits that [pretty] writes in front of a string of digits. *)
Lemma pretty_N_go_digits (x : N) (s : string) (v : Z) :
  (∀ acc, digits_value acc s = Some (acc * 10 ^ Z.of_nat (String.length s) + v)%Z) →
  ∀ acc, digits_value acc (pretty_N_go x s)
         = Some (acc * 10 ^ Z.of_nat (String.length (pretty_N_go x s))
                 + (Z.of_N x * 10 ^ Z.of_nat (String.length s) + v))%Z.
Proof.
  revert s v. induction (N.lt_wf_0 x) as [x _ IH]. intros s v Hs acc.
  destruct (N.eq_0_gt_0_cases x) as [->|Hpos].
  { rewrite pretty_N_go_0, Hs. apply (f_equal Some). lia. }
  rewrite pretty_N_go_step by exact Hpos.
  assert (Hd : (x `mod` 10 < 10)%N) by (apply N.mod_lt; lia).
  destruct (pretty_N_char_digit _ Hd) as [Hdigit Hvalue].
  rewrite (IH (x `div` 10)%N) with
    (v := (Z.of_N (x `mod` 10) * 10 ^ Z.of_nat (String.length s) + v)%Z).
  - apply (f_equal Some). rewrite <- pretty_N_go_step by exact Hpos.
    cbn [String.length]. rewrite Nat2Z.inj_succ, Z.pow_succ_r by lia.
    pose proof (N.div_mod x 10 ltac:(lia)) as Hx.
    assert (Hz : Z.of_N x = (10 * Z.of_N (x `div` 10) + Z.of_N (x `mod` 10))%Z) by lia.
    rewrite Hz. ring.
  - apply N.div_lt; lia.
  - intros acc'. cbn [digits_value String.length]. rewrite Hdigit, Hvalue, Hs.
    apply (f_equal Some). rewrite Nat2Z.inj_succ, Z.pow_succ_r by lia. ring.
Qed.

Lemma pretty_positive_digits (p : positive) :
  digits_value 0 (pretty_N_go (N.pos p) "") = Some (Z.pos p).
Proof.
  rewrite (pretty_N_go_digits (N.pos p) "" 0).
  - apply (f_equal Some). cbn [String.length Z.of_nat]. lia.
  - intros acc. cbn. apply (f_equal Some). lia.
Qed.

Lemma digits_value_head (acc : Z) (a : ascii) (s : string) (v : Z) :
  digits_value acc (String a s) = Some v → is_digit a = true.
Proof. cbn. destruct (is_digit a); [reflexivity|discriminate]. Qed.

Lemma Atoi_unsigned (a : ascii) (s : string) :
  is_digit a = true →
  Atoi (String a s)
  = match digits_value 0 (String a s) with
    | Some v =>
        if ((- 2 ^ 63 <=? 1 * v) && (1 * v <=? 2 ^ 63 - 1))%Z then Some (1 * v)%Z else None
    | None => None
    end.
Proof.
  destruct a as [[] [] [] [] [] [] [] []]; try discriminate; intros _; reflexivity.
Qed.

Lemma Atoi_pretty (z : Z) : (- 2 ^ 63 ≤ z < 2 ^ 63)%Z → Atoi (pretty z) = Some z.
Proof.
  intros Hz. destruct z as [|p|p].
  - reflexivity.
  - unfold pretty, pretty_Z, pretty, pretty_positive, pretty, pretty_N.
    rewrite decide_False by done.
    pose proof (pretty_positive_digits p) as Hd.
    destruct (pretty_N_go (N.pos p) "") as [|a s] eqn:Hs; [discriminate|].
    rewrite (Atoi_unsigned a s (digits_value_head _ _ _ _ Hd)), Hd.
    rewrite Z.mul_1_l.
    destruct (Z.leb_spec (- 2 ^ 63) (Z.pos p)); [|lia].
    destruct (Z.leb_spec (Z.pos p) (2 ^ 63 - 1)); [reflexivity|lia].
  - unfold pretty, pretty_Z, pretty, pretty_positive, pretty, pretty_N.
    rewrite decide_False by done.
    pose proof (pretty_positive_digits p) as Hd.
    change ("-" +:+ pretty_N_go (N.pos p) "") with (String "-" (pretty_N_go (N.pos p) "")).
    destruct (pretty_N_go (N.pos p) "") as [|a s] eqn:Hs; [discriminate|].
    cbn [Atoi]. rewrite Hd.
    replace (-1 * Z.pos p)%Z with (Z.neg p) by lia.
    destruct (Z.leb_spec (- 2 ^ 63) (Z.neg p)); [|lia].
    destruct (Z.leb_spec (Z.neg p) (2 ^ 63 - 1)); [reflexivity|lia].
Qed.

(** X21.  A search term that is the decimal form of an integer of the
    64-bit range is recognised by [strconv.Atoi], and
    [FindUserOrProjectOrJobname] answers it with three empty strings
    without an error: no statement is executed and the identity of the
    caller is not looked at. *)
Theorem FindUserOrProjectOrJobname_integer_term
    {engine : SqlEngine} (ctx : Context) (z : Z) (r : JobRepository) :
  (- 2 ^ 63 ≤ z < 2 ^ 63)%Z →
  Atoi (pretty z) = Some z
  ∧ FindUserOrProjectOrJobname ctx (pretty z) r = (Ok ("", "", ""), r).
Proof.
  intros Hz. pose proof (Atoi_pretty z Hz) as Hatoi. split; [exact Hatoi|].
  unfold FindUserOrProjectOrJobname. rewrite Hatoi. reflexivity.
Qed.

Lemma FindUserOrProjectOrJobname_integer_term_witness :
  Atoi "-4711" = Some (-4711)%Z
  ∧ @FindUserOrProjectOrJobname wildcard_engine {| ctxUser := None; ctxFields := [] |}
      "-4711" (repository "sqlite3" 10000 finished_jobs [])
    = (Ok ("", "", ""), repository "sqlite3" 10000 finished_jobs []).
Proof.
  apply (@FindUserOrProjectOrJobname_integer_term wildcard_engine
           {| ctxUser := None; ctxFields := [] |} (-4711)
           (repository "sqlite3" 10000 finished_jobs [])).
  lia.
Defined.

(** ** Operations that only read *)

Section OnlyReads.
Context {engine : SqlEngine} {runtime : GoRuntime} {configuration : Config}
        {order : OrderEngine}.

Lemma only_reads_refl r : only_reads r r.
Proof. exists []. split; [|constructor]. rewrite app_nil_r. by destruct r. Qed.

Lemma only_reads_trans r1 r2 r3 : only_reads r1 r2 → only_reads r2 r3 → only_reads r1 r3.
Proof.
  intros (log1 & -> & H1) (log2 & -> & H2). exists (log1 ++ log2)%list. split.
  - cbn. by rewrite app_assoc.
  - by apply Forall_app.
Qed.

Lemma read_only_ret {A} (a : A) : read_only (ret a).
Proof. intros r. apply only_reads_refl. Qed.

Lemma read_only_fail {A} e : read_only (@fail A e).
Proof. intros r. apply only_reads_refl. Qed.

Lemma read_only_panic {A} : read_only (@panic A).
Proof. intros r. apply only_reads_refl. Qed.

Lemma read_only_get : read_only get.
Proof. intros r. apply only_reads_refl. Qed.

Lemma read_only_lift {A} (o : outcome A) : read_only (lift o).
Proof. intros r. apply only_reads_refl. Qed.

Lemma read_only_exec table : read_only (exec (StmtSelect table)).
Proof.
  intros r. exists [StmtSelect table]. split; [reflexivity|].
  constructor; [eauto|constructor].
Qed.

Lemma read_only_bind {A B} (m : M A) (k : A → M B) :
  read_only m → (∀ a, read_only (k a)) → read_only (bind m k).
Proof.
  intros Hm Hk r. specialize (Hm r). unfold bind.
  destruct (m r) as [[a|e|] r1]; cbn [snd] in *; [|exact Hm..].
  eapply only_reads_trans; [exact Hm|apply Hk].
Qed.

Lemma read_only_for_range {A S} (l : list A) (body : A → S → M S) s :
  (∀ a s, read_only (body a s)) → read_only (for_range l body s).
Proof.
  intros Hbody. revert s. induction l as [|a l IH]; intros s.
  - apply read_only_ret.
  - cbn [for_range]. apply read_only_bind; [apply Hbody|exact IH].
Qed.

Lemma read_only_ignore_error (m : M string) : read_only m → read_only (ignore_error m).
Proof.
  intros Hm r. specialize (Hm r). unfold ignore_error.
  by destruct (m r) as [[a|e|] r1].
Qed.

Ltac read_only_step :=
  first
    [ apply read_only_ret | apply read_only_fail | apply read_only_panic
    | apply read_only_get | apply read_only_lift | apply read_only_exec
    | apply read_only_bind; [|intros ?]
    | apply read_only_ignore_error
    | apply read_only_for_range; intros ? ?
    | match goal with
      | |- read_only (match ?x with _ => _ end) => destruct x
      | |- read_only (if ?b then _ else _) => destruct b
      end ].

Lemma read_only_scanJob row : read_only (scanJob row).
Proof. unfold scanJob. repeat read_only_step. Qed.

Lemma read_only_scan_rows rows : read_only (scan_rows rows).
Proof.
  induction rows as [|row rows IH]; cbn [scan_rows]; [apply read_only_ret|].
  apply read_only_bind; [apply read_only_scanJob|intros job].
  apply read_only_bind; [exact IH|intros jobs]. apply read_only_ret.
Qed.

Lemma read_only_Find jobId cluster' startTime : read_only (Find jobId cluster' startTime).
Proof.
  unfold Find. destruct jobId; [|apply read_only_panic].
  repeat first [apply read_only_scanJob | read_only_step].
Qed.

Lemma read_only_FindAll jobId cluster' startTime :
  read_only (FindAll jobId cluster' startTime).
Proof.
  unfold FindAll. destruct jobId; [|apply read_only_panic].
  repeat first [apply read_only_scan_rows | read_only_step].
Qed.

Lemma read_only_FindById jobId : read_only (FindById jobId).
Proof. unfold FindById. repeat first [apply read_only_scanJob | read_only_step]. Qed.

Lemma read_only_FindColumnValue user searchterm table sel whr isLike :
  read_only (FindColumnValue user searchterm table sel whr isLike).
Proof. unfold FindColumnValue. cbv zeta. repeat read_only_step. Qed.

Lemma read_only_FindColumnValues user query table sel whr :
  read_only (FindColumnValues user query table sel whr).
Proof. unfold FindColumnValues. repeat read_only_step. Qed.

Lemma read_only_FindUserOrProjectOrJobname ctx searchterm :
  read_only (FindUserOrProjectOrJobname ctx searchterm).
Proof.
  unfold FindUserOrProjectOrJobname.
  repeat first [apply read_only_FindColumnValue | read_only_step].
Qed.

Lemma read_only_subcluster_stats ctx filter groupBy castType c sc stats :
  read_only (subcluster_stats ctx filter groupBy castType c sc stats).
Proof. unfold subcluster_stats. cbv zeta. repeat read_only_step. Qed.

Lemma read_only_cluster_stats ctx filter groupBy castType stats :
  read_only (cluster_stats ctx filter groupBy castType stats).
Proof.
  unfold cluster_stats. apply read_only_for_range. intros c s.
  apply read_only_for_range. intros sc s'. apply read_only_subcluster_stats.
Qed.

Lemma read_only_short_jobs ctx filter groupBy stats :
  read_only (short_jobs ctx filter groupBy stats).
Proof. unfold short_jobs. cbv zeta. repeat read_only_step. Qed.

Lemma read_only_user_names ctx groupBy stats : read_only (user_names ctx groupBy stats).
Proof.
  unfold user_names. cbv zeta.
  repeat first [apply read_only_FindColumnValue | read_only_step].
Qed.

Lemma read_only_jobsStatisticsHistogram ctx value filters id' col :
  read_only (jobsStatisticsHistogram ctx value filters id' col).
Proof. unfold jobsStatisticsHistogram. cbv zeta. repeat read_only_step. Qed.

Lemma read_only_with_histograms ctx filter groupBy castType stat :
  read_only (with_histograms ctx filter groupBy castType stat).
Proof.
  unfold with_histograms. cbv zeta.
  repeat first [apply read_only_jobsStatisticsHistogram | read_only_step].
Qed.

Lemma read_only_collect_stats ctx filter groupBy castType stats :
  read_only (collect_stats ctx filter groupBy castType stats).
Proof.
  induction stats as [|stat stats IH]; cbn [collect_stats]; [apply read_only_ret|].
  apply read_only_bind; [apply read_only_with_histograms|intros stat'].
  apply read_only_bind; [exact IH|intros res]. apply read_only_ret.
Qed.

Lemma read_only_JobsStatistics ctx filter groupBy :
  read_only (JobsStatistics ctx filter groupBy).
Proof.
  unfold JobsStatistics. cbv zeta.
  repeat first [ apply read_only_cluster_stats | apply read_only_short_jobs
               | apply read_only_user_names | apply read_only_collect_stats
               | read_only_step ].
Qed.

Lemma read_only_CountGroupedJobs ctx aggreg filters weight limit :
  read_only (CountGroupedJobs ctx aggreg filters weight limit).
Proof. unfold CountGroupedJobs. cbv zeta. repeat read_only_step. Qed.

(** X22.  The query operations only read: however a call of [Find],
    [FindAll], [FindById], [FindColumnValue], [FindColumnValues],
    [FindUserOrProjectOrJobname], [CountGroupedJobs] or [JobsStatistics]
    ends, with a value, an error or a panic, it has executed [SELECT]
    statements only, and the job table, the user table, the result cache,
    the decoded metadata maps and the archiving queue are as before. *)
Theorem queries_only_read (r : JobRepository) :
  (∀ jobId cluster' startTime,
     only_reads r (snd (Find jobId cluster' startTime r))
     ∧ only_reads r (snd (FindAll jobId cluster' startTime r)))
  ∧ (∀ jobId, only_reads r (snd (FindById jobId r)))
  ∧ (∀ user searchterm table selectColumn whereColumn isLike,
       only_reads r (snd (FindColumnValue user searchterm table selectColumn
                            whereColumn isLike r))
       ∧ only_reads r (snd (FindColumnValues user searchterm table selectColumn
                              whereColumn r)))
  ∧ (∀ ctx searchterm, only_reads r (snd (FindUserOrProjectOrJobname ctx searchterm r)))
  ∧ (∀ ctx aggreg filters weight limit,
       only_reads r (snd (CountGroupedJobs ctx aggreg filters weight limit r)))
  ∧ (∀ ctx filter groupBy, only_reads r (snd (JobsStatistics ctx filter groupBy r)))
  ∧ (∀ r', only_reads r r' →
       jobTable r' = jobTable r ∧ userTable r' = userTable r ∧ cache r' = cache r
       ∧ mapHeap r' = mapHeap r ∧ archiveChannel r' = archiveChannel r
       ∧ archivePending r' = archivePending r).
Proof.
  split; [intros; split; [apply read_only_Find|apply read_only_FindAll]|].
  split; [intros; apply read_only_FindById|].
  split; [intros; split; [apply read_only_FindColumnValue|apply read_only_FindColumnValues]|].
  split; [intros; apply read_only_FindUserOrProjectOrJobname|].
  split; [intros; apply read_only_CountGroupedJobs|].
  split; [intros; apply read_only_JobsStatistics|].
  intros r' (log & -> & _). by repeat split.
Qed.

End OnlyReads.

(** ** Histograms *)

Section HistogramProperties.

Lemma count_values_filter (P : Z → bool) (l : list Z) :
  sumZ (List.map model.Count (List.filter (λ p, P (model.Value p)) (count_values l)))
  = Z.of_nat (List.length (List.filter P l)).
Proof.
  revert P. induction l as [|v l IH]; intros P; [reflexivity|].
  cbn [count_values]. cbn [List.filter model.Value].
  assert (Hrest : sumZ (List.map model.Count
                          (List.filter (λ p, P (model.Value p))
                             (List.filter (λ p, negb (model.Value p =? v)%Z)
                                (count_values l))))
                  = Z.of_nat (List.length
                                (List.filter (λ w, negb (w =? v)%Z && P w) l))).
  { rewrite filter_filter_and. apply (IH (λ w, negb (w =? v)%Z && P w)). }
  assert (Hsplit : ∀ l0 : list Z, P v = true →
            (List.length (List.filter (λ w, (w =? v)%Z) l0)
             + List.length (List.filter (λ w, negb (w =? v)%Z && P w) l0)
             = List.length (List.filter P l0))%nat).
  { intros l0 Hv. induction l0 as [|w l0 IH0]; [reflexivity|]. cbn [List.filter].
    destruct (Z.eqb_spec w v) as [->|Hne]; cbn [negb andb].
    - rewrite Hv. cbn [List.length]. lia.
    - destruct (P w); cbn [List.length]; lia. }
  assert (Hskip : ∀ l0 : list Z, P v = false →
            List.filter (λ w, negb (w =? v)%Z && P w) l0 = List.filter P l0).
  { intros l0 Hv. apply filter_ext_eq. intros w.
    destruct (Z.eqb_spec w v) as [->|Hne]; cbn [negb andb]; [by rewrite Hv|reflexivity]. }
  destruct (P v) eqn:Hv.
  - cbn [List.map model.Count]. rewrite sumZ_cons, Hrest. cbn [List.filter].
    rewrite Z.eqb_refl. cbn [List.length].
    pose proof (Hsplit l eq_refl). lia.
  - rewrite Hrest, (Hskip l eq_refl). reflexivity.
Qed.

Lemma count_values_total (l : list Z) :
  sumZ (List.map model.Count (count_values l)) = Z.of_nat (List.length l).
Proof.
  pose proof (count_values_filter (λ _, true) l) as H.
  rewrite (filter_all (λ _ : Z, true) l) in H by (by apply Forall_forall).
  rewrite (filter_all (λ p : model.HistoPoint, true)) in H by (by apply Forall_forall).
  exact H.
Qed.

Lemma count_values_point (l : list Z) (p : model.HistoPoint) :
  p ∈ count_values l →
  model.Count p = Z.of_nat (List.length (List.filter (λ w, (w =? model.Value p)%Z) l))
  ∧ model.Value p ∈ l.
Proof.
  induction l as [|v l IH]; [by intros ?%elem_of_nil|].
  cbn [count_values]. intros [->|Hin]%elem_of_cons.
  - cbn [model.Count model.Value]. split; [reflexivity|apply list_elem_of_here].
  - apply elem_of_filter_bool in Hin as [Hne Hin].
    destruct (IH Hin) as [Hcount Hmem]. split; [|by apply list_elem_of_further].
    rewrite Hcount. cbn [List.filter].
    apply negb_true_iff in Hne. rewrite Z.eqb_sym in Hne. by rewrite Hne.
Qed.

Lemma count_values_NoDup (l : list Z) : NoDup (List.map model.Value (count_values l)).
Proof.
  induction l as [|v l IH]; [constructor|].
  cbn [count_values List.map model.Value]. constructor.
  - intros Hin. apply list_elem_of_In, in_map_iff in Hin as (p & Hv & Hp).
    apply list_elem_of_In, elem_of_filter_bool in Hp as [Hne _].
    rewrite Hv, Z.eqb_refl in Hne. discriminate.
  - clear -IH. induction (count_values l) as [|p ps IHps]; [constructor|].
    cbn [List.map] in IH. apply NoDup_cons in IH as [Hp Hps].
    cbn [List.filter]. destruct (negb _); [|by apply IHps].
    cbn [List.map]. constructor; [|by apply IHps].
    intros Hin. apply Hp. apply list_elem_of_In, in_map_iff in Hin as (p' & Hv & Hin).
    apply list_elem_of_In, elem_of_filter_bool in Hin as [_ Hin].
    rewrite <- Hv. apply list_elem_of_In, in_map, list_elem_of_In, Hin.
Qed.

Lemma count_values_covers (l : list Z) (v : Z) :
  v ∈ l → ∃ p, p ∈ count_values l ∧ model.Value p = v.
Proof.
  induction l as [|w l IH]; [by intros ?%elem_of_nil|].
  intros Hin. cbn [count_values].
  destruct (decide (v = w)) as [->|Hne].
  - eexists. split; [apply list_elem_of_here|reflexivity].
  - apply elem_of_cons in Hin as [?|Hin]; [contradiction|].
    destruct (IH Hin) as (p & Hp & Hv). exists p. split; [|exact Hv].
    apply list_elem_of_further, elem_of_filter_bool. split; [|exact Hp].
    apply negb_true_iff, Z.eqb_neq. congruence.
Qed.

Lemma values_of_rows (value : HistogramValue) (rows : list JobRow) (values : list Z) :
  Forall2 (λ row v, histogram_value value row = Ok v) rows values →
  List.length values = List.length rows
  ∧ (∀ v, List.length (List.filter (λ w, (w =? v)%Z) values)
          = List.length (rows_with_value value v rows))
  ∧ (∀ v, v ∈ values → ∃ row, row ∈ rows ∧ histogram_value value row = Ok v)
  ∧ (∀ row, row ∈ rows → ∃ v, v ∈ values ∧ histogram_value value row = Ok v).
Proof.
  induction 1 as [|row v rows values Hrow _ (IH1 & IH2 & IH3 & IH4)].
  - repeat split; try done; intros ? ?%elem_of_nil; done.
  - split; [cbn; lia|]. split.
    + intros v'. unfold rows_with_value. cbn [List.filter]. rewrite Hrow.
      destruct (v =? v')%Z; cbn [List.length]; by rewrite IH2.
    + split.
      * intros v' [->|Hin]%elem_of_cons.
        -- exists row. split; [apply list_elem_of_here|exact Hrow].
        -- destruct (IH3 v' Hin) as (row' & Hin' & Hrow').
           exists row'. split; [by apply list_elem_of_further|exact Hrow'].
      * intros row' [->|Hin]%elem_of_cons.
        -- exists v. split; [apply list_elem_of_here|exact Hrow].
        -- destruct (IH4 row' Hin) as (v' & Hin' & Hrow').
           exists v'. split; [by apply list_elem_of_further|exact Hrow'].
Qed.

(** X23.  The points of a histogram: every value occurs once, the count
    of a point is the number of jobs with that value among the jobs the
    histogram ranges over, so it is at least 1; every such job is counted
    at exactly one point, and the counts add up to the number of these
    jobs. *)
Theorem jobsStatisticsHistogram_points
    (ctx : Context) (value : HistogramValue) (filters : list JobFilter)
    (id' col : string) (r : JobRepository)
    (points : list model.HistoPoint) (r' : JobRepository) :
  jobsStatisticsHistogram ctx value filters id' col r = (Ok points, r') →
  NoDup (List.map model.Value points)
  ∧ (∀ p, p ∈ points →
          model.Count p
          = Z.of_nat (List.length
                        (rows_with_value value (model.Value p)
                           (histogram_rows ctx filters id' col (jobTable r))))
          ∧ (1 ≤ model.Count p)%Z)
  ∧ (∀ row, row ∈ histogram_rows ctx filters id' col (jobTable r) →
            ∃ p, p ∈ points ∧ histogram_value value row = Ok (model.Value p))
  ∧ sumZ (List.map model.Count points)
    = Z.of_nat (List.length (histogram_rows ctx filters id' col (jobTable r))).
Proof.
  unfold jobsStatisticsHistogram. unfold bind at 1, lift.
  destruct (SecurityCheck ctx _) as [q| |] eqn:Hq; try discriminate.
  unfold bind at 1, exec, modify.
  assert (Hsel : ∀ row, apply_filters filters q row = selected ctx filters row).
  { intros row. rewrite apply_filters_spec, (SecurityCheck_spec _ _ _ Hq). reflexivity. }
  destruct (if (negb (String.length id' =? 0)%nat && negb (String.length col =? 0)%nat)%bool
            then _ else _) as [query|] eqn:Hquery; [|discriminate].
  destruct (histogram_value_valid value); cbn [negb]; [|discriminate].
  unfold bind at 1, get. unfold bind at 1, lift.
  change (jobTable (set_executed ?e r)) with (jobTable r).
  destruct (outcome_mapM _ _) as [values| |] eqn:Hvalues; try discriminate.
  unfold ret. intros [= <- <-].
  assert (Hrows : List.filter query (jobTable r)
                  = histogram_rows ctx filters id' col (jobTable r)).
  { unfold histogram_rows. apply filter_ext_eq. intros row.
    destruct (negb (String.length id' =? 0)%nat && negb (String.length col =? 0)%nat)%bool.
    - destruct (column_key col) as [key|]; [|discriminate].
      injection Hquery as <-. by rewrite Hsel.
    - injection Hquery as <-. by rewrite Hsel, andb_true_r. }
  rewrite Hrows in Hvalues. apply outcome_mapM_Ok in Hvalues.
  destruct (values_of_rows _ _ _ Hvalues) as (Hlen & Hcount & Hback & Hforth).
  split; [apply count_values_NoDup|]. split.
  { intros p Hp. destruct (count_values_point _ _ Hp) as [Hc Hmem].
    rewrite Hc, Hcount. split; [reflexivity|].
    destruct (Hback _ Hmem) as (row & Hrow & Hv).
    assert (Hin : row ∈ rows_with_value value (model.Value p)
                          (histogram_rows ctx filters id' col (jobTable r))).
    { apply elem_of_filter_bool. split; [|exact Hrow]. rewrite Hv. apply Z.eqb_refl. }
    destruct (rows_with_value _ _ _); [by apply elem_of_nil in Hin|]. cbn. lia. }
  split.
  { intros row Hrow. destruct (Hforth row Hrow) as (v & Hv & Hval).
    destruct (count_values_covers _ _ Hv) as (p & Hp & <-). eauto. }
  by rewrite count_values_total, Hlen.
Qed.

End HistogramProperties.

Lemma jobsStatisticsHistogram_points_witness :
  ∃ points r',
    jobsStatisticsHistogram (request root) ValueNumNodes [] "" ""
      (repository "sqlite3" 10000 finished_jobs []) = (Ok points, r')
    ∧ List.map (λ p, (model.Value p, model.Count p)) points = [(2%Z, 1%Z); (1%Z, 3%Z)]
    ∧ sumZ (List.map model.Count points) = 4%Z.
Proof.
  destruct (jobsStatisticsHistogram (request root) ValueNumNodes [] "" ""
              (repository "sqlite3" 10000 finished_jobs [])) as [res r'] eqn:Hrun.
  assert (Hres : ∃ points, res = Ok points
            ∧ List.map (λ p, (model.Value p, model.Count p)) points
              = [(2%Z, 1%Z); (1%Z, 3%Z)]).
  { vm_compute in Hrun. injection Hrun as <- _. eexists. split; reflexivity. }
  destruct Hres as (points & -> & Hpoints).
  destruct (jobsStatisticsHistogram_points _ _ _ _ _ _ _ _ Hrun) as (_ & _ & _ & Hsum).
  exists points, r'. split; [reflexivity|]. split; [exact Hpoints|].
  rewrite Hsum. reflexivity.
Defined.

(** ** The totals of the statistics *)

Section StatisticsCounts.
Context {engine : SqlEngine} {configuration : Config}.

(** The entries of the statistics map after the rows of one query have
    been merged, for rows with distinct group ids. *)
Lemma merge_stats_fold_counts (J W : string → Z) keys rows stats :
  NoDup keys →
  Forall2 (λ g row, ∃ c, row = (g, J g, W g, c)) keys rows →
  ∀ g, match fold_left merge_stats rows stats !! g with
       | Some st' =>
           match stats !! g with
           | Some st =>
               model.ID st' = model.ID st
               ∧ model.TotalJobs st'
                 = (if decide (g ∈ keys) then go_int (model.TotalJobs st + J g)
                    else model.TotalJobs st)
               ∧ model.TotalWalltime st'
                 = (if decide (g ∈ keys) then go_int (model.TotalWalltime st + W g)
                    else model.TotalWalltime st)
               ∧ model.ShortJobs st' = model.ShortJobs st
           | None =>
               g ∈ keys ∧ model.ID st' = g ∧ model.TotalJobs st' = go_int (J g)
               ∧ model.TotalWalltime st' = go_int (W g) ∧ model.ShortJobs st' = 0%Z
           end
       | None => (g ∉ keys) ∧ stats !! g = None
       end.
Proof.
  intros Hnd Hrows. revert stats.
  induction Hrows as [|k row keys rows (c & ->) _ IH]; intros stats g.
  - cbn [fold_left]. destruct (stats !! g) as [st|] eqn:Hg.
    + rewrite !decide_False by apply not_elem_of_nil. by repeat split.
    + split; [apply not_elem_of_nil|done].
  - apply NoDup_cons in Hnd as [Hk Hnd]. cbn [fold_left].
    specialize (IH Hnd (merge_stats stats (k, J k, W k, c)) g).
    destruct (decide (g = k)) as [->|Hne].
    + destruct (fold_left merge_stats rows _ !! k) as [st'|].
      * unfold merge_stats in IH.
        destruct (stats !! k) as [st|] eqn:Hst; rewrite lookup_insert_eq in IH;
          cbn [model.ID model.TotalJobs model.TotalWalltime model.ShortJobs] in IH;
          rewrite !decide_False in IH by done;
          destruct IH as (-> & -> & -> & ->).
        -- rewrite !decide_True by apply list_elem_of_here.
           repeat split; try done; apply go_int_add_r.
        -- split; [apply list_elem_of_here|]. by repeat split.
      * destruct IH as [_ IH]. unfold merge_stats in IH.
        destruct (stats !! k); rewrite lookup_insert_eq in IH; discriminate.
    + assert (Hother : merge_stats stats (k, J k, W k, c) !! g = stats !! g).
      { unfold merge_stats. destruct (stats !! k); by rewrite lookup_insert_ne. }
      rewrite Hother in IH.
      assert (Hin : g ∈ k :: keys ↔ g ∈ keys) by (rewrite elem_of_cons; tauto).
      destruct (fold_left merge_stats rows _ !! g) as [st'|].
      * destruct (stats !! g) as [st|].
        -- destruct IH as (-> & -> & -> & ->).
           destruct (decide (g ∈ keys)); [rewrite !decide_True by tauto
                                         |rewrite !decide_False by tauto]; done.
        -- destruct IH as (? & ? & ? & ? & ?). tauto.
      * destruct IH as [? ?]. tauto.
Qed.

Lemma subcluster_group_query ctx filter c sc q groupBy g rows :
  SecurityCheck ctx (λ row, String.eqb (cluster row) (archive.ClusterName c)
                            && String.eqb (subcluster row) (archive.SubClusterName sc)) = Ok q →
  List.filter (λ row, String.eqb (group_key groupBy row) g)
    (List.filter (apply_filters filter q) rows)
  = subcluster_group_jobs ctx filter (group_key groupBy) g rows (c, sc).
Proof.
  intros Hq. unfold subcluster_group_jobs. rewrite filter_filter_and.
  apply filter_ext_eq. intros row. cbn [fst snd].
  by rewrite (subcluster_query_spec ctx filter c sc q Hq).
Qed.

(** The rows of the statistics query of one subcluster, by group, in the
    exact fragment. *)
Lemma stats_query_rows ctx filter groupBy castType c sc q rows res :
  SecurityCheck ctx (λ row, String.eqb (cluster row) (archive.ClusterName c)
                            && String.eqb (subcluster row) (archive.SubClusterName sc)) = Ok q →
  stats_rows groupBy castType (archive.SocketsPerNode sc) (archive.CoresPerSocket sc)
    (List.filter (apply_filters filter q) rows) = Ok res →
  ∃ keys,
    NoDup keys
    ∧ Forall2 (λ g row, ∃ ch,
                 row = (g, subcluster_job_count ctx filter (group_key groupBy) g rows (c, sc),
                        subcluster_walltime castType ctx filter (group_key groupBy) g rows
                          (c, sc), ch)) keys res
    ∧ (∀ g, g ∉ keys →
            subcluster_group_jobs ctx filter (group_key groupBy) g rows (c, sc) = []).
Proof.
  intros Hq Hres. unfold stats_rows in Hres.
  assert (Hrow : ∀ g row,
    aggregate_row castType (archive.SocketsPerNode sc) (archive.CoresPerSocket sc) g
      (List.filter (λ row, String.eqb (group_key groupBy row) g)
         (List.filter (apply_filters filter q) rows)) = Ok row →
    ∃ ch, row = (g, subcluster_job_count ctx filter (group_key groupBy) g rows (c, sc),
                 subcluster_walltime castType ctx filter (group_key groupBy) g rows (c, sc),
                 ch)).
  { intros g row Hrow. unfold aggregate_row in Hrow.
    rewrite (subcluster_group_query _ _ _ _ _ groupBy g rows Hq) in Hrow.
    destruct (cast_round castType (sumZ (List.map duration _))) as [w| |] eqn:Hw;
      try discriminate. cbn [outcome_bind] in Hrow.
    destruct (cast_round castType (sumZ (List.map (core_seconds _ _) _))) as [ch| |];
      try discriminate. cbn [outcome_bind] in Hrow.
    injection Hrow as <-. exists ch. apply cast_round_Ok in Hw. rewrite Hw.
    reflexivity. }
  destruct groupBy as [a|].
  - rewrite column_key_aggregate in Hres. apply outcome_mapM_Ok in Hres.
    exists (distinct (List.map (aggregate_key a) (List.filter (apply_filters filter q) rows))).
    split; [apply NoDup_distinct|]. split.
    + eapply Forall2_impl; [exact Hres|]. intros g row Hg. by apply (Hrow g row).
    + intros g Hg. rewrite elem_of_distinct in Hg.
      rewrite <- (subcluster_group_query _ _ _ _ _ (Some a) g rows Hq).
      by apply filter_key_absent.
  - exists [""]. split; [apply NoDup_singleton|].
    destruct (aggregate_row _ _ _ _ _) as [row| |] eqn:Hagg; try discriminate.
    injection Hres as <-. split.
    + constructor; [|constructor]. apply (Hrow "" row).
      rewrite filter_all; [exact Hagg|].
      apply Forall_forall. intros ? _. reflexivity.
    + intros g Hg. rewrite <- (subcluster_group_query _ _ _ _ _ None g rows Hq).
      apply filter_none. apply Forall_forall. intros row' _. cbn [group_key].
      apply String.eqb_neq. intros <-. apply Hg, list_elem_of_here.
Qed.

Lemma subcluster_stats_counts ctx filter groupBy castType c sc stats r stats' r' P :
  pair_exact castType ctx filter (jobTable r) (c, sc) = true →
  subcluster_stats ctx filter groupBy castType c sc stats r = (Ok stats', r') →
  counts_upto castType ctx filter (group_key groupBy) (jobTable r) P stats →
  jobTable r' = jobTable r
  ∧ counts_upto castType ctx filter (group_key groupBy) (jobTable r)
      (P ++ [(c, sc)])%list stats'.
Proof.
  intros Hex. rewrite subcluster_stats_run.
  destruct (SecurityCheck ctx _) as [q| |] eqn:Hq; try discriminate.
  rewrite (proj1 (stats_query_exact ctx filter c sc q _ _ _ Hq Hex)).
  destruct (stats_rows _ _ _ _ _) as [rows| |] eqn:Hrows; try discriminate.
  intros [= <- <-] Hinv. split; [reflexivity|].
  destruct (stats_query_rows _ _ _ _ _ _ _ _ _ Hq Hrows) as (keys & Hnd & Hshape & Hnone).
  pose proof (merge_stats_fold_counts
                (λ g, subcluster_job_count ctx filter (group_key groupBy) g (jobTable r) (c, sc))
                (λ g, subcluster_walltime castType ctx filter (group_key groupBy) g
                        (jobTable r) (c, sc))
                keys rows stats Hnd Hshape) as Hfold.
  assert (HJ0 : ∀ g, g ∉ keys →
            subcluster_job_count ctx filter (group_key groupBy) g (jobTable r) (c, sc) = 0%Z).
  { intros g Hg. unfold subcluster_job_count. by rewrite (Hnone g Hg). }
  assert (HW0 : ∀ g, g ∉ keys →
            subcluster_walltime castType ctx filter (group_key groupBy) g (jobTable r) (c, sc)
            = 0%Z).
  { intros g Hg. unfold subcluster_walltime. rewrite (Hnone g Hg). apply engine_round_0. }
  intros g. specialize (Hfold g). specialize (Hinv g). cbv beta in Hfold.
  rewrite !map_app, !sumZ_app. cbn [List.map]. rewrite !sumZ_cons.
  change (sumZ []) with 0%Z. rewrite !Z.add_0_r.
  destruct (fold_left merge_stats rows stats !! g) as [st'|].
  - destruct (stats !! g) as [st|].
    + destruct Hfold as (Hid & HJ & HW & HS). destruct Hinv as (Hid' & HJ' & HW' & HS').
      rewrite Hid, HJ, HW, HS, HJ', HW'. split; [exact Hid'|].
      destruct (decide (g ∈ keys)) as [|Hg].
      * rewrite !go_int_add_l. by repeat split.
      * rewrite (HJ0 g Hg), (HW0 g Hg), !Z.add_0_r. by repeat split.
    + destruct Hfold as (_ & -> & -> & -> & ->). destruct Hinv as [-> ->].
      by repeat split.
  - destruct Hfold as [Hg Hnone']. rewrite Hnone' in Hinv. destruct Hinv as [-> ->].
    rewrite (HJ0 g Hg), (HW0 g Hg). split; lia.
Qed.

Lemma cluster_stats_counts ctx filter groupBy castType r stats r' :
  statistics_exact castType ctx filter (jobTable r) = true →
  cluster_stats ctx filter groupBy castType ∅ r = (Ok stats, r') →
  jobTable r' = jobTable r
  ∧ counts_upto castType ctx filter (group_key groupBy) (jobTable r) config_pairs stats.
Proof.
  unfold cluster_stats, statistics_exact, config_pairs.
  assert (Hinner : ∀ c scs stats0 r0 stats1 r1 P,
    forallb (pair_exact castType ctx filter (jobTable r0)) (List.map (pair c) scs) = true →
    for_range scs (subcluster_stats ctx filter groupBy castType c) stats0 r0
    = (Ok stats1, r1) →
    counts_upto castType ctx filter (group_key groupBy) (jobTable r0) P stats0 →
    jobTable r1 = jobTable r0
    ∧ counts_upto castType ctx filter (group_key groupBy) (jobTable r0)
        (P ++ List.map (pair c) scs)%list stats1).
  { intros c scs. induction scs as [|sc scs IH]; intros stats0 r0 stats1 r1 P Hex Hrun Hinv.
    - injection Hrun as <- <-. cbn [List.map]. by rewrite app_nil_r.
    - cbn [for_range] in Hrun. unfold bind at 1 in Hrun.
      cbn [List.map forallb] in Hex. apply andb_true_iff in Hex as [Hex1 Hex].
      destruct (subcluster_stats _ _ _ _ _ _ _ _) as [[stats2| |] r2] eqn:Hstep;
        try discriminate.
      destruct (subcluster_stats_counts _ _ _ _ _ _ _ _ _ _ P Hex1 Hstep Hinv)
        as [Hjobs Hinv2].
      rewrite <- Hjobs in Hinv2, Hex.
      destruct (IH _ _ _ _ _ Hex Hrun Hinv2) as [Hjobs' Hinv'].
      split; [congruence|]. rewrite Hjobs in Hinv'.
      cbn [List.map]. rewrite <- app_assoc in Hinv'. exact Hinv'. }
  assert (Houter : ∀ cs stats0 r0 stats1 r1 P,
    forallb (pair_exact castType ctx filter (jobTable r0))
      (flat_map (λ c, List.map (pair c) (archive.SubClusters c)) cs) = true →
    for_range cs (λ cluster' stats,
        for_range (archive.SubClusters cluster')
          (subcluster_stats ctx filter groupBy castType cluster') stats) stats0 r0
    = (Ok stats1, r1) →
    counts_upto castType ctx filter (group_key groupBy) (jobTable r0) P stats0 →
    jobTable r1 = jobTable r0
    ∧ counts_upto castType ctx filter (group_key groupBy) (jobTable r0)
        (P ++ flat_map (λ c, List.map (pair c) (archive.SubClusters c)) cs)%list stats1).
  { intros cs. induction cs as [|c cs IH]; intros stats0 r0 stats1 r1 P Hex Hrun Hinv.
    - injection Hrun as <- <-. cbn [flat_map]. by rewrite app_nil_r.
    - cbn [for_range] in Hrun. unfold bind at 1 in Hrun.
      cbn [flat_map] in Hex. rewrite forallb_app in Hex.
      apply andb_true_iff in Hex as [Hex1 Hex].
      destruct (for_range (archive.SubClusters c) _ _ _) as [[stats2| |] r2] eqn:Hin;
        try discriminate.
      destruct (Hinner _ _ _ _ _ _ P Hex1 Hin Hinv) as [Hjobs Hinv2].
      rewrite <- Hjobs in Hinv2, Hex.
      destruct (IH _ _ _ _ _ Hex Hrun Hinv2) as [Hjobs' Hinv'].
      split; [congruence|]. rewrite Hjobs in Hinv'.
      cbn [flat_map]. rewrite <- app_assoc in Hinv'. exact Hinv'. }
  intros Hex Hrun. apply (Houter _ _ _ _ _ [] Hex) in Hrun; [exact Hrun|].
  intros g. rewrite lookup_empty. split; reflexivity.
Qed.

(** The first loop files every entry under its id and counts no short
    jobs, whatever rows the statements deliver. *)
Lemma merge_stats_unset stats row :
  short_jobs_unset stats → short_jobs_unset (merge_stats stats row).
Proof.
  intros H g st. destruct row as [[[k n] w] ch]. unfold merge_stats.
  destruct (stats !! k) as [s|] eqn:Hk; destruct (decide (k = g)) as [->|Hne];
    rewrite ?lookup_insert_eq, ?lookup_insert_ne by done; try apply H.
  - intros [= <-]. exact (H g s Hk).
  - intros [= <-]. by split.
Qed.

Lemma fold_merge_stats_unset rows stats :
  short_jobs_unset stats → short_jobs_unset (fold_left merge_stats rows stats).
Proof.
  revert stats. induction rows as [|row rows IH]; intros stats H; [exact H|].
  cbn [fold_left]. by apply IH, merge_stats_unset.
Qed.

Lemma subcluster_stats_unset ctx filter groupBy castType c sc stats r stats' r' :
  subcluster_stats ctx filter groupBy castType c sc stats r = (Ok stats', r') →
  short_jobs_unset stats → short_jobs_unset stats'.
Proof.
  rewrite subcluster_stats_run.
  destruct (SecurityCheck ctx _) as [q| |]; try discriminate.
  destruct (stats_query _ _ _ _ _ _) as [rows| |]; try discriminate.
  intros [= <- <-]. apply fold_merge_stats_unset.
Qed.

Lemma cluster_stats_unset ctx filter groupBy castType r stats r' :
  cluster_stats ctx filter groupBy castType ∅ r = (Ok stats, r') →
  jobTable r' = jobTable r ∧ short_jobs_unset stats.
Proof.
  unfold cluster_stats. intros Hrun.
  eapply (for_range_invariant (λ s r0, jobTable r0 = jobTable r ∧ short_jobs_unset s));
    [|exact Hrun|].
  - intros c s0 r0 s1 r1 _ Hin HI.
    eapply (for_range_invariant (λ s r0, jobTable r0 = jobTable r ∧ short_jobs_unset s));
      [|exact Hin|exact HI].
    intros sc s2 r2 s3 r3 _ Hstep [Hj Hu]. split.
    + rewrite <- Hj. by eapply subcluster_stats_jobTable.
    + by eapply subcluster_stats_unset.
  - split; [reflexivity|]. intros g st. by rewrite lookup_empty.
Qed.

Lemma keeps_counts_refl stats : keeps_counts stats stats.
Proof.
  intros g. destruct (stats !! g) as [st|]; [|reflexivity].
  exists st. by repeat split.
Qed.

Lemma keeps_counts_trans s1 s2 s3 :
  keeps_counts s1 s2 → keeps_counts s2 s3 → keeps_counts s1 s3.
Proof.
  intros H12 H23 g. specialize (H12 g). specialize (H23 g).
  destruct (s3 !! g) as [st3|].
  - destruct H23 as (st2 & H2 & Ha & Hb & Hc & Hd). rewrite H2 in H12.
    destruct H12 as (st1 & H1 & Ha' & Hb' & Hc' & Hd').
    exists st1. split; [done|]. repeat split; congruence.
  - by rewrite H23 in H12.
Qed.

Lemma user_names_keeps_counts ctx groupBy stats r stats' r' :
  user_names ctx groupBy stats r = (Ok stats', r') → keeps_counts stats stats'.
Proof.
  unfold user_names. destruct groupBy as [a|]; [|intros [= <- <-]; apply keeps_counts_refl].
  case_decide; [|intros [= <- <-]; apply keeps_counts_refl].
  generalize ((map_to_list stats).*1). intros ids. revert stats r.
  induction ids as [|g ids IH]; intros stats r Hrun.
  - injection Hrun as <- <-. apply keeps_counts_refl.
  - cbn [for_range] in Hrun. unfold bind at 1 in Hrun. unfold bind at 1 in Hrun.
    destruct (ignore_error _ r) as [[name'| |] r1]; try discriminate.
    unfold ret at 1 in Hrun.
    eapply keeps_counts_trans; [|exact (IH _ _ Hrun)].
    intros g'. destruct (decide (g = g')) as [<-|Hne].
    + rewrite lookup_alter_eq. destruct (stats !! g) as [st|]; [|reflexivity].
      exists st. by repeat split.
    + rewrite lookup_alter_ne by done. destruct (stats !! g') as [st|]; [|reflexivity].
      exists st. by repeat split.
Qed.

Lemma collect_stats_keeps_counts ctx filter groupBy castType stats r res r' :
  collect_stats ctx filter groupBy castType stats r = (Ok res, r') →
  Forall2 same_counts stats res.
Proof.
  revert r res. induction stats as [|stat stats IH]; intros r res Hrun.
  - injection Hrun as <- <-. constructor.
  - cbn [collect_stats] in Hrun. unfold bind at 1 in Hrun.
    destruct (with_histograms _ _ _ _ _ _) as [[stat'| |] r1] eqn:Hh; try discriminate.
    unfold bind at 1 in Hrun.
    destruct (collect_stats _ _ _ _ _ _) as [[res'| |] r2] eqn:Hc; try discriminate.
    injection Hrun as <- <-. constructor; [|by eapply IH].
    unfold with_histograms in Hh. destruct (histogramsNeeded ctx).
    + unfold bind at 1, get in Hh. unfold bind at 1 in Hh.
      destruct (jobsStatisticsHistogram _ _ _ _ _ _) as [[d| |] r3]; try discriminate.
      unfold bind at 1 in Hh.
      destruct (jobsStatisticsHistogram _ _ _ _ _ _) as [[n| |] r4]; try discriminate.
      injection Hh as <- <-. by repeat split.
    + injection Hh as <- <-. by repeat split.
Qed.

(** The map that the first two parts of [JobsStatistics] leave. *)
Lemma short_jobs_counts ctx filter groupBy castType stats r stats' r' :
  short_jobs ctx filter groupBy stats r = (Ok stats', r') →
  counts_upto castType ctx filter (group_key groupBy) (jobTable r) config_pairs stats →
  ∀ g st', stats' !! g = Some st' →
    model.ID st' = g
    ∧ model.TotalJobs st'
      = go_int (sumZ (List.map (subcluster_job_count ctx filter (group_key groupBy) g
                                  (jobTable r)) config_pairs))
    ∧ model.TotalWalltime st'
      = go_int (sumZ (List.map (subcluster_walltime castType ctx filter (group_key groupBy) g
                                  (jobTable r)) config_pairs)).
Proof.
  intros Hrun Hinv g st' Hst'.
  assert (Hkeep : ∀ st, stats !! g = Some st →
            model.ID st' = model.ID st ∧ model.TotalJobs st' = model.TotalJobs st
            ∧ model.TotalWalltime st' = model.TotalWalltime st →
            model.ID st' = g
            ∧ model.TotalJobs st'
              = go_int (sumZ (List.map (subcluster_job_count ctx filter (group_key groupBy) g
                                          (jobTable r)) config_pairs))
            ∧ model.TotalWalltime st'
              = go_int (sumZ (List.map (subcluster_walltime castType ctx filter
                                          (group_key groupBy) g (jobTable r)) config_pairs))).
  { intros st Hst (-> & -> & ->). specialize (Hinv g). rewrite Hst in Hinv.
    destruct Hinv as (Hid & HJ & HW & _). by repeat split. }
  destruct groupBy as [a|].
  - rewrite short_jobs_grouped_run in Hrun.
    destruct (SecurityCheck ctx _) as [q| |] eqn:Hq; try discriminate.
    destruct (sql_bare_row _) as [reported|].
    + destruct (stats !! aggregate_key a reported) as [st|] eqn:Hst; [|discriminate].
      injection Hrun as <- <-.
      destruct (decide (aggregate_key a reported = g)) as [<-|Hne].
      * rewrite lookup_insert_eq in Hst'. injection Hst' as <-.
        apply (Hkeep st Hst). by repeat split.
      * rewrite lookup_insert_ne in Hst' by done. apply (Hkeep st' Hst'). by repeat split.
    + injection Hrun as <- <-. apply (Hkeep st' Hst'). by repeat split.
  - rewrite short_jobs_ungrouped_run in Hrun.
    destruct (SecurityCheck ctx _) as [q| |] eqn:Hq; try discriminate.
    destruct (stats !! "") as [st|] eqn:Hst; [|discriminate].
    injection Hrun as <- <-.
    destruct (decide (g = "")) as [->|Hne].
    + rewrite lookup_insert_eq in Hst'. injection Hst' as <-.
      apply (Hkeep st Hst). by repeat split.
    + rewrite lookup_insert_ne in Hst' by done. apply (Hkeep st' Hst'). by repeat split.
Qed.

(** The short jobs that the second part of [JobsStatistics] files. *)
Lemma short_jobs_reported ctx filter groupBy stats r stats' r' :
  short_jobs ctx filter groupBy stats r = (Ok stats', r') →
  short_jobs_unset stats →
  ∀ g st', stats' !! g = Some st' →
    model.ID st' = g
    ∧ model.ShortJobs st' = reported_short_jobs ctx filter groupBy g (jobTable r).
Proof.
  intros Hrun Hinv g st' Hst'. unfold reported_short_jobs.
  destruct groupBy as [a|].
  - rewrite short_jobs_grouped_run in Hrun.
    destruct (SecurityCheck ctx _) as [q| |] eqn:Hq; try discriminate.
    rewrite (short_query_spec _ _ _ Hq) in Hrun.
    destruct (sql_bare_row _) as [reported|].
    + destruct (stats !! aggregate_key a reported) as [st|] eqn:Hst; [|discriminate].
      injection Hrun as <- <-.
      destruct (decide (aggregate_key a reported = g)) as [<-|Hne].
      * rewrite lookup_insert_eq in Hst'. injection Hst' as <-.
        split; [exact (proj1 (Hinv _ _ Hst))|reflexivity].
      * rewrite lookup_insert_ne in Hst' by done. exact (Hinv g st' Hst').
    + injection Hrun as <- <-. exact (Hinv g st' Hst').
  - rewrite short_jobs_ungrouped_run in Hrun.
    destruct (SecurityCheck ctx _) as [q| |] eqn:Hq; try discriminate.
    rewrite (short_query_spec _ _ _ Hq) in Hrun.
    destruct (stats !! "") as [st|] eqn:Hst; [|discriminate].
    injection Hrun as <- <-.
    destruct (decide (g = "")) as [->|Hne].
    + rewrite lookup_insert_eq in Hst'. injection Hst' as <-.
      split; [exact (proj1 (Hinv _ _ Hst))|reflexivity].
    + rewrite lookup_insert_ne in Hst' by done. exact (Hinv g st' Hst').
Qed.

(** An entry of the result of [JobsStatistics] comes from an entry of the
    map that the first two parts leave, with the same counts. *)
Lemma JobsStatistics_entry_origin ctx filter groupBy r res r' st :
  JobsStatistics ctx filter groupBy r = (Ok res, r') → st ∈ res →
  ∃ stats1 r1 stats2 r2 g st2,
    cluster_stats ctx filter groupBy (castType_of (driver r)) ∅ r = (Ok stats1, r1)
    ∧ short_jobs ctx filter groupBy stats1 r1 = (Ok stats2, r2)
    ∧ stats2 !! g = Some st2
    ∧ same_counts st2 st.
Proof.
  intros Hrun Hst. unfold JobsStatistics in Hrun.
  unfold bind at 1, get in Hrun. unfold bind at 1 in Hrun.
  destruct (cluster_stats _ _ _ _ _ _) as [[stats1| |] r1] eqn:H1; try discriminate.
  unfold bind at 1 in Hrun.
  destruct (short_jobs _ _ _ _ _) as [[stats2| |] r2] eqn:H2; try discriminate.
  unfold bind at 1 in Hrun.
  destruct (user_names _ _ _ _) as [[stats3| |] r3] eqn:H3; try discriminate.
  apply collect_stats_keeps_counts in Hrun.
  apply user_names_keeps_counts in H3.
  destruct (proj1 (list_elem_of_lookup _ _) Hst) as [i Hi].
  destruct (Forall2_lookup_r _ _ _ _ _ Hrun Hi) as (st3 & Hi3 & Hid & HJ & HW & HS).
  assert (Hin3 : st3 ∈ (map_to_list stats3).*2) by (eapply list_elem_of_lookup_2; eauto).
  apply list_elem_of_fmap in Hin3 as ([g st3'] & -> & Hin3).
  apply elem_of_map_to_list in Hin3. cbn [snd] in *.
  specialize (H3 g). rewrite Hin3 in H3.
  destruct H3 as (st2 & Hst2 & Hid2 & HJ2 & HW2 & HS2).
  exists stats1, r1, stats2, r2, g, st2. split; [reflexivity|]. split; [exact H2|].
  split; [exact Hst2|]. repeat split; congruence.
Qed.

(** X24.  For every entry of the result of [JobsStatistics], grouped or
    not, the total number of jobs is the number of the selected jobs of
    the group on the configured subclusters, counted once per configured
    (cluster, subcluster) pair, and the total walltime is the sum, over
    these pairs, of the durations of those jobs divided by 3600 and
    rounded by the rule of the engine for each pair.  Jobs on a cluster or
    subcluster that is not configured are in neither total.  The statement
    is for statements that the engine computes exactly, in 64 bits
    ([statistics_exact]); the totals are Go integers, and they are the
    sums themselves when these fit 64 bits. *)
Theorem JobsStatistics_job_totals
    (ctx : Context) (filter : list JobFilter) (groupBy : option model.Aggregate)
    (r : JobRepository) (res : list model.JobsStatistics) (r' : JobRepository) :
  statistics_exact (castType_of (driver r)) ctx filter (jobTable r) = true →
  JobsStatistics ctx filter groupBy r = (Ok res, r') →
  ∀ st, st ∈ res →
    model.TotalJobs st
    = go_int (sumZ (List.map (subcluster_job_count ctx filter (group_key groupBy)
                                (model.ID st) (jobTable r)) config_pairs))
    ∧ model.TotalWalltime st
      = go_int (sumZ (List.map (subcluster_walltime (castType_of (driver r)) ctx filter
                                  (group_key groupBy) (model.ID st) (jobTable r))
                        config_pairs))
    ∧ (int64 (sumZ (List.map (subcluster_job_count ctx filter (group_key groupBy)
                                (model.ID st) (jobTable r)) config_pairs)) = true →
       model.TotalJobs st
       = sumZ (List.map (subcluster_job_count ctx filter (group_key groupBy)
                           (model.ID st) (jobTable r)) config_pairs))
    ∧ (int64 (sumZ (List.map (subcluster_walltime (castType_of (driver r)) ctx filter
                                (group_key groupBy) (model.ID st) (jobTable r))
                      config_pairs)) = true →
       model.TotalWalltime st
       = sumZ (List.map (subcluster_walltime (castType_of (driver r)) ctx filter
                           (group_key groupBy) (model.ID st) (jobTable r)) config_pairs)).
Proof.
  intros Hex Hrun st Hst.
  destruct (JobsStatistics_entry_origin _ _ _ _ _ _ _ Hrun Hst)
    as (stats1 & r1 & stats2 & r2 & g & st2 & H1 & H2 & Hst2 & Hid & HJ & HW & _).
  apply (cluster_stats_counts _ _ _ _ _ _ _ Hex) in H1 as [Hjobs Hcounts].
  rewrite <- Hjobs in Hcounts.
  destruct (short_jobs_counts _ _ _ _ _ _ _ _ H2 Hcounts g st2 Hst2) as (Hg & HJg & HWg).
  rewrite Hjobs in HJg, HWg.
  assert (Hkey : model.ID st = g) by congruence.
  rewrite Hkey, HJ, HW, HJg, HWg.
  assert (Hfit : ∀ x, int64 x = true → go_int x = x).
  { intros x Hx. apply go_int_fits. unfold int64 in Hx.
    apply andb_true_iff in Hx as [Hlo Hhi]. lia. }
  split; [reflexivity|]. split; [reflexivity|]. split; apply Hfit.
Qed.

(** X25.  The short jobs in the result of [JobsStatistics].  Without a
    grouping, the entry reports the number of all selected jobs that are
    shorter than the configured duration, on configured clusters or not.
    With a grouping, the query has no [GROUP BY]: the number of all
    selected short jobs, of every group, is reported for the single group
    of the row that the engine returns next to the count, and every other
    entry reports 0. *)
Theorem JobsStatistics_short_jobs
    (ctx : Context) (filter : list JobFilter) (groupBy : option model.Aggregate)
    (r : JobRepository) (res : list model.JobsStatistics) (r' : JobRepository) :
  JobsStatistics ctx filter groupBy r = (Ok res, r') →
  ∀ st, st ∈ res →
    model.ShortJobs st = reported_short_jobs ctx filter groupBy (model.ID st) (jobTable r).
Proof.
  intros Hrun st Hst.
  destruct (JobsStatistics_entry_origin _ _ _ _ _ _ _ Hrun Hst)
    as (stats1 & r1 & stats2 & r2 & g & st2 & H1 & H2 & Hst2 & Hid & _ & _ & HS).
  apply cluster_stats_unset in H1 as [Hjobs Hunset].
  destruct (short_jobs_reported _ _ _ _ _ _ _ H2 Hunset g st2 Hst2) as [Hg Hshort].
  rewrite Hjobs in Hshort. congruence.
Qed.

End StatisticsCounts.

Lemma JobsStatistics_job_totals_witness :
  ∃ res r',
    @JobsStatistics wildcard_engine two_clusters (request root) []
      (Some model.AggregateUser) (repository "sqlite3" 10000 jobs_with_short [])
    = (Ok res, r')
    ∧ List.map (λ st, (model.ID st, model.TotalJobs st, model.TotalWalltime st)) res
      = [("alice", 3%Z, 2%Z); ("bob", 3%Z, 1%Z)]
    ∧ ∀ st, st ∈ res →
        model.TotalJobs st
        = go_int (sumZ (List.map (@subcluster_job_count (request root) []
                                    (group_key (Some model.AggregateUser)) (model.ID st)
                                    jobs_with_short) (@config_pairs two_clusters))).
Proof.
  eexists. eexists. split; [vm_compute; reflexivity|]. split; [reflexivity|].
  intros st Hst.
  eapply (@JobsStatistics_job_totals wildcard_engine two_clusters (request root) []
            (Some model.AggregateUser) (repository "sqlite3" 10000 jobs_with_short []));
    [vm_compute; reflexivity|vm_compute; reflexivity|exact Hst].
Defined.

Lemma JobsStatistics_short_jobs_witness :
  ∃ res r',
    @JobsStatistics wildcard_engine two_clusters (request root) []
      (Some model.AggregateUser) (repository "sqlite3" 10000 jobs_with_short [])
    = (Ok res, r')
    ∧ List.map (λ st, (model.ID st, model.ShortJobs st)) res
      = [("alice", 0%Z); ("bob", 2%Z)]
    ∧ ∀ st, st ∈ res →
        model.ShortJobs st
        = @reported_short_jobs wildcard_engine two_clusters (request root) []
            (Some model.AggregateUser) (model.ID st) jobs_with_short.
Proof.
  eexists. eexists. split; [vm_compute; reflexivity|]. split; [reflexivity|].
  intros st Hst.
  eapply (@JobsStatistics_short_jobs wildcard_engine two_clusters (request root) []
            (Some model.AggregateUser) (repository "sqlite3" 10000 jobs_with_short []));
    [vm_compute; reflexivity|exact Hst].
Defined.

(** ** Updates by id *)

Section UpdatesById.
Context {runtime : GoRuntime} {codec : ResourceCodec} {inserts : InsertEngine}.

Lemma map_unchanged (cond : JobRow → bool) (f : JobRow → JobRow) (rows : list JobRow) :
  Forall (λ row, cond row = false) rows →
  List.map (λ row, if cond row then f row else row) rows = rows.
Proof.
  induction 1 as [|row rows Hrow _ IH]; [reflexivity|].
  cbn [List.map]. by rewrite Hrow, IH.
Qed.

Lemma update_where_unknown cond f r :
  Forall (λ row, cond row = false) (jobTable r) →
  update_where cond f r = (Ok tt, set_executed (executed r ++ [StmtUpdate "job"]) r).
Proof.
  intros Hnone. rewrite update_where_run, (map_unchanged _ _ _ Hnone).
  by destruct r.
Qed.

(** X27.  The updates by id do not notice a job that does not exist:
    for an id that no row carries, [Stop], [UpdateMonitoringStatus] and
    [MarkArchived] execute their statement, report success and leave every
    row as it is. *)
Theorem updates_of_unknown_job_succeed (jobId : Z) (r : JobRepository) :
  jobId ∉ List.map id (jobTable r) →
  (∀ d st ms,
     Stop jobId d st ms r = (Ok tt, set_executed (executed r ++ [StmtUpdate "job"]) r))
  ∧ (∀ ms, UpdateMonitoringStatus jobId ms r
           = (Ok tt, set_executed (executed r ++ [StmtUpdate "job"]) r))
  ∧ (∀ ms metricStats,
       MarkArchived jobId ms metricStats r
       = (Ok tt, set_executed (executed r ++ [StmtUpdate "job"]) r)).
Proof.
  intros Hid.
  assert (Hnone : Forall (λ row, (id row =? jobId)%Z = false) (jobTable r)).
  { apply Forall_forall. intros row Hrow. apply Z.eqb_neq. intros Heq. apply Hid.
    rewrite <- Heq. apply list_elem_of_In, in_map, list_elem_of_In, Hrow. }
  split; [|split]; intros; by apply update_where_unknown.
Qed.

(** X28.  [MarkArchived] sets the monitoring status of the rows of the
    job and, for each of the six metrics it knows, the summary column of
    the metric: the maximum for [mem_used], the average for the others.  A
    summary column whose metric the client did not report keeps its value,
    statistics under any other metric name are ignored, and no other
    column and no other row changes. *)
Theorem MarkArchived_columns
    (jobId : Z) (ms : MonitoringStatus) (metricStats : gmap string JobStatistics)
    (r : JobRepository) :
  (∀ metricStats' : gmap string JobStatistics,
     (∀ metric, metric ∈ summary_metrics → metricStats' !! metric = metricStats !! metric) →
     MarkArchived jobId ms metricStats' r = MarkArchived jobId ms metricStats r)
  ∧ fst (MarkArchived jobId ms metricStats r) = Ok tt
  ∧ (∀ (i : nat) (row : JobRow),
       jobTable r !! i = Some row →
       ∃ row', jobTable (snd (MarkArchived jobId ms metricStats r)) !! i = Some row'
               ∧ (id row ≠ jobId → row' = row)
               ∧ (id row = jobId →
                  monitoring_status row' = ms
                  ∧ flops_any_avg row'
                    = from_option (λ s, Some (Avg s)) (flops_any_avg row)
                        (metricStats !! "flops_any")
                  ∧ mem_used_max row'
                    = from_option (λ s, Some (Max s)) (mem_used_max row)
                        (metricStats !! "mem_used")
                  ∧ mem_bw_avg row'
                    = from_option (λ s, Some (Avg s)) (mem_bw_avg row)
                        (metricStats !! "mem_bw")
                  ∧ load_avg row'
                    = from_option (λ s, Some (Avg s)) (load_avg row)
                        (metricStats !! "load")
                  ∧ net_bw_avg row'
                    = from_option (λ s, Some (Avg s)) (net_bw_avg row)
                        (metricStats !! "net_bw")
                  ∧ file_bw_avg row'
                    = from_option (λ s, Some (Avg s)) (file_bw_avg row)
                        (metricStats !! "file_bw")
                  ∧ set_monitoring_status (monitoring_status row)
                      (row_with row' ms (job_state row') (duration row') (meta_data row')
                         (flops_any_avg row) (mem_used_max row) (mem_bw_avg row)
                         (load_avg row) (net_bw_avg row) (file_bw_avg row))
                    = row)).
Proof.
  split.
  { intros metricStats' Hagree. unfold MarkArchived, stat_column.
    rewrite !Hagree by (unfold summary_metrics; set_solver). reflexivity. }
  unfold MarkArchived. rewrite update_where_run. split; [reflexivity|].
  intros i row Hi. cbn [snd jobTable set_jobTable]. rewrite lookup_map, Hi.
  cbn [fmap option_fmap option_map]. eexists. split; [reflexivity|].
  destruct (Z.eqb_spec (id row) jobId) as [Heq|Hne].
  - split; [contradiction|]. intros _. unfold stat_column.
    cbn [monitoring_status flops_any_avg mem_used_max mem_bw_avg load_avg net_bw_avg
         file_bw_avg row_with job_state duration meta_data].
    repeat split; try (by destruct (metricStats !! _)).
    by destruct row.
  - split; [reflexivity|contradiction].
Qed.

(** X29.  The metadata that [Start] stores is what [FetchMetadata]
    loads for the new job: the entries the job was started with, and the
    nil map for a job that was started without metadata (the column holds
    [null] then).  The statement assumes that the cache holds no valid
    entry under the key of the new id, as one of a deleted job with the
    same id would be, and that the JSON codec decodes what it encodes. *)
Theorem Start_then_FetchMetadata
    (job : schema.JobMeta) (r : JobRepository) (id' : Z) (r1 : JobRepository)
    (jb : Job) :
  Start job r = (Ok id', r1) →
  ID jb = id' →
  MetaData jb = None →
  cache_misses (metadata_cachekey jb) r →
  (∀ kv raw, schema.MetaData job = Some kv →
             marshal_metadata kv = Some raw →
             raw ≠ "" ∧ unmarshal_metadata raw = Some (Some kv)) →
  unmarshal_metadata "null" = Some None →
  fetched (FetchMetadata jb r1) = Ok (schema.MetaData job).
Proof.
  intros Hstart Hid Hheld Hmiss Hcodec Hnull. unfold Start in Hstart.
  destruct (marshal_resources _) as [rawResources|] eqn:Hr; [|discriminate].
  destruct (marshal_map _) as [rawMetaData|] eqn:Hm; [|discriminate].
  unfold bind, exec, modify, get, ret in Hstart. cbv beta iota in Hstart.
  injection Hstart as Hid' <-.
  rewrite FetchMetadata_miss by exact Hmiss. rewrite Hheld.
  cbn [fmap option_fmap option_map].
  pose proof (sql_insert_id_fresh (jobTable r)) as Hfresh.
  assert (Hfind : job_row_of jb
                    (set_jobTable
                       (jobTable r ++ [inserted_row (sql_insert_id (jobTable r)) job
                                         rawResources rawMetaData])
                       (set_executed (executed r ++ [StmtInsert "job"]) r))
                  = Some (inserted_row (sql_insert_id (jobTable r)) job
                            rawResources rawMetaData)).
  { unfold job_row_of. cbn [jobTable set_jobTable]. rewrite Hid, <- Hid'.
    apply find_app_absent; [|apply Z.eqb_refl].
    apply Forall_forall. intros row0 Hin. apply Z.eqb_neq. intros Heq.
    apply Hfresh. rewrite <- Heq. apply list_elem_of_In, in_map, list_elem_of_In, Hin. }
  rewrite Hfind. unfold stored_metadata. cbn [meta_data inserted_row default from_option id].
  unfold marshal_map in Hm. destruct (schema.MetaData job) as [kv|].
  - destruct (Hcodec kv rawMetaData eq_refl Hm) as [Hne Hdec].
    assert (Hlen : (len (Some rawMetaData) =? 0)%Z = false).
    { apply Z.eqb_neq. destruct rawMetaData; [done|]. cbn. lia. }
    rewrite Hlen. unfold Datatypes.id. rewrite Hdec. reflexivity.
  - injection Hm as <-. cbn [len String.length]. cbn. rewrite Hnull. reflexivity.
Qed.

End UpdatesById.

Section SearchOrder.
Context {engine : SqlEngine}.

(** X30.  For a caller with an elevated role, a search term that is the
    user of a job is resolved to that user by the first lookup: the result
    is the term itself as the user name, with an empty project and hint,
    after one statement, whatever the term matches besides. *)
Theorem FindUserOrProjectOrJobname_user_first
    (ctx : Context) (u : User) (searchterm : string) (r : JobRepository) :
  GetUser ctx = Some u →
  HasAnyRole u elevated = true →
  Atoi searchterm = None →
  searchterm ≠ "" →
  searchterm ∈ List.map user (jobTable r) →
  FindUserOrProjectOrJobname ctx searchterm r
  = (Ok (searchterm, "", ""), set_executed (executed r ++ [StmtSelect "job"]) r).
Proof.
  intros Huser Hrole Hatoi Hne Hin.
  unfold FindUserOrProjectOrJobname. rewrite Hatoi, Huser.
  unfold bind at 1. rewrite ignore_FindColumnValue_run. rewrite Hrole.
  assert (Hlookup : column_lookup u searchterm "job" "user" "user" false r = searchterm).
  { unfold column_lookup, ignore_error.
    rewrite (FindColumnValue_elevated_run _ _ _ _ _ _ _ Hrole). cbn [fst].
    unfold select_column_value. rewrite decide_True by reflexivity.
    change (job_text_column "user") with (Some (λ row : JobRow, Some (user row))).
    cbv iota beta. unfold query_first.
    change (jobTable (set_executed ?e r)) with (jobTable r).
    destruct (List.find _ (jobTable r)) as [row|] eqn:Hfind.
    - apply find_some in Hfind as [_ Heq]. apply String.eqb_eq in Heq.
      cbn. by rewrite Heq.
    - exfalso. apply elem_of_map_key in Hin as (row & Hrow & Hu).
      apply list_elem_of_In in Hrow.
      pose proof (find_none _ _ Hfind row Hrow) as Hno. cbn beta in Hno.
      rewrite Hu, String.eqb_refl in Hno. discriminate. }
  rewrite Hlookup.
  destruct (String.eqb_spec searchterm "") as [?|_]; [contradiction|].
  reflexivity.
Qed.

End SearchOrder.

Lemma updates_of_unknown_job_succeed_witness :
  Stop 99 10 JobStateCompleted MonitoringStatusArchivingSuccessful
    (repository "sqlite3" 10000 finished_jobs [])
  = (Ok tt, set_executed [StmtUpdate "job"] (repository "sqlite3" 10000 finished_jobs [])).
Proof.
  destruct (updates_of_unknown_job_succeed 99 (repository "sqlite3" 10000 finished_jobs []))
    as (Hstop & _ & _).
  - vm_compute. intros Hin. repeat (apply elem_of_cons in Hin as [[=]|Hin]).
    by apply elem_of_nil in Hin.
  - apply Hstop.
Defined.

Lemma Start_then_FetchMetadata_witness :
  ∃ r1,
    @Start json_runtime json_codec ascending_ids new_job
      (repository "sqlite3" 10000 walltime_jobs []) = (Ok 4%Z, r1)
    ∧ fetched (@FetchMetadata json_runtime
                 (job_struct (job_row 4 "carol" "p" "emmy" "main" 9000 0 3600 1
                                JobStateRunning MonitoringStatusRunningOrArchiving None))
                 r1)
      = Ok (schema.MetaData new_job).
Proof.
  destruct (@Start json_runtime json_codec ascending_ids new_job
              (repository "sqlite3" 10000 walltime_jobs [])) as [res r1] eqn:Hrun.
  assert (Hres : res = Ok 4%Z) by (vm_compute in Hrun; by injection Hrun as <- _).
  subst res. exists r1. split; [reflexivity|].
  apply (@Start_then_FetchMetadata json_runtime json_codec ascending_ids new_job
           (repository "sqlite3" 10000 walltime_jobs []) 4%Z r1 _ Hrun).
  - reflexivity.
  - reflexivity.
  - vm_compute. exact I.
  - intros kv raw Hkv Hraw. injection Hkv as <-. vm_compute in Hraw.
    injection Hraw as <-. split; [discriminate|]. vm_compute. reflexivity.
  - reflexivity.
Defined.

Lemma FindUserOrProjectOrJobname_user_first_witness :
  @FindUserOrProjectOrJobname wildcard_engine (request root) "bob"
    (repository "sqlite3" 10000 finished_jobs [])
  = (Ok ("bob", "", ""),
     set_executed [StmtSelect "job"] (repository "sqlite3" 10000 finished_jobs [])).
Proof.
  apply (@FindUserOrProjectOrJobname_user_first wildcard_engine (request root) root "bob"
           (repository "sqlite3" 10000 finished_jobs [])).
  - reflexivity.
  - reflexivity.
  - reflexivity.
  - discriminate.
  - vm_compute. apply list_elem_of_further, list_elem_of_here.
Defined.
